(* ===================================================================== *)
(* Blog platform: reactions, counters, listings and the comment guard    *)
(*                                                                       *)
(* A shallow embedding of                                                *)
(*   posts/infrastructure/posts.repository.ts      (PostsRepository)     *)
(*   comments/infrastructure/comment-repository.ts (CommentRepository)   *)
(*   comments/application/comment service          (CommentService)      *)
(* The relational store is a record of three tables, each a list of      *)
(* rows; every repository method is a function on that record.  Methods  *)
(* that write return the new store, methods that only read return their  *)
(* result.  NOW() is an explicit argument of every method that inserts.  *)
(* ===================================================================== *)

From Stdlib Require Import ZArith String Ascii List Lia Bool Permutation Sorted.
From stdpp Require Import base option gmap strings.
Import ListNotations.

Local Open Scope Z_scope.

(* --------------------------------------------------------------------- *)
(* JavaScript strings                                                    *)
(* --------------------------------------------------------------------- *)

(* Strings are sequences of 8-bit units.  toUpperCase / toLowerCase act  *)
(* on the letters a-z / A-Z and leave every other unit as it is: the     *)
(* model covers the ASCII range of String.prototype.toUpperCase.  It is  *)
(* exact on strings of ASCII units (is_ascii below).  On other strings   *)
(* JavaScript also maps some letters into ASCII (U+017F to 'S', U+212A   *)
(* to 'k'), which the model does not do; statements about case that are  *)
(* to hold of every string are stated for ASCII strings.                 *)
Module Js.

Definition is_lower (c : ascii) : bool :=
  let n := N_of_ascii c in ((97 <=? n) && (n <=? 122))%N.

Definition is_upper (c : ascii) : bool :=
  let n := N_of_ascii c in ((65 <=? n) && (n <=? 90))%N.

Definition upper_unit (c : ascii) : ascii :=
  if is_lower c then ascii_of_N (N_of_ascii c - 32) else c.

Definition lower_unit (c : ascii) : ascii :=
  if is_upper c then ascii_of_N (N_of_ascii c + 32) else c.

Fixpoint map_units (f : ascii -> ascii) (s : string) : string :=
  match s with
  | EmptyString => EmptyString
  | String c r => String (f c) (map_units f r)
  end.

Definition toUpperCase (s : string) : string := map_units upper_unit s.
Definition toLowerCase (s : string) : string := map_units lower_unit s.

(* s.charAt(0): the first unit as a string, the empty string on "" *)
Definition charAt0 (s : string) : string :=
  match s with
  | EmptyString => EmptyString
  | String c _ => String c EmptyString
  end.

(* s.slice(1) *)
Definition slice1 (s : string) : string :=
  match s with
  | EmptyString => EmptyString
  | String _ r => r
  end.

(* truthiness of a string value that may be undefined *)
Definition truthy (o : option string) : bool :=
  match o with
  | Some s => negb (String.eqb s EmptyString)
  | None => false
  end.

(* One decimal digit, and zero-padded decimal numerals of fixed width. *)
Definition digit (d : Z) : ascii := ascii_of_N (48 + Z.to_N (d mod 10)).

Fixpoint padded (width : nat) (n : Z) (acc : string) : string :=
  match width with
  | O => acc
  | S w => padded w (n / 10) (String (digit n) acc)
  end.

(* Date: milliseconds since the epoch, as Date.prototype.getTime has it. *)
Definition Date := Z.

(* days since 1970-01-01 to (year, month, day) of the proleptic
   Gregorian calendar *)
Definition civil_from_days (days : Z) : Z * Z * Z :=
  let z := days + 719468 in
  let era := z / 146097 in
  let doe := z - era * 146097 in
  let yoe := (doe - doe / 1460 + doe / 36524 - doe / 146096) / 365 in
  let y := yoe + era * 400 in
  let doy := doe - (365 * yoe + yoe / 4 - yoe / 100) in
  let mp := (5 * doy + 2) / 153 in
  let d := doy - (153 * mp + 2) / 5 + 1 in
  let m := if mp <? 10 then mp + 3 else mp - 9 in
  (if m <=? 2 then y + 1 else y, m, d).

Definition year_string (y : Z) : string :=
  if (0 <=? y) && (y <=? 9999) then padded 4 y EmptyString
  else if y <? 0 then String "-"%char (padded 6 (- y) EmptyString)
  else String "+"%char (padded 6 y EmptyString).

(* Date.prototype.toISOString: YYYY-MM-DDTHH:mm:ss.sssZ *)
Definition toISOString (t : Date) : string :=
  let days := t / 86400000 in
  let ms := t mod 86400000 in
  let '(y, m, d) := civil_from_days days in
  (year_string y +:+ "-" +:+ padded 2 m EmptyString +:+ "-" +:+
   padded 2 d EmptyString +:+ "T" +:+
   padded 2 (ms / 3600000) EmptyString +:+ ":" +:+
   padded 2 (ms / 60000 mod 60) EmptyString +:+ ":" +:+
   padded 2 (ms / 1000 mod 60) EmptyString +:+ "." +:+
   padded 3 (ms mod 1000) EmptyString +:+ "Z")%string.

(* the units of an ASCII string are below 128 *)
Fixpoint ascii_only (s : string) : bool :=
  match s with
  | EmptyString => true
  | String c r => (N_of_ascii c <? 128)%N && ascii_only r
  end.

Definition is_ascii (s : string) : Prop := ascii_only s = true.

(* Object.getOwnPropertyNames(Object.prototype): what a lookup obj[name]
   on an object literal finds although the literal does not define it *)
Definition object_prototype_names : list string :=
  ["constructor"; "__defineGetter__"; "__defineSetter__"; "hasOwnProperty";
   "__lookupGetter__"; "__lookupSetter__"; "isPrototypeOf";
   "propertyIsEnumerable"; "toString"; "valueOf"; "__proto__";
   "toLocaleString"]%string.

(* Math.ceil (a / b) on integers, for a divisor b > 0 *)
Definition ceil_div (a b : Z) : Z := - ((- a) / b).

End Js.

(* --------------------------------------------------------------------- *)
(* The relational store                                                  *)
(* --------------------------------------------------------------------- *)

(* SQL statements over a table held as a list of rows.  INSERT appends;
   a query without ORDER BY returns the rows in table order.  The store
   leaves the order of rows that tie on the ORDER BY key open, and may
   choose it anew for every query: its contract is legal_answer below.
   order_by is the answer in which tied rows keep their table order (a
   stable insertion sort); it is the only answer when the keys are
   pairwise distinct.  Text keys are compared unit by unit (collation C).
   LIMIT and OFFSET are modelled for counts that are not negative (the
   store rejects a negative count) and LIMIT for a positive count as
   take sends it. *)
Module Sql.

Section Table.
Context {A : Type}.

Definition select (p : A -> bool) (t : list A) : list A := List.filter p t.
Definition delete (p : A -> bool) (t : list A) : list A :=
  List.filter (fun r => negb (p r)) t.
Definition update (p : A -> bool) (f : A -> A) (t : list A) : list A :=
  List.map (fun r => if p r then f r else r) t.
Definition insert (r : A) (t : list A) : list A := t ++ [r].
Definition count (p : A -> bool) (t : list A) : Z := Z.of_nat (length (select p t)).
(* number of rows an UPDATE touches *)
Definition affected (p : A -> bool) (t : list A) : Z := count p t.

Definition offset (k : Z) (t : list A) : list A := skipn (Z.to_nat k) t.
Definition limit (n : Z) (t : list A) : list A := firstn (Z.to_nat n) t.

End Table.

(* a sort key is a timestamp column or a text column *)
Inductive Key := KTime (t : Z) | KText (s : string).

Definition key_leb (a b : Key) : bool :=
  match a, b with
  | KTime x, KTime y => x <=? y
  | KText x, KText y => String.leb x y
  | KTime _, KText _ => true
  | KText _, KTime _ => false
  end.

Inductive Direction := ASC | DESC.

Section OrderBy.
Context {A : Type} (key : A -> Key) (dir : Direction).

(* r may stay in front of x *)
Definition before (r x : A) : bool :=
  match dir with
  | ASC => key_leb (key r) (key x)
  | DESC => key_leb (key x) (key r)
  end.

Fixpoint place (r : A) (sorted : list A) : list A :=
  match sorted with
  | [] => [r]
  | x :: rest => if before r x then r :: x :: rest else x :: place r rest
  end.

Definition order_by (t : list A) : list A := List.fold_right place [] t.

End OrderBy.

End Sql.

(** Modelled from the spec: the LikeStatus enumeration, whose three
    members are the strings the repositories compare with and store
    ('Like', 'Dislike', 'None'). *)
Module LikeStatus.
Definition Like : string := "Like".
Definition Dislike : string := "Dislike".
Definition None : string := "None".
End LikeStatus.

(* The likes table (entity Likes).  The generated primary key id is
   never read or compared by the repositories and is left out. *)
Module Likes.
Record row := mk {
  user_id : string;
  user_login : string;
  entity_id : string;
  entity_type : string;
  status : string;
  created_at : Js.Date
}.
Definition set_status (v : string) (r : row) : row :=
  mk (user_id r) (user_login r) (entity_id r) (entity_type r) v (created_at r).
End Likes.

(** Modelled from the spec: the comments table
    comments(id, content, post_id, user_id, user_login, created_at,
    deletion_status), the columns the queries of CommentRepository name. *)
Module Comment.
Record row := mk {
  id : string;
  content : string;
  post_id : string;
  user_id : string;
  user_login : string;
  created_at : Js.Date;
  deletion_status : string
}.
Definition set_content (v : string) (r : row) : row :=
  mk (id r) v (post_id r) (user_id r) (user_login r) (created_at r) (deletion_status r).
Definition set_deletion_status (v : string) (r : row) : row :=
  mk (id r) (content r) (post_id r) (user_id r) (user_login r) (created_at r) v.
End Comment.

Module Blog.
Record row := mk { id : string; name : string }.
End Blog.

Inductive DeletionStatus := ACTIVE | DELETED.

(** Modelled from the spec: the Post entity
    posts(id, title, short_description, content, blog_id, likes_count,
    dislikes_count, created_at, deletion_status); the blog relation is
    held as the joined Blog row, as leftJoinAndSelect loads it. *)
Module Post.
Record row := mk {
  id : string;
  title : string;
  shortDescription : string;
  content : string;
  blog : Blog.row;
  likesCount : Z;
  dislikesCount : Z;
  createdAt : Js.Date;
  deletionStatus : DeletionStatus
}.
Definition set_likesCount (v : Z) (r : row) : row :=
  mk (id r) (title r) (shortDescription r) (content r) (blog r) v
     (dislikesCount r) (createdAt r) (deletionStatus r).
Definition set_dislikesCount (v : Z) (r : row) : row :=
  mk (id r) (title r) (shortDescription r) (content r) (blog r) (likesCount r)
     v (createdAt r) (deletionStatus r).
Definition set_deletionStatus (v : DeletionStatus) (r : row) : row :=
  mk (id r) (title r) (shortDescription r) (content r) (blog r) (likesCount r)
     (dislikesCount r) (createdAt r) v.
End Post.

Record Db := mkDb {
  likes : list Likes.row;
  comments : list Comment.row;
  posts : list Post.row
}.

Definition set_likes (v : list Likes.row) (db : Db) : Db := mkDb v (comments db) (posts db).
Definition set_comments (v : list Comment.row) (db : Db) : Db := mkDb (likes db) v (posts db).
Definition set_posts (v : list Post.row) (db : Db) : Db := mkDb (likes db) (comments db) v.

(* WHERE user_id = $1 AND entity_id = $2 AND entity_type = <etype> *)
Definition reaction_of (userId entityId etype : string) (l : Likes.row) : bool :=
  String.eqb (Likes.user_id l) userId && String.eqb (Likes.entity_id l) entityId
  && String.eqb (Likes.entity_type l) etype.

(* result[0]?.status of a status query *)
Definition first_status (rows : list Likes.row) : option string :=
  match rows with
  | [] => None
  | r :: _ => Some (Likes.status r)
  end.

(* x || d on a string that may be undefined *)
Definition or_else (o : option string) (d : string) : string :=
  match o with
  | Some s => if String.eqb s EmptyString then d else s
  | None => d
  end.

(* Values of a view field that holds a timestamp: the ISO string
   toISOString returns, or the Date object the driver returned. *)
Inductive JsValue := JsString (s : string) | JsDate (d : Js.Date).

Inductive Exception := NotFoundException | ForbiddenException | TypeORMError.

(* The Pagination envelope *)
Record Pagination (A : Type) := mkPagination {
  pagesCount : Z;
  page : Z;
  pageSize : Z;
  totalCount : Z;
  items : list A
}.
Arguments mkPagination {A}.
Arguments pagesCount {A}.
Arguments page {A}.
Arguments pageSize {A}.
Arguments totalCount {A}.
Arguments items {A}.

(* The query DTOs: every field is optional *)
Record Query := mkQuery {
  q_pageNumber : option Z;
  q_pageSize : option Z;
  q_sortBy : option string;
  q_sortDirection : option string
}.

(* --------------------------------------------------------------------- *)
(* CommentRepository                                                     *)
(* --------------------------------------------------------------------- *)

Record CommentatorInfo := mkCommentatorInfo { ci_userId : string; ci_userLogin : string }.

Record LikesInfo := mkLikesInfo {
  li_likesCount : Z;
  li_dislikesCount : Z;
  li_myStatus : string
}.

(* the object literal findById and getCommentsForPost return per comment *)
Record CommentView := mkCommentView {
  cv_id : string;
  cv_content : string;
  commentatorInfo : CommentatorInfo;
  cv_createdAt : JsValue;
  likesInfo : LikesInfo
}.

Module CommentRepository.

(* WHERE entity_id = $1 AND entity_type = 'Comment' AND status = <st> *)
Definition comment_reaction_with (commentId st : string) (l : Likes.row) : bool :=
  String.eqb (Likes.entity_id l) commentId
  && String.eqb (Likes.entity_type l) "Comment"
  && String.eqb (Likes.status l) st.

(* WHERE id = $1 AND deletion_status = 'active' *)
Definition active_with_id (commentId : string) (c : Comment.row) : bool :=
  String.eqb (Comment.id c) commentId
  && String.eqb (Comment.deletion_status c) "active".

Definition findById (db : Db) (commentId : string) (currentUserId : option string)
  : option CommentView :=
  match Sql.select (active_with_id commentId) (comments db) with
  | [] => None
  | comment :: _ =>
      let likesCount := Sql.count (comment_reaction_with commentId "Like") (likes db) in
      let dislikesCount := Sql.count (comment_reaction_with commentId "Dislike") (likes db) in
      let myStatus :=
        match currentUserId with
        | Some u =>
            if Js.truthy (Some u) then
              match Sql.select (reaction_of u commentId "Comment") (likes db) with
              | [] => LikeStatus.None
              | r :: _ => Likes.status r
              end
            else LikeStatus.None
        | None => LikeStatus.None
        end in
      Some (mkCommentView (Comment.id comment) (Comment.content comment)
              (mkCommentatorInfo (Comment.user_id comment) (Comment.user_login comment))
              (JsString (Js.toISOString (Comment.created_at comment)))
              (mkLikesInfo likesCount dislikesCount myStatus))
  end.

Definition findUserReaction (db : Db) (entityId userId entityType : string)
  : option string :=
  first_status (Sql.select (reaction_of userId entityId entityType) (likes db)).

Definition updateContent (db : Db) (commentId content : string) : Db :=
  set_comments
    (Sql.update (fun c => String.eqb (Comment.id c) commentId)
       (Comment.set_content content) (comments db)) db.

Definition delete (db : Db) (commentId : string) : Db :=
  set_comments
    (Sql.update (fun c => String.eqb (Comment.id c) commentId)
       (Comment.set_deletion_status "deleted") (comments db)) db.

(* sortableFieldsMap, with its own properties only.  The source indexes
   an object literal, so a sortBy in Js.object_prototype_names finds an
   inherited value, which is interpolated into ORDER BY and makes the
   query fail: getCommentsForPost below is the listing for every other
   sortBy (own_sort_name), and statements about what it returns carry
   that condition. *)
Definition sortableFieldsMap : gmap string string :=
  <["content" := "content"]> (<["createdAt" := "created_at"]> ∅).

(* query.sortDirection?.toUpperCase() === 'ASC' ? 'ASC' : 'DESC' *)
Definition sortDirection (q : Query) : string :=
  match q_sortDirection q with
  | Some d => if String.eqb (Js.toUpperCase d) "ASC" then "ASC" else "DESC"
  | None => "DESC"
  end.

(* a number || a default: 0 and undefined give the default *)
Definition num_or (o : option Z) (d : Z) : Z :=
  match o with
  | Some n => if n =? 0 then d else n
  | None => d
  end.

(* ORDER BY <column> of the listing query; only content and created_at
   can be interpolated *)
Definition column_key (column : string) (c : Comment.row) : Sql.Key :=
  if String.eqb column "content" then Sql.KText (Comment.content c)
  else Sql.KTime (Comment.created_at c).

(* ORDER BY ... <direction> as the store reads the interpolated text *)
Definition sql_direction (d : string) : Sql.Direction :=
  if String.eqb d "ASC" then Sql.ASC else Sql.DESC.

(* WHERE c.post_id = $1 AND c.deletion_status = 'active' *)
Definition active_of_post (postId : string) (c : Comment.row) : bool :=
  String.eqb (Comment.post_id c) postId
  && String.eqb (Comment.deletion_status c) "active".

(* the rows of the listing query before LIMIT and OFFSET *)
Definition sorted_comments (db : Db) (postId : string) (q : Query) : list Comment.row :=
  let sortByRaw := or_else (q_sortBy q) "createdAt" in
  let sortBy := or_else (sortableFieldsMap !! sortByRaw) "created_at" in
  Sql.order_by (column_key sortBy) (sql_direction (sortDirection q))
    (Sql.select (active_of_post postId) (comments db)).

Definition comment_item (db : Db) (currentUserId : option string) (c : Comment.row)
  : CommentView :=
  let myStatus :=
    if Js.truthy currentUserId then
      or_else (first_status
                 (Sql.select (reaction_of (default EmptyString currentUserId)
                                (Comment.id c) "Comment") (likes db)))
              "None"
    else "None" in
  mkCommentView (Comment.id c) (Comment.content c)
    (mkCommentatorInfo (Comment.user_id c) (Comment.user_login c))
    (JsDate (Comment.created_at c))
    (mkLikesInfo (Sql.count (comment_reaction_with (Comment.id c) "Like") (likes db))
       (Sql.count (comment_reaction_with (Comment.id c) "Dislike") (likes db))
       myStatus).

Definition getCommentsForPost (db : Db) (postId : string) (q : Query)
    (currentUserId : option string) : Pagination CommentView :=
  let page := num_or (q_pageNumber q) 1 in
  let pageSize := num_or (q_pageSize q) 10 in
  let skip := (page - 1) * pageSize in
  let rows := Sql.limit pageSize (Sql.offset skip (sorted_comments db postId q)) in
  let totalCount := Sql.count (active_of_post postId) (comments db) in
  let pagesCount := Js.ceil_div totalCount pageSize in
  mkPagination pagesCount page pageSize totalCount
    (List.map (comment_item db currentUserId) rows).

(* status.charAt(0).toUpperCase() + status.slice(1).toLowerCase() *)
Definition normalizedStatus (status : string) : string :=
  (Js.toUpperCase (Js.charAt0 status) +:+ Js.toLowerCase (Js.slice1 status))%string.

Definition updateLikeForComment (db : Db) (now : Js.Date)
    (commentId userId userLogin status : string) : Db :=
  let normalizedStatus := normalizedStatus status in
  if String.eqb normalizedStatus "None" then
    set_likes (Sql.delete (reaction_of userId commentId "Comment") (likes db)) db
  else
    let existing := Sql.select (reaction_of userId commentId "Comment") (likes db) in
    if (0 <? length existing)%nat then
      set_likes (Sql.update (reaction_of userId commentId "Comment")
                   (Likes.set_status normalizedStatus) (likes db)) db
    else
      set_likes (Sql.insert
                   (Likes.mk userId userLogin commentId "Comment" normalizedStatus now)
                   (likes db)) db.

End CommentRepository.

(* --------------------------------------------------------------------- *)
(* PostsRepository                                                       *)
(* --------------------------------------------------------------------- *)

(* The part of the query builder the listings rely on:
   SelectQueryBuilder.orderBy takes the order "ASC" or "DESC" and throws
   a TypeORMError on any other value. *)
Module TypeOrm.
Definition orderBy (order : string) : Exception + Sql.Direction :=
  if String.eqb order "ASC" then inr Sql.ASC
  else if String.eqb order "DESC" then inr Sql.DESC
  else inl TypeORMError.
End TypeOrm.

Record NewestLike := mkNewestLike {
  addedAt : string;
  nl_userId : string;
  login : string
}.

Record ExtendedLikesInfo := mkExtendedLikesInfo {
  el_likesCount : Z;
  el_dislikesCount : Z;
  el_myStatus : string;
  newestLikes : list NewestLike
}.

Record PostView := mkPostView {
  pv_id : string;
  pv_title : string;
  pv_shortDescription : string;
  pv_content : string;
  blogId : string;
  blogName : string;
  pv_createdAt : string;
  extendedLikesInfo : ExtendedLikesInfo
}.

(* the fields updatePost reads from UpdatePostDto *)
Record UpdatePostDto := mkUpdatePostDto {
  dto_title : string;
  dto_shortDescription : string;
  dto_content : string
}.

Module PostsRepository.

Definition normalizeLikeStatus (status : string) : string :=
  if String.eqb status LikeStatus.Like then LikeStatus.Like
  else if String.eqb status LikeStatus.Dislike then LikeStatus.Dislike
  else LikeStatus.None.

(* postIds.includes(x), also the reading of entity_id = ANY($1) *)
Definition includes (xs : list string) (x : string) : bool :=
  List.existsb (String.eqb x) xs.

Definition getUserLikeStatuses (db : Db) (postIds : list string) (userId : string)
  : gmap string string :=
  let result :=
    Sql.select (fun l => includes postIds (Likes.entity_id l)
                         && String.eqb (Likes.user_id l) userId
                         && String.eqb (Likes.entity_type l) "Post") (likes db) in
  List.fold_left
    (fun acc curr => <[Likes.entity_id curr := normalizeLikeStatus (Likes.status curr)]> acc)
    result ∅.

Definition like_of_post_in (postIds : list string) (l : Likes.row) : bool :=
  includes postIds (Likes.entity_id l)
  && String.eqb (Likes.entity_type l) "Post"
  && String.eqb (Likes.status l) "Like".

Definition newest_like (l : Likes.row) : NewestLike :=
  mkNewestLike (Js.toISOString (Likes.created_at l)) (Likes.user_id l) (Likes.user_login l).

(* one step of the reduce of getNewestLikes: create the array of the
   post when it is missing, then push *)
Definition push_like (acc : gmap string (list NewestLike)) (curr : Likes.row)
  : gmap string (list NewestLike) :=
  let acc1 :=
    match acc !! Likes.entity_id curr with
    | Some _ => acc
    | None => <[Likes.entity_id curr := []]> acc
    end in
  <[Likes.entity_id curr := default [] (acc1 !! Likes.entity_id curr) ++ [newest_like curr]]> acc1.

Definition getNewestLikes (db : Db) (postIds : list string)
  : gmap string (list NewestLike) :=
  let result :=
    Sql.limit 3
      (Sql.order_by (fun l => Sql.KTime (Likes.created_at l)) Sql.DESC
         (Sql.select (like_of_post_in postIds) (likes db))) in
  List.fold_left push_like result ∅.

(* x || 0 on a counter *)
Definition or_zero (n : Z) : Z := if n =? 0 then 0 else n.

Definition post_key (safeSortBy : string) (p : Post.row) : Sql.Key :=
  if String.eqb safeSortBy "title" then Sql.KText (Post.title p)
  else if String.eqb safeSortBy "shortDescription" then Sql.KText (Post.shortDescription p)
  else if String.eqb safeSortBy "content" then Sql.KText (Post.content p)
  else if String.eqb safeSortBy "blogName" then Sql.KText (Blog.name (Post.blog p))
  else Sql.KTime (Post.createdAt p).

Definition is_active (p : Post.row) : bool :=
  match Post.deletionStatus p with ACTIVE => true | DELETED => false end.

(* the object literal both listings build per post *)
Definition post_item (userId : option string) (userLikeStatuses : gmap string string)
    (newest : gmap string (list NewestLike)) (post : Post.row) : PostView :=
  mkPostView (Post.id post) (Post.title post) (Post.shortDescription post)
    (Post.content post) (Blog.id (Post.blog post)) (Blog.name (Post.blog post))
    (Js.toISOString (Post.createdAt post))
    (mkExtendedLikesInfo (or_zero (Post.likesCount post)) (or_zero (Post.dislikesCount post))
       (if Js.truthy userId
        then or_else (userLikeStatuses !! Post.id post) LikeStatus.None
        else LikeStatus.None)
       (default [] (newest !! Post.id post))).

(* what follows getManyAndCount in both listings *)
Definition assemble (db : Db) (pageNumber pageSize : Z) (userId : option string)
    (found : list Post.row) (totalCount : Z) : Pagination PostView :=
  let userLikeStatuses :=
    if Js.truthy userId
    then getUserLikeStatuses db (List.map Post.id found) (default EmptyString userId)
    else ∅ in
  let newest := getNewestLikes db (List.map Post.id found) in
  mkPagination (Js.ceil_div totalCount pageSize) pageNumber pageSize totalCount
    (List.map (post_item userId userLikeStatuses newest) found).

(* WHERE post.blog_id = :blogId AND post.deletionStatus = :status *)
Definition active_of_blog (blogId : string) (p : Post.row) : bool :=
  String.eqb (Blog.id (Post.blog p)) blogId && is_active p.

Definition getPostsByBlogId (db : Db) (blogId : string) (q : Query)
    (userId : option string) : Exception + Pagination PostView :=
  let pageNumber := default 1 (q_pageNumber q) in
  let pageSize := default 10 (q_pageSize q) in
  let sortBy := default "createdAt"%string (q_sortBy q) in
  let sortDirection := default "desc"%string (q_sortDirection q) in
  let allowedSortFields := ["createdAt"; "title"; "shortDescription"; "content"]%string in
  let safeSortBy := if includes allowedSortFields sortBy then sortBy else "createdAt"%string in
  match TypeOrm.orderBy (Js.toUpperCase sortDirection) with
  | inl e => inl e
  | inr dir =>
      let matching := Sql.select (active_of_blog blogId) (posts db) in
      let found :=
        Sql.limit pageSize
          (Sql.offset ((pageNumber - 1) * pageSize)
             (Sql.order_by (post_key safeSortBy) dir matching)) in
      let totalCount := Z.of_nat (length matching) in
      inr (assemble db pageNumber pageSize userId found totalCount)
  end.

Definition getAllPostsWithPagination (db : Db) (q : Query) (userId : option string)
  : Exception + Pagination PostView :=
  let pageNumber := default 1 (q_pageNumber q) in
  let pageSize := default 10 (q_pageSize q) in
  let sortBy := default "createdAt"%string (q_sortBy q) in
  let sortDirection := default "desc"%string (q_sortDirection q) in
  let allowedSortFields :=
    ["createdAt"; "title"; "shortDescription"; "content"; "blogName"]%string in
  let safeSortBy := if includes allowedSortFields sortBy then sortBy else "createdAt"%string in
  match TypeOrm.orderBy (Js.toUpperCase sortDirection) with
  | inl e => inl e
  | inr dir =>
      let matching := Sql.select is_active (posts db) in
      let found :=
        Sql.limit pageSize
          (Sql.offset ((pageNumber - 1) * pageSize)
             (Sql.order_by (post_key safeSortBy) dir matching)) in
      let totalCount := Z.of_nat (length matching) in
      inr (assemble db pageNumber pageSize userId found totalCount)
  end.

Definition findPostById (db : Db) (postId : string) (userId : option string)
  : option PostView :=
  match Sql.select (fun p => String.eqb (Post.id p) postId && is_active p) (posts db) with
  | [] => None
  | post :: _ =>
      let myStatus :=
        if Js.truthy userId then
          normalizeLikeStatus
            (or_else (first_status
                        (Sql.select (fun l => String.eqb (Likes.entity_id l) postId
                                              && String.eqb (Likes.user_id l) (default EmptyString userId)
                                              && String.eqb (Likes.entity_type l) "Post")
                           (likes db)))
                     LikeStatus.None)
        else LikeStatus.None in
      let newest :=
        Sql.limit 3
          (Sql.order_by (fun l => Sql.KTime (Likes.created_at l)) Sql.DESC
             (Sql.select (like_of_post_in [postId]) (likes db))) in
      Some (mkPostView (Post.id post) (Post.title post) (Post.shortDescription post)
              (Post.content post) (Blog.id (Post.blog post)) (Blog.name (Post.blog post))
              (Js.toISOString (Post.createdAt post))
              (mkExtendedLikesInfo (or_zero (Post.likesCount post))
                 (or_zero (Post.dislikesCount post)) myStatus
                 (List.map newest_like newest)))
  end.

(* WHERE id = :postId AND blog_id = :blogId *)
Definition post_of_blog (postId blogId : string) (p : Post.row) : bool :=
  String.eqb (Post.id p) postId && String.eqb (Blog.id (Post.blog p)) blogId.

Definition deletePost (db : Db) (postId blogId : string) : Db * bool :=
  (set_posts (Sql.update (post_of_blog postId blogId)
                (Post.set_deletionStatus DELETED) (posts db)) db,
   0 <? Sql.affected (post_of_blog postId blogId) (posts db)).

(* .set({ title, shortDescription, content }) of updatePost *)
Definition set_texts (dto : UpdatePostDto) (p : Post.row) : Post.row :=
  Post.mk (Post.id p) (dto_title dto) (dto_shortDescription dto) (dto_content dto)
    (Post.blog p) (Post.likesCount p) (Post.dislikesCount p) (Post.createdAt p)
    (Post.deletionStatus p).

Definition updatePost (db : Db) (postId blogId : string) (dto : UpdatePostDto) : Db * bool :=
  (set_posts (Sql.update (post_of_blog postId blogId) (set_texts dto) (posts db)) db,
   0 <? Sql.affected (post_of_blog postId blogId) (posts db)).

(* SET <counter> = <counter> + delta, for the counter named by the
   computed property key *)
Definition bump (counter : string) (delta : Z) (p : Post.row) : Post.row :=
  if String.eqb counter "likesCount"
  then Post.set_likesCount (Post.likesCount p + delta) p
  else Post.set_dislikesCount (Post.dislikesCount p + delta) p.

Definition counter_of (status : string) : string :=
  if String.eqb status "Like" then "likesCount" else "dislikesCount".

Definition has_id (postId : string) (p : Post.row) : bool := String.eqb (Post.id p) postId.

Definition updateLikeForPost (db : Db) (now : Js.Date)
    (postId userId userLogin status : string) : Db :=
  let normalizedStatus := normalizeLikeStatus status in
  let currentLike := Sql.select (reaction_of userId postId "Post") (likes db) in
  let currentStatus := first_status currentLike in
  let db1 :=
    if Js.truthy currentStatus then
      let d := set_likes (Sql.delete (reaction_of userId postId "Post") (likes db)) db in
      set_posts (Sql.update (has_id postId)
                   (bump (counter_of (default EmptyString currentStatus)) (-1)) (posts d)) d
    else db in
  if negb (String.eqb normalizedStatus "None") then
    let d := set_likes (Sql.insert
                          (Likes.mk userId userLogin postId "Post" normalizedStatus now)
                          (likes db1)) db1 in
    set_posts (Sql.update (has_id postId) (bump (counter_of normalizedStatus) 1) (posts d)) d
  else db1.

End PostsRepository.

(* --------------------------------------------------------------------- *)
(* CommentService                                                        *)
(* --------------------------------------------------------------------- *)

Module CommentService.

(* A method of the service ends by returning or by throwing; the store
   it leaves behind is part of the outcome either way. *)
Definition Outcome (A : Type) : Type := Db * (Exception + A).

Definition getCommentById (db : Db) (commentId : string) (currentUserId : option string)
  : Outcome CommentView :=
  match CommentRepository.findById db commentId currentUserId with
  | None => (db, inl NotFoundException)
  | Some comment => (db, inr comment)
  end.

Definition updateComment (db : Db) (commentId content userId : string) : Outcome unit :=
  match CommentRepository.findById db commentId None with
  | None => (db, inl NotFoundException)
  | Some comment =>
      if negb (String.eqb (ci_userId (commentatorInfo comment)) userId)
      then (db, inl ForbiddenException)
      else (CommentRepository.updateContent db commentId content, inr tt)
  end.

Definition deleteComment (db : Db) (commentId userId : string) : Outcome unit :=
  match CommentRepository.findById db commentId None with
  | None => (db, inl NotFoundException)
  | Some comment =>
      if negb (String.eqb (ci_userId (commentatorInfo comment)) userId)
      then (db, inl ForbiddenException)
      else (CommentRepository.delete db commentId, inr tt)
  end.

Definition likeComment (db : Db) (now : Js.Date)
    (commentId userId userLogin likeStatus : string) : Outcome unit :=
  match CommentRepository.findById db commentId None with
  | None => (db, inl NotFoundException)
  | Some _ =>
      (CommentRepository.updateLikeForComment db now commentId userId userLogin likeStatus,
       inr tt)
  end.

End CommentService.

(* --------------------------------------------------------------------- *)
(* Observations and call sequences used by the statements                *)
(* --------------------------------------------------------------------- *)

(* (likesCount, dislikesCount) of the post row with the given id *)
Definition counters (db : Db) (postId : string) : option (Z * Z) :=
  match Sql.select (PostsRepository.has_id postId) (posts db) with
  | [] => None
  | p :: _ => Some (Post.likesCount p, Post.dislikesCount p)
  end.

(* The counter maintenance as the specification words it: move the
   counter that matches a status by delta; None matches no counter. *)
Definition adjust (status : string) (delta : Z) (c : Z * Z) : Z * Z :=
  if String.eqb status "Like" then (fst c + delta, snd c)
  else if String.eqb status "Dislike" then (fst c, snd c + delta)
  else c.

(* the user's current status on an entity: None when there is no row *)
Definition status_of (db : Db) (entityId userId entityType : string) : string :=
  default LikeStatus.None (CommentRepository.findUserReaction db entityId userId entityType).

Definition canonical (status : string) : Prop :=
  status = LikeStatus.Like \/ status = LikeStatus.Dislike \/ status = LikeStatus.None.

(* the reaction rows of one (entityId, entityType, userId) *)
Definition reaction_rows (db : Db) (entityId entityType userId : string) : list Likes.row :=
  Sql.select (reaction_of userId entityId entityType) (likes db).

(* no stored reaction of a post has the empty status *)
Definition post_statuses_set (db : Db) : Prop :=
  forall r, In r (likes db) -> Likes.entity_type r = "Post"%string ->
            Likes.status r <> EmptyString.

Definition none_not_stored (db : Db) : Prop :=
  forall r, In r (likes db) -> Likes.status r <> LikeStatus.None.

(* one reaction update, with the time NOW() returns during it *)
Inductive ReactionCall :=
| ForComment (now : Js.Date) (commentId userId userLogin status : string)
| ForPost (now : Js.Date) (postId userId userLogin status : string).

Definition call (db : Db) (c : ReactionCall) : Db :=
  match c with
  | ForComment now commentId userId userLogin status =>
      CommentRepository.updateLikeForComment db now commentId userId userLogin status
  | ForPost now postId userId userLogin status =>
      PostsRepository.updateLikeForPost db now postId userId userLogin status
  end.

Definition calls (cs : list ReactionCall) (db : Db) : Db := List.fold_left call cs db.

(* the same query for another page *)
Definition at_page (q : Query) (k : Z) : Query :=
  mkQuery (Some k) (q_pageSize q) (q_sortBy q) (q_sortDirection q).

(* page numbers 1 .. n *)
Definition page_numbers (n : Z) : list Z := List.map Z.of_nat (seq 1 (Z.to_nat n)).

Definition items_of {A : Type} (r : Exception + Pagination A) : list A :=
  match r with
  | inr p => items p
  | inl _ => []
  end.

(* the fields a post view copies from the row *)
Definition view_fields (v : PostView) : string * string * string * string * string * string * string :=
  (pv_id v, pv_title v, pv_shortDescription v, pv_content v, blogId v, blogName v, pv_createdAt v).

Definition row_fields (p : Post.row) : string * string * string * string * string * string * string :=
  (Post.id p, Post.title p, Post.shortDescription p, Post.content p,
   Blog.id (Post.blog p), Blog.name (Post.blog p), Js.toISOString (Post.createdAt p)).

(* a row after a soft delete aimed at the rows that satisfy hit *)
Definition comment_soft_deleted (hit : Comment.row -> bool) (c c' : Comment.row) : Prop :=
  Comment.id c' = Comment.id c /\ Comment.content c' = Comment.content c /\
  Comment.post_id c' = Comment.post_id c /\ Comment.user_id c' = Comment.user_id c /\
  Comment.user_login c' = Comment.user_login c /\
  Comment.created_at c' = Comment.created_at c /\
  Comment.deletion_status c' =
    (if hit c then "deleted"%string else Comment.deletion_status c).

Definition post_soft_deleted (hit : Post.row -> bool) (p p' : Post.row) : Prop :=
  Post.id p' = Post.id p /\ Post.title p' = Post.title p /\
  Post.shortDescription p' = Post.shortDescription p /\
  Post.content p' = Post.content p /\ Post.blog p' = Post.blog p /\
  Post.likesCount p' = Post.likesCount p /\
  Post.dislikesCount p' = Post.dislikesCount p /\
  Post.createdAt p' = Post.createdAt p /\
  Post.deletionStatus p' = (if hit p then DELETED else Post.deletionStatus p).

(* what the data model lets a reaction query return: no row, Like or
   Dislike *)
Definition stored_reaction (o : option string) : Prop :=
  o = None \/ o = Some LikeStatus.Like \/ o = Some LikeStatus.Dislike.

(* The two halves of updateLikeForPost, named for the proofs: the
   removal of the current reaction with its decrement, and the insertion
   of the new one with its increment. *)
Definition old_removed (db : Db) (postId userId : string) : Db :=
  let currentStatus :=
    first_status (Sql.select (reaction_of userId postId "Post") (likes db)) in
  if Js.truthy currentStatus then
    let d := set_likes (Sql.delete (reaction_of userId postId "Post") (likes db)) db in
    set_posts (Sql.update (PostsRepository.has_id postId)
                 (PostsRepository.bump
                    (PostsRepository.counter_of (default EmptyString currentStatus)) (-1))
                 (posts d)) d
  else db.

Definition new_added (db1 : Db) (now : Js.Date)
    (postId userId userLogin normalizedStatus : string) : Db :=
  if negb (String.eqb normalizedStatus "None") then
    let d := set_likes (Sql.insert
                          (Likes.mk userId userLogin postId "Post" normalizedStatus now)
                          (likes db1)) db1 in
    set_posts (Sql.update (PostsRepository.has_id postId)
                 (PostsRepository.bump (PostsRepository.counter_of normalizedStatus) 1)
                 (posts d)) d
  else db1.

(* the comment a service call finds: the first row with the id that is
   not soft-deleted *)
Definition live_comment (db : Db) (commentId : string) : option Comment.row :=
  List.head (Sql.select (CommentRepository.active_with_id commentId) (comments db)).

(* a view field that holds the ISO-8601 rendering of some timestamp *)
Definition is_iso_string (v : JsValue) : Prop :=
  exists t, v = JsString (Js.toISOString t).

(* case-insensitive equality of two strings *)
Definition same_ignoring_case (a b : string) : Prop :=
  Js.toLowerCase a = Js.toLowerCase b.

(* the sort field getPostsByBlogId settles on, and the rows of its query
   before skip and take *)
Definition safe_sort_by (q : Query) : string :=
  let sortBy := default "createdAt"%string (q_sortBy q) in
  if PostsRepository.includes ["createdAt"; "title"; "shortDescription"; "content"]%string sortBy
  then sortBy else "createdAt"%string.

Definition sorted_posts (db : Db) (blogId : string) (q : Query) (dir : Sql.Direction)
  : list Post.row :=
  Sql.order_by (PostsRepository.post_key (safe_sort_by q)) dir
    (Sql.select (PostsRepository.active_of_blog blogId) (posts db)).

(* WHERE entity_id = <postId> AND entity_type = 'Post' AND status = <st> *)
Definition post_reaction_with (postId st : string) (l : Likes.row) : bool :=
  String.eqb (Likes.entity_id l) postId
  && String.eqb (Likes.entity_type l) "Post"
  && String.eqb (Likes.status l) st.

(* the number of stored reactions of a post with a given status *)
Definition likes_of (db : Db) (postId st : string) : Z :=
  Sql.count (post_reaction_with postId st) (likes db).

(* every post row counts the reactions stored for it *)
Definition counters_consistent (db : Db) : Prop :=
  forall p, In p (posts db) ->
            Post.likesCount p = likes_of db (Post.id p) "Like"
            /\ Post.dislikesCount p = likes_of db (Post.id p) "Dislike".

(* the stored reactions of posts are likes and dislikes *)
Definition post_statuses_valid (db : Db) : Prop :=
  forall r, In r (likes db) -> Likes.entity_type r = "Post"%string ->
            Likes.status r = LikeStatus.Like \/ Likes.status r = LikeStatus.Dislike.

(* the uniqueness constraint on (user_id, entity_id, entity_type) *)
Definition one_row_each (db : Db) : Prop :=
  forall entityId entityType userId,
    (length (reaction_rows db entityId entityType userId) <= 1)%nat.

(* the same query with another sortBy *)
Definition with_sortBy (q : Query) (o : option string) : Query :=
  mkQuery (q_pageNumber q) (q_pageSize q) o (q_sortDirection q).

(* a post row after updatePost aimed at the rows that satisfy hit *)
Definition post_texts_updated (hit : Post.row -> bool) (dto : UpdatePostDto)
    (p p' : Post.row) : Prop :=
  Post.id p' = Post.id p /\ Post.blog p' = Post.blog p /\
  Post.likesCount p' = Post.likesCount p /\
  Post.dislikesCount p' = Post.dislikesCount p /\
  Post.createdAt p' = Post.createdAt p /\
  Post.deletionStatus p' = Post.deletionStatus p /\
  (Post.title p', Post.shortDescription p', Post.content p')
  = (if hit p then (dto_title dto, dto_shortDescription dto, dto_content dto)
     else (Post.title p, Post.shortDescription p, Post.content p)).

(* two sort keys in the order a direction asks for *)
Definition in_order (dir : Sql.Direction) (k k' : Sql.Key) : Prop :=
  match dir with
  | Sql.ASC => Sql.key_leb k k' = true
  | Sql.DESC => Sql.key_leb k' k = true
  end.

(* the column the comment listing sorts by: content when asked for, the
   creation time otherwise *)
Definition comment_sort_key (q : Query) (c : Comment.row) : Sql.Key :=
  match q_sortBy q with
  | Some sb => if String.eqb sb "content" then Sql.KText (Comment.content c)
               else Sql.KTime (Comment.created_at c)
  | None => Sql.KTime (Comment.created_at c)
  end.

(* the same query with another sortDirection *)
Definition with_sortDirection (q : Query) (o : option string) : Query :=
  mkQuery (q_pageNumber q) (q_pageSize q) (q_sortBy q) o.

(* the sortBy of the query is not a name that sortableFieldsMap inherits:
   the condition under which the comment listing runs its query *)
Definition own_sort_name (q : Query) : Prop :=
  ~ In (or_else (q_sortBy q) "createdAt") Js.object_prototype_names.

(* page and pageSize as the listings read them, defaults included *)
Definition comments_page (q : Query) : Z := CommentRepository.num_or (q_pageNumber q) 1.
Definition comments_pageSize (q : Query) : Z := CommentRepository.num_or (q_pageSize q) 10.
Definition posts_page (q : Query) : Z := default 1 (q_pageNumber q).
Definition posts_pageSize (q : Query) : Z := default 10 (q_pageSize q).

(* What the store may answer to ORDER BY key dir over the rows t: any
   rearrangement of t in which every row is in order with every later
   row.  Rows that tie on the key may come in any order. *)
Definition legal_answer {A : Type} (key : A -> Sql.Key) (dir : Sql.Direction)
    (t answer : list A) : Prop :=
  Permutation answer t
  /\ StronglySorted (fun a b => in_order dir (key a) (key b)) answer.

(* no two rows have the same sort key *)
Definition distinct_keys {A : Type} (key : A -> Sql.Key) (t : list A) : Prop :=
  List.NoDup (List.map key t).

(* The rows a page query of getCommentsForPost may get from the store:
   the slice at offset (page - 1) * pageSize, of at most pageSize rows,
   of a legal answer to its ORDER BY. *)
Definition comment_page_rows (db : Db) (postId : string) (q : Query)
    (rows : list Comment.row) : Prop :=
  exists answer,
    legal_answer (comment_sort_key q)
      (CommentRepository.sql_direction (CommentRepository.sortDirection q))
      (Sql.select (CommentRepository.active_of_post postId) (comments db)) answer
    /\ rows = Sql.limit (comments_pageSize q)
                (Sql.offset ((comments_page q - 1) * comments_pageSize q) answer).

(* the same for getPostsByBlogId, in the direction the query builder took *)
Definition post_page_rows (db : Db) (blogId : string) (q : Query) (dir : Sql.Direction)
    (rows : list Post.row) : Prop :=
  exists answer,
    legal_answer (PostsRepository.post_key (safe_sort_by q)) dir
      (Sql.select (PostsRepository.active_of_blog blogId) (posts db)) answer
    /\ rows = Sql.limit (posts_pageSize q)
                (Sql.offset ((posts_page q - 1) * posts_pageSize q) answer).

(* A small store used by the evaluations below: one blog with two posts,
   one comment on the first post. *)
Module Sample.
Definition blog : Blog.row := Blog.mk "B" "blog".
Definition post1 : Post.row := Post.mk "P1" "first" "short" "text" blog 0 0 100 ACTIVE.
Definition post2 : Post.row := Post.mk "P2" "second" "short" "text" blog 0 0 200 ACTIVE.
Definition comment1 : Comment.row :=
  Comment.mk "C1" "a comment of twenty chars" "P1" "U" "user" 1700000000000 "active".
Definition db : Db := mkDb [] [comment1] [post1; post2].
Definition all : Query := mkQuery None None None None.
(* user a likes the second post at time 1, then users b, c and d like
   the first post at times 2, 3 and 4 *)
Definition liked : Db :=
  calls [ForPost 1 "P2" "a" "ann" "Like"; ForPost 2 "P1" "b" "bob" "Like";
         ForPost 3 "P1" "c" "cid" "Like"; ForPost 4 "P1" "d" "dan" "Like"] db.
(* two comments on the first post created at the same time *)
Definition ca : Comment.row :=
  Comment.mk "Ca" "one comment of twenty chars" "P1" "U" "user" 5 "active".
Definition cb : Comment.row :=
  Comment.mk "Cb" "another comment of twenty" "P1" "V" "viewer" 5 "active".
Definition tied : Db := mkDb [] [ca; cb] [post1; post2].
(* two comments on the first post created at different times *)
Definition spread : Db := mkDb [] [comment1; ca] [post1; post2].
End Sample.

(* ===================================================================== *)
(* Theorems                                                              *)
(* ===================================================================== *)

Example iso_epoch : Js.toISOString 0 = "1970-01-01T00:00:00.000Z"%string.
Proof. vm_compute. reflexivity. Qed.

Example iso_2023 : Js.toISOString 1700000000000 = "2023-11-14T22:13:20.000Z"%string.
Proof. vm_compute. reflexivity. Qed.

Example iso_leap : Js.toISOString 951782400123 = "2000-02-29T00:00:00.123Z"%string.
Proof. vm_compute. reflexivity. Qed.

Example iso_before_epoch : Js.toISOString (-1) = "1969-12-31T23:59:59.999Z"%string.
Proof. vm_compute. reflexivity. Qed.

(* --------------------------------------------------------------------- *)
(* Tables                                                                *)
(* --------------------------------------------------------------------- *)

Section TableFacts.
Context {A : Type}.
Implicit Types (p q : A -> bool) (f : A -> A) (t : list A).

Lemma select_update p q f t :
  (forall r, p (f r) = p r) ->
  Sql.select p (Sql.update q f t) = Sql.update q f (Sql.select p t).
Proof.
  intros Hf. unfold Sql.select, Sql.update.
  induction t as [|r t IH]; simpl; [reflexivity|].
  destruct (q r) eqn:Hq.
  - rewrite Hf. destruct (p r); simpl; rewrite ?Hq, IH; reflexivity.
  - destruct (p r); simpl; rewrite ?Hq, IH; reflexivity.
Qed.

Lemma update_length q f t : length (Sql.update q f t) = length t.
Proof. apply List.length_map. Qed.

Lemma select_insert p r t :
  Sql.select p (Sql.insert r t) = Sql.select p t ++ (if p r then [r] else []).
Proof. unfold Sql.select, Sql.insert. rewrite List.filter_app. reflexivity. Qed.

Lemma select_delete_same p t : Sql.select p (Sql.delete p t) = [].
Proof.
  unfold Sql.select, Sql.delete.
  induction t as [|r t IH]; simpl; [reflexivity|].
  destruct (p r) eqn:Hp; simpl; rewrite ?Hp; exact IH.
Qed.

Lemma select_delete_other p q t :
  (forall r, p r = true -> q r = false) ->
  Sql.select p (Sql.delete q t) = Sql.select p t.
Proof.
  intros Hpq. unfold Sql.select, Sql.delete.
  induction t as [|r t IH]; simpl; [reflexivity|].
  destruct (q r) eqn:Hq; simpl.
  - destruct (p r) eqn:Hp; [|exact IH].
    rewrite (Hpq r Hp) in Hq. discriminate.
  - rewrite IH. reflexivity.
Qed.

Lemma delete_delete p t : Sql.delete p (Sql.delete p t) = Sql.delete p t.
Proof.
  unfold Sql.delete.
  induction t as [|r t IH]; simpl; [reflexivity|].
  destruct (p r) eqn:Hp; simpl; rewrite ?Hp; simpl; rewrite ?IH; reflexivity.
Qed.

Lemma delete_insert_hit p r t : p r = true -> Sql.delete p (Sql.insert r t) = Sql.delete p t.
Proof.
  intros Hp. unfold Sql.delete, Sql.insert.
  rewrite List.filter_app. simpl. rewrite Hp. simpl. apply List.app_nil_r.
Qed.

Lemma select_nil_delete p t : Sql.select p t = [] -> Sql.delete p t = t.
Proof.
  unfold Sql.select, Sql.delete.
  induction t as [|r t IH]; simpl; [reflexivity|].
  destruct (p r); simpl; [discriminate|]. intros H. rewrite IH; auto.
Qed.

Lemma select_nil_update p f t : Sql.select p t = [] -> Sql.update p f t = t.
Proof.
  unfold Sql.select, Sql.update.
  induction t as [|r t IH]; simpl; [reflexivity|].
  destruct (p r); simpl; [discriminate|]. intros H. rewrite IH; auto.
Qed.

Lemma update_update p f g t :
  (forall r, p (f r) = p r) ->
  Sql.update p g (Sql.update p f t) = Sql.update p (fun r => g (f r)) t.
Proof.
  intros Hf. unfold Sql.update. rewrite List.map_map.
  apply List.map_ext. intros r. destruct (p r) eqn:Hp; [rewrite Hf|]; rewrite Hp; reflexivity.
Qed.

Lemma update_id p f t : (forall r, p r = true -> f r = r) -> Sql.update p f t = t.
Proof.
  intros Hf. unfold Sql.update.
  induction t as [|r t IH]; simpl; [reflexivity|].
  rewrite IH. destruct (p r) eqn:Hp; [rewrite Hf|]; auto.
Qed.

Lemma in_delete p t r : In r (Sql.delete p t) -> In r t.
Proof. unfold Sql.delete. intros H. apply List.filter_In in H. tauto. Qed.

Lemma in_update p f t r :
  In r (Sql.update p f t) -> In r t \/ exists r0, In r0 t /\ p r0 = true /\ r = f r0.
Proof.
  unfold Sql.update. intros H. apply List.in_map_iff in H as [r0 [Hr Hin]].
  destruct (p r0) eqn:Hp; subst; eauto.
Qed.

Lemma in_insert r0 t r : In r (Sql.insert r0 t) -> In r t \/ r = r0.
Proof.
  unfold Sql.insert. intros H. apply List.in_app_or in H as [H|[H|[]]]; auto.
Qed.

End TableFacts.

(* --------------------------------------------------------------------- *)
(* Counters of a post under a reaction update                            *)
(* --------------------------------------------------------------------- *)

Lemma has_id_bump postId c d p :
  PostsRepository.has_id postId (PostsRepository.bump c d p) = PostsRepository.has_id postId p.
Proof.
  unfold PostsRepository.has_id, PostsRepository.bump.
  destruct (String.eqb c "likesCount"); reflexivity.
Qed.

Lemma counters_set_likes db v postId : counters (set_likes v db) postId = counters db postId.
Proof. reflexivity. Qed.

Lemma counters_bump db postId st delta l d :
  st = LikeStatus.Like \/ st = LikeStatus.Dislike ->
  counters db postId = Some (l, d) ->
  counters (set_posts (Sql.update (PostsRepository.has_id postId)
                         (PostsRepository.bump (PostsRepository.counter_of st) delta)
                         (posts db)) db) postId
  = Some (adjust st delta (l, d)).
Proof.
  intros Hst. unfold counters. simpl.
  rewrite select_update by (intros; apply has_id_bump).
  destruct (Sql.select (PostsRepository.has_id postId) (posts db)) as [|p ps] eqn:Hsel;
    [discriminate|].
  intros [= <- <-]. simpl.
  assert (Hp : PostsRepository.has_id postId p = true).
  { assert (Hin : In p (Sql.select (PostsRepository.has_id postId) (posts db)))
      by (rewrite Hsel; left; reflexivity).
    apply List.filter_In in Hin. tauto. }
  rewrite Hp. destruct Hst as [-> | ->]; reflexivity.
Qed.

Lemma select_disjoint {A : Type} (p q : A -> bool) (t : list A) :
  (forall r, p r = true -> q r = false) -> Sql.select q (Sql.select p t) = [].
Proof.
  intros Hpq. unfold Sql.select.
  induction t as [|r t IH]; simpl; [reflexivity|].
  destruct (p r) eqn:Hp; simpl; [rewrite (Hpq r Hp)|]; exact IH.
Qed.

Lemma has_id_disjoint postId other p :
  other <> postId ->
  PostsRepository.has_id other p = true -> PostsRepository.has_id postId p = false.
Proof.
  unfold PostsRepository.has_id. intros Hne H1.
  apply String.eqb_eq in H1. apply String.eqb_neq. congruence.
Qed.

Lemma counters_bump_other db postId other c delta :
  other <> postId ->
  counters (set_posts (Sql.update (PostsRepository.has_id postId)
                         (PostsRepository.bump c delta) (posts db)) db) other
  = counters db other.
Proof.
  intros Hne. unfold counters. simpl.
  rewrite select_update by (intros; apply has_id_bump).
  rewrite select_nil_update; [reflexivity|].
  apply select_disjoint. intros r. apply has_id_disjoint. exact Hne.
Qed.

Lemma reaction_of_own userId userLogin entityId etype st now :
  reaction_of userId entityId etype (Likes.mk userId userLogin entityId etype st now) = true.
Proof. unfold reaction_of. simpl. rewrite !String.eqb_refl. reflexivity. Qed.

Lemma reaction_of_set_status userId entityId etype v r :
  reaction_of userId entityId etype (Likes.set_status v r) = reaction_of userId entityId etype r.
Proof. reflexivity. Qed.

Lemma first_status_none rows : first_status rows = None -> rows = [].
Proof. destruct rows; [reflexivity|discriminate]. Qed.

Lemma normalize_canonical status :
  canonical status -> PostsRepository.normalizeLikeStatus status = status.
Proof. intros [-> | [-> | ->]]; reflexivity. Qed.

Lemma updateLikeForPost_halves db now postId userId userLogin status :
  PostsRepository.updateLikeForPost db now postId userId userLogin status
  = new_added (old_removed db postId userId) now postId userId userLogin
      (PostsRepository.normalizeLikeStatus status).
Proof. reflexivity. Qed.

Lemma old_removed_rows db postId userId :
  let rows := reaction_rows db postId "Post" userId in
  Js.truthy (first_status rows) = true \/ rows = [] ->
  reaction_rows (old_removed db postId userId) postId "Post" userId = [].
Proof.
  unfold reaction_rows, old_removed. intros [Ht | Hnil].
  - rewrite Ht. simpl. apply select_delete_same.
  - rewrite Hnil. simpl. exact Hnil.
Qed.

(* The reaction rows of (postId, 'Post', userId) after an update, when the
   rows present before it are removed by its DELETE. *)
Lemma updateLikeForPost_rows db now postId userId userLogin status :
  let rows := reaction_rows db postId "Post" userId in
  Js.truthy (first_status rows) = true \/ rows = [] ->
  reaction_rows (PostsRepository.updateLikeForPost db now postId userId userLogin status)
    postId "Post" userId
  = if String.eqb (PostsRepository.normalizeLikeStatus status) "None" then []
    else [Likes.mk userId userLogin postId "Post"
            (PostsRepository.normalizeLikeStatus status) now].
Proof.
  intros rows Hrows. rewrite updateLikeForPost_halves.
  pose proof (old_removed_rows db postId userId Hrows) as Hdel.
  unfold reaction_rows, new_added in *.
  destruct (String.eqb (PostsRepository.normalizeLikeStatus status) "None"); simpl.
  - exact Hdel.
  - rewrite select_insert, Hdel, reaction_of_own. reflexivity.
Qed.

Lemma stored_reaction_rows db postId userId :
  stored_reaction (CommentRepository.findUserReaction db postId userId "Post") ->
  let rows := reaction_rows db postId "Post" userId in
  Js.truthy (first_status rows) = true \/ rows = [].
Proof.
  unfold CommentRepository.findUserReaction, reaction_rows.
  intros [H | [H | H]].
  - right. apply first_status_none. exact H.
  - left. rewrite H. reflexivity.
  - left. rewrite H. reflexivity.
Qed.

Lemma old_removed_counters db postId userId l d :
  stored_reaction (CommentRepository.findUserReaction db postId userId "Post") ->
  counters db postId = Some (l, d) ->
  counters (old_removed db postId userId) postId
  = Some (adjust (status_of db postId userId "Post") (-1) (l, d)).
Proof.
  unfold old_removed, status_of, CommentRepository.findUserReaction.
  intros Hold Hc.
  destruct Hold as [-> | [-> | ->]]; simpl.
  - exact Hc.
  - apply (counters_bump (set_likes _ db) postId LikeStatus.Like); auto.
  - apply (counters_bump (set_likes _ db) postId LikeStatus.Dislike); auto.
Qed.

Lemma new_added_counters db1 now postId userId userLogin status c :
  canonical status ->
  counters db1 postId = Some c ->
  counters (new_added db1 now postId userId userLogin status) postId
  = Some (adjust status 1 c).
Proof.
  intros Hnew Hc. destruct c as [l d]. unfold new_added.
  destruct Hnew as [-> | [-> | ->]]; simpl.
  - apply (counters_bump (set_likes _ _) postId LikeStatus.Like); auto.
  - apply (counters_bump (set_likes _ _) postId LikeStatus.Dislike); auto.
  - exact Hc.
Qed.

Lemma updateLikeForPost_counters db now postId userId userLogin status l d :
  stored_reaction (CommentRepository.findUserReaction db postId userId "Post") ->
  canonical status ->
  counters db postId = Some (l, d) ->
  counters (PostsRepository.updateLikeForPost db now postId userId userLogin status) postId
  = Some (adjust status 1 (adjust (status_of db postId userId "Post") (-1) (l, d))).
Proof.
  intros Hold Hnew Hc.
  rewrite updateLikeForPost_halves, (normalize_canonical _ Hnew).
  apply new_added_counters; [assumption|].
  apply old_removed_counters; assumption.
Qed.

Lemma updateLikeForPost_counters_other db now postId userId userLogin status other :
  other <> postId ->
  counters (PostsRepository.updateLikeForPost db now postId userId userLogin status) other
  = counters db other.
Proof.
  intros Hne. rewrite updateLikeForPost_halves. unfold new_added, old_removed.
  destruct (negb _).
  - rewrite counters_bump_other, counters_set_likes by exact Hne.
    destruct (Js.truthy _); [|reflexivity].
    rewrite counters_bump_other by exact Hne. reflexivity.
  - destruct (Js.truthy _); [|reflexivity].
    rewrite counters_bump_other by exact Hne. reflexivity.
Qed.
Lemma updateLikeForPost_reaction db now postId userId userLogin status :
  stored_reaction (CommentRepository.findUserReaction db postId userId "Post") ->
  canonical status ->
  CommentRepository.findUserReaction
    (PostsRepository.updateLikeForPost db now postId userId userLogin status)
    postId userId "Post"
  = if String.eqb status "None" then None else Some status.
Proof.
  intros Hold Hnew. unfold CommentRepository.findUserReaction.
  pose proof (updateLikeForPost_rows db now postId userId userLogin status
                (stored_reaction_rows db postId userId Hold)) as H.
  unfold reaction_rows in H. rewrite H, (normalize_canonical _ Hnew).
  destruct Hnew as [-> | [-> | ->]]; reflexivity.
Qed.

(** C1: a reaction update on a post moves the denormalized counters by
    the transition old->new: the counter matching old goes down by 1 when
    old is not None, the counter matching new goes up by 1 when new is
    not None, and the counters of other posts stay.  In particular, from
    counters (0,0) and no reaction of the user, Like, then Dislike, then
    None leave (1,0), then (0,1), then (0,0). *)
Theorem updateLikeForPost_counter_transitions (db : Db) (postId userId userLogin : string) :
  (forall now status l d,
      stored_reaction (CommentRepository.findUserReaction db postId userId "Post") ->
      canonical status ->
      counters db postId = Some (l, d) ->
      counters (PostsRepository.updateLikeForPost db now postId userId userLogin status) postId
      = Some (adjust status 1 (adjust (status_of db postId userId "Post") (-1) (l, d)))
      /\ (forall other, other <> postId ->
            counters (PostsRepository.updateLikeForPost db now postId userId userLogin status) other
            = counters db other))
  /\ (forall t1 t2 t3,
      counters db postId = Some (0, 0) ->
      CommentRepository.findUserReaction db postId userId "Post" = None ->
      let db1 := PostsRepository.updateLikeForPost db t1 postId userId userLogin "Like" in
      let db2 := PostsRepository.updateLikeForPost db1 t2 postId userId userLogin "Dislike" in
      let db3 := PostsRepository.updateLikeForPost db2 t3 postId userId userLogin "None" in
      counters db1 postId = Some (1, 0)
      /\ counters db2 postId = Some (0, 1)
      /\ counters db3 postId = Some (0, 0)).
Proof.
  split.
  - intros now status l d Hold Hnew Hc. split.
    + apply updateLikeForPost_counters; assumption.
    + intros other Hne. apply updateLikeForPost_counters_other. exact Hne.
  - intros t1 t2 t3 Hc Hnone db1 db2 db3.
    assert (H0 : stored_reaction (CommentRepository.findUserReaction db postId userId "Post"))
      by (left; exact Hnone).
    assert (C1 : counters db1 postId = Some (1, 0)).
    { unfold db1. rewrite (updateLikeForPost_counters _ _ _ _ _ _ 0 0 H0); auto.
      - unfold status_of. rewrite Hnone. reflexivity.
      - left. reflexivity. }
    assert (R1 : CommentRepository.findUserReaction db1 postId userId "Post" = Some "Like"%string).
    { unfold db1. rewrite updateLikeForPost_reaction; auto. left. reflexivity. }
    assert (S1 : stored_reaction (CommentRepository.findUserReaction db1 postId userId "Post"))
      by (rewrite R1; right; left; reflexivity).
    assert (C2 : counters db2 postId = Some (0, 1)).
    { unfold db2. rewrite (updateLikeForPost_counters _ _ _ _ _ _ 1 0 S1); auto.
      - unfold status_of. rewrite R1. reflexivity.
      - right. left. reflexivity. }
    assert (R2 : CommentRepository.findUserReaction db2 postId userId "Post" = Some "Dislike"%string).
    { unfold db2. rewrite updateLikeForPost_reaction; auto. right. left. reflexivity. }
    assert (S2 : stored_reaction (CommentRepository.findUserReaction db2 postId userId "Post"))
      by (rewrite R2; right; right; reflexivity).
    repeat split; auto.
    unfold db3. rewrite (updateLikeForPost_counters _ _ _ _ _ _ 0 1 S2); auto.
    + unfold status_of. rewrite R2. reflexivity.
    + right. right. reflexivity.
Qed.

Lemma updateLikeForPost_counter_transitions_witness :
  counters (PostsRepository.updateLikeForPost Sample.db 10 "P1" "U" "user" "Dislike") "P1"
  = Some (0, 1)
  /\ counters
       (PostsRepository.updateLikeForPost
          (PostsRepository.updateLikeForPost
             (PostsRepository.updateLikeForPost Sample.db 10 "P1" "U" "user" "Like")
             20 "P1" "U" "user" "Dislike")
          30 "P1" "U" "user" "None") "P1"
     = Some (0, 0).
Proof.
  destruct (updateLikeForPost_counter_transitions Sample.db "P1" "U" "user") as [G S].
  split.
  - apply (G 10 "Dislike"%string 0 0).
    + left. reflexivity.
    + right. left. reflexivity.
    + reflexivity.
  - apply (S 10 20 30); reflexivity.
Defined.

(* --------------------------------------------------------------------- *)
(* One row per (entity, type, user); None is never stored                *)
(* --------------------------------------------------------------------- *)

Lemma reaction_of_true userId entityId etype r :
  reaction_of userId entityId etype r = true <->
  Likes.user_id r = userId /\ Likes.entity_id r = entityId /\ Likes.entity_type r = etype.
Proof.
  unfold reaction_of. rewrite !andb_true_iff, !String.eqb_eq. tauto.
Qed.

Lemma reaction_of_same u e t u' e' t' r0 :
  reaction_of u e t r0 = true -> reaction_of u' e' t' r0 = true ->
  forall r, reaction_of u e t r = reaction_of u' e' t' r.
Proof.
  rewrite !reaction_of_true. intros (<- & <- & <-) (<- & <- & <-). reflexivity.
Qed.

Lemma reaction_of_apart u e t u' e' t' :
  (u, e, t) <> (u', e', t') ->
  forall r, reaction_of u e t r = true -> reaction_of u' e' t' r = false.
Proof.
  intros Hne r H. apply reaction_of_true in H as (Hu & He & Ht).
  destruct (reaction_of u' e' t' r) eqn:H'; [|reflexivity].
  apply reaction_of_true in H' as (Hu' & He' & Ht'). congruence.
Qed.

Lemma triple_dec (a b : string * string * string) : a = b \/ a <> b.
Proof.
  destruct a as [[a1 a2] a3], b as [[b1 b2] b3].
  destruct (String.eqb_spec a1 b1), (String.eqb_spec a2 b2), (String.eqb_spec a3 b3);
    subst; auto; right; congruence.
Qed.

Lemma post_rows_deletable db postId userId :
  post_statuses_set db ->
  let rows := reaction_rows db postId "Post" userId in
  Js.truthy (first_status rows) = true \/ rows = [].
Proof.
  intros Hset. unfold reaction_rows.
  destruct (Sql.select _ _) as [|r rows] eqn:Hsel; [right; reflexivity|left].
  assert (Hin : In r (Sql.select (reaction_of userId postId "Post") (likes db)))
    by (rewrite Hsel; left; reflexivity).
  apply List.filter_In in Hin as [Hin Hr].
  apply reaction_of_true in Hr as (_ & _ & Ht).
  simpl. apply negb_true_iff, String.eqb_neq. apply Hset; assumption.
Qed.

Lemma likes_old_removed db postId userId :
  likes (old_removed db postId userId) = likes db
  \/ likes (old_removed db postId userId)
     = Sql.delete (reaction_of userId postId "Post") (likes db).
Proof. unfold old_removed. destruct (Js.truthy _); simpl; auto. Qed.

Lemma likes_new_added db1 now postId userId userLogin st :
  likes (new_added db1 now postId userId userLogin st)
  = if String.eqb st "None" then likes db1
    else Sql.insert (Likes.mk userId userLogin postId "Post" st now) (likes db1).
Proof. unfold new_added. destruct (String.eqb st "None"); reflexivity. Qed.

Lemma normalizeLikeStatus_values status :
  canonical (PostsRepository.normalizeLikeStatus status).
Proof.
  unfold PostsRepository.normalizeLikeStatus, canonical.
  destruct (String.eqb status LikeStatus.Like); [auto|].
  destruct (String.eqb status LikeStatus.Dislike); auto.
Qed.

(* what a call leaves in the likes table, row by row *)
Lemma call_rows db c r :
  In r (likes (call db c)) ->
  In r (likes db)
  \/ (Likes.status r <> LikeStatus.None /\ Likes.status r <> EmptyString
      /\ Likes.entity_type r = "Post"%string)
  \/ (Likes.status r <> LikeStatus.None /\ Likes.entity_type r = "Comment"%string).
Proof.
  destruct c as [now commentId userId userLogin status | now postId userId userLogin status];
    simpl.
  - unfold CommentRepository.updateLikeForComment.
    destruct (String.eqb (CommentRepository.normalizedStatus status) "None") eqn:Hn; simpl.
    + intros H. left. eapply in_delete. exact H.
    + apply String.eqb_neq in Hn.
      destruct (0 <? length _)%nat; simpl; intros H.
      * apply in_update in H as [H | (r0 & Hin & Hp & ->)]; [auto|].
        right. right. split; [exact Hn|].
        apply reaction_of_true in Hp. simpl. tauto.
      * apply in_insert in H as [H | ->]; [auto|]. right. right. split; [exact Hn|reflexivity].
  - rewrite updateLikeForPost_halves, likes_new_added.
    pose proof (normalizeLikeStatus_values status) as Hc.
    assert (Hold : forall r, In r (likes (old_removed db postId userId)) -> In r (likes db)).
    { intros r0. destruct (likes_old_removed db postId userId) as [-> | ->];
        [auto|apply in_delete]. }
    destruct (String.eqb (PostsRepository.normalizeLikeStatus status) "None") eqn:Hn.
    + intros H. left. auto.
    + intros H. apply in_insert in H as [H | ->]; [auto|].
      right. left. apply String.eqb_neq in Hn. simpl. split; [exact Hn|split].
      * destruct Hc as [-> | [-> | ->]]; discriminate.
      * reflexivity.
Qed.

Lemma call_post_statuses_set db c : post_statuses_set db -> post_statuses_set (call db c).
Proof.
  intros Hset r Hin Ht.
  apply call_rows in Hin as [Hin | [(_ & Hs & _) | (_ & Hc)]]; [auto|exact Hs|].
  rewrite Hc in Ht. discriminate.
Qed.

Lemma call_none_not_stored db c : none_not_stored db -> none_not_stored (call db c).
Proof.
  intros Hn r Hin.
  apply call_rows in Hin as [Hin | [(Hs & _) | (Hs & _)]]; auto.
Qed.

Lemma call_one_row db c entityId entityType userId :
  post_statuses_set db ->
  (length (reaction_rows db entityId entityType userId) <= 1)%nat ->
  (length (reaction_rows (call db c) entityId entityType userId) <= 1)%nat.
Proof.
  intros Hset Hlen. unfold reaction_rows in *.
  destruct c as [now commentId user userLogin status | now postId user userLogin status];
    simpl.
  - unfold CommentRepository.updateLikeForComment.
    destruct (triple_dec (userId, entityId, entityType) (user, commentId, "Comment"%string))
      as [[= -> -> ->] | Hne].
    + destruct (String.eqb _ "None"); simpl.
      * rewrite select_delete_same. simpl. lia.
      * destruct (Sql.select _ _) as [|r0 rows] eqn:Hsel; simpl.
        -- rewrite select_insert, Hsel, reaction_of_own. simpl. lia.
        -- rewrite select_update by (intros; apply reaction_of_set_status).
           rewrite update_length, Hsel. exact Hlen.
    + pose proof (reaction_of_apart _ _ _ _ _ _ Hne) as Hap.
      destruct (String.eqb _ "None"); simpl.
      * rewrite select_delete_other by exact Hap. exact Hlen.
      * destruct (0 <? length _)%nat; simpl.
        -- rewrite select_update by (intros; apply reaction_of_set_status).
           rewrite update_length. exact Hlen.
        -- rewrite select_insert.
           destruct (reaction_of userId entityId entityType _) eqn:Hown.
           ++ apply Hap in Hown. rewrite reaction_of_own in Hown. discriminate.
           ++ rewrite List.app_nil_r. exact Hlen.
  - destruct (triple_dec (userId, entityId, entityType) (user, postId, "Post"%string))
      as [[= -> -> ->] | Hne].
    + pose proof (updateLikeForPost_rows db now postId user userLogin status
                    (post_rows_deletable db postId user Hset)) as H.
      unfold reaction_rows in H. rewrite H.
      destruct (String.eqb _ "None"); simpl; lia.
    + pose proof (reaction_of_apart _ _ _ _ _ _ Hne) as Hap.
      rewrite updateLikeForPost_halves, likes_new_added.
      assert (Hold : Sql.select (reaction_of userId entityId entityType)
                       (likes (old_removed db postId user))
                     = Sql.select (reaction_of userId entityId entityType) (likes db)).
      { destruct (likes_old_removed db postId user) as [-> | ->]; [reflexivity|].
        apply select_delete_other. exact Hap. }
      destruct (String.eqb _ "None").
      * rewrite Hold. exact Hlen.
      * rewrite select_insert, Hold.
        destruct (reaction_of userId entityId entityType _) eqn:Hown.
        -- apply Hap in Hown. rewrite reaction_of_own in Hown. discriminate.
        -- rewrite List.app_nil_r. exact Hlen.
Qed.

(** C2: starting from a store with at most one reaction row for
    (entityId, entityType, userId), in which no post reaction has an empty
    status and None is not stored, any sequence of updateLikeForComment
    and updateLikeForPost calls, one after the other and with any
    arguments, leaves at most one row for that triple and stores no row
    whose status is None: None is the absence of the row. *)
Theorem reaction_rows_unique_none_absent
    (cs : list ReactionCall) (db : Db) (entityId entityType userId : string) :
  post_statuses_set db ->
  none_not_stored db ->
  (length (reaction_rows db entityId entityType userId) <= 1)%nat ->
  (length (reaction_rows (calls cs db) entityId entityType userId) <= 1)%nat
  /\ none_not_stored (calls cs db).
Proof.
  unfold calls. revert db.
  induction cs as [|c cs IH]; intros db Hset Hnone Hlen; simpl.
  - split; assumption.
  - apply IH.
    + apply call_post_statuses_set. exact Hset.
    + apply call_none_not_stored. exact Hnone.
    + apply call_one_row; assumption.
Qed.

Lemma reaction_rows_unique_none_absent_witness :
  let db := set_likes [Likes.mk "U" "user" "P1" "Post" "Like" 5] Sample.db in
  let cs := [ForPost 10 "P1" "U" "user" "Dislike";
             ForComment 20 "C1" "U" "user" "like";
             ForComment 30 "C1" "U" "user" "DISLIKE";
             ForPost 40 "P1" "U" "user" "Like"] in
  (length (reaction_rows (calls cs db) "P1" "Post" "U") <= 1)%nat
  /\ none_not_stored (calls cs db).
Proof.
  intros db cs. apply reaction_rows_unique_none_absent.
  - intros r [<- | []] _. discriminate.
  - intros r [<- | []]. discriminate.
  - simpl. lia.
Defined.

(* --------------------------------------------------------------------- *)
(* The same update twice                                                 *)
(* --------------------------------------------------------------------- *)

Lemma set_status_twice v r : Likes.set_status v (Likes.set_status v r) = Likes.set_status v r.
Proof. reflexivity. Qed.

(** X20: a comment reaction update repeated with the same arguments
    changes nothing more, in any store and whatever the times of the two
    calls: the row written by the first call is updated in place by the
    second and keeps its created_at. *)
Lemma updateLikeForComment_twice db now1 now2 commentId userId userLogin status :
  CommentRepository.updateLikeForComment
    (CommentRepository.updateLikeForComment db now1 commentId userId userLogin status)
    now2 commentId userId userLogin status
  = CommentRepository.updateLikeForComment db now1 commentId userId userLogin status.
Proof.
  unfold CommentRepository.updateLikeForComment.
  destruct (String.eqb (CommentRepository.normalizedStatus status) "None") eqn:Hn; simpl.
  - rewrite delete_delete. reflexivity.
  - destruct (Sql.select (reaction_of userId commentId "Comment") (likes db))
      as [|r0 rows] eqn:Hsel; simpl.
    + rewrite select_insert, Hsel, reaction_of_own. simpl.
      unfold set_likes. simpl. f_equal.
      unfold Sql.insert, Sql.update. rewrite List.map_app. simpl.
      rewrite reaction_of_own. simpl. f_equal.
      apply (select_nil_update _ _ _ Hsel).
    + rewrite select_update by (intros; apply reaction_of_set_status).
      rewrite Hsel. simpl.
      destruct (reaction_of userId commentId "Comment" r0); simpl;
        unfold set_likes; simpl; f_equal;
        (rewrite update_update by (intros; apply reaction_of_set_status));
        reflexivity.
Qed.

Lemma bump_back c p : PostsRepository.bump c (-1) (PostsRepository.bump c 1 p) = p.
Proof.
  unfold PostsRepository.bump. destruct p. 
  destruct (String.eqb c "likesCount"); unfold Post.set_likesCount, Post.set_dislikesCount;
    simpl; f_equal; lia.
Qed.

Lemma old_removed_fresh db postId userId :
  reaction_rows db postId "Post" userId = [] -> old_removed db postId userId = db.
Proof. unfold reaction_rows, old_removed. intros ->. reflexivity. Qed.

(** X21: in a store where no post reaction has an empty status, a post
    reaction update repeated with the same arguments leaves the store of
    the single update made at the time of the second call: counters and
    rows are those of one call, and the row carries the later
    created_at. *)
Lemma updateLikeForPost_again db now1 now2 postId userId userLogin status :
  post_statuses_set db ->
  PostsRepository.updateLikeForPost
    (PostsRepository.updateLikeForPost db now1 postId userId userLogin status)
    now2 postId userId userLogin status
  = PostsRepository.updateLikeForPost db now2 postId userId userLogin status.
Proof.
  intros Hset.
  rewrite (updateLikeForPost_halves db now1), (updateLikeForPost_halves db now2),
          updateLikeForPost_halves.
  pose proof (old_removed_rows db postId userId (post_rows_deletable db postId userId Hset))
    as Hnil.
  set (db1 := old_removed db postId userId) in *.
  set (st := PostsRepository.normalizeLikeStatus status).
  pose proof (normalizeLikeStatus_values status) as Hc. fold st in Hc.
  f_equal.
  assert (Hnone : st = LikeStatus.None -> old_removed (new_added db1 now1 postId userId userLogin st) postId userId = db1).
  { intros ->. apply old_removed_fresh. exact Hnil. }
  assert (Hsome : st = LikeStatus.Like \/ st = LikeStatus.Dislike ->
                  old_removed (new_added db1 now1 postId userId userLogin st) postId userId = db1).
  { intros Hst. unfold old_removed, new_added.
    assert (Hneg : negb (String.eqb st "None") = true) by (destruct Hst as [-> | ->]; reflexivity).
    rewrite Hneg. simpl.
    unfold reaction_rows in Hnil. rewrite select_insert, Hnil, reaction_of_own. simpl.
    assert (Ht : negb (String.eqb st "") = true) by (destruct Hst as [-> | ->]; reflexivity).
    rewrite Ht. unfold set_posts, set_likes. simpl.
    rewrite delete_insert_hit by apply reaction_of_own.
    rewrite (select_nil_delete _ _ Hnil).
    rewrite update_update by (intros; apply has_id_bump).
    rewrite update_id by (intros; apply bump_back).
    destruct db1. reflexivity. }
  destruct Hc as [H | [H | H]]; auto.
Qed.

(** C3: a Like of a post repeated by the same user does not leave the
    store of the first call: the second call deletes the row and inserts
    it again, so the row carries the creation time of the second call
    (20) where one call left that of the first (10); the counters agree.
    The change shows in the views: when user b, the oldest of the three
    likers of a post, likes it again, b becomes the first of its
    newestLikes. *)
Theorem updateLikeForPost_repeated_like_moves_created_at :
  let once := PostsRepository.updateLikeForPost Sample.db 10 "P1" "U" "user" "Like" in
  let twice := PostsRepository.updateLikeForPost once 20 "P1" "U" "user" "Like" in
  likes once = [Likes.mk "U" "user" "P1" "Post" "Like" 10]
  /\ likes twice = [Likes.mk "U" "user" "P1" "Post" "Like" 20]
  /\ twice <> once
  /\ counters twice "P1" = counters once "P1"
  /\ option_map (fun v => List.map nl_userId (newestLikes (extendedLikesInfo v)))
       (PostsRepository.findPostById Sample.liked "P1" None)
     = Some ["d"; "c"; "b"]%string
  /\ option_map (fun v => List.map nl_userId (newestLikes (extendedLikesInfo v)))
       (PostsRepository.findPostById
          (PostsRepository.updateLikeForPost Sample.liked 5 "P1" "b" "bob" "Like")
          "P1" None)
     = Some ["b"; "d"; "c"]%string.
Proof.
  simpl. repeat split; try (vm_compute; reflexivity). intros H. discriminate H.
Qed.

(* --------------------------------------------------------------------- *)
(* Spelling of the status                                                *)
(* --------------------------------------------------------------------- *)

Lemma upper_lower_unit c : Js.upper_unit (Js.lower_unit c) = Js.upper_unit c.
Proof. destruct c as [[] [] [] [] [] [] [] []]; reflexivity. Qed.

Lemma lower_upper_unit c : Js.lower_unit (Js.upper_unit c) = Js.lower_unit c.
Proof. destruct c as [[] [] [] [] [] [] [] []]; reflexivity. Qed.

Lemma lower_lower_unit c : Js.lower_unit (Js.lower_unit c) = Js.lower_unit c.
Proof. destruct c as [[] [] [] [] [] [] [] []]; reflexivity. Qed.

Lemma toLowerCase_twice s : Js.toLowerCase (Js.toLowerCase s) = Js.toLowerCase s.
Proof.
  unfold Js.toLowerCase, Js.toUpperCase in *.
  induction s as [|c s IH]; cbn [Js.map_units]; [reflexivity|].
  rewrite lower_lower_unit. f_equal. exact IH.
Qed.

Lemma toUpperCase_toLowerCase s : Js.toUpperCase (Js.toLowerCase s) = Js.toUpperCase s.
Proof.
  unfold Js.toLowerCase, Js.toUpperCase in *.
  induction s as [|c s IH]; cbn [Js.map_units]; [reflexivity|].
  rewrite upper_lower_unit. f_equal. exact IH.
Qed.

Lemma toLowerCase_toUpperCase s : Js.toLowerCase (Js.toUpperCase s) = Js.toLowerCase s.
Proof.
  unfold Js.toLowerCase, Js.toUpperCase in *.
  induction s as [|c s IH]; cbn [Js.map_units]; [reflexivity|].
  rewrite lower_upper_unit. f_equal. exact IH.
Qed.

Lemma normalizedStatus_lower s :
  CommentRepository.normalizedStatus (Js.toLowerCase s) = CommentRepository.normalizedStatus s.
Proof.
  unfold CommentRepository.normalizedStatus.
  destruct s as [|c s]; [reflexivity|].
  change (Js.toLowerCase (String c s)) with (String (Js.lower_unit c) (Js.toLowerCase s)).
  cbn [Js.charAt0 Js.slice1].
  change (Js.toUpperCase (String (Js.lower_unit c) EmptyString))
    with (String (Js.upper_unit (Js.lower_unit c)) EmptyString).
  change (Js.toUpperCase (String c EmptyString)) with (String (Js.upper_unit c) EmptyString).
  rewrite upper_lower_unit, toLowerCase_twice. reflexivity.
Qed.

(* The comment path canonicalizes: any spelling of Like, Dislike or None
   that differs from it only in case is normalized to it. *)
Lemma normalizedStatus_canonical s c :
  canonical c -> same_ignoring_case s c -> CommentRepository.normalizedStatus s = c.
Proof.
  unfold same_ignoring_case. intros Hc Hs.
  rewrite <- normalizedStatus_lower, Hs, normalizedStatus_lower.
  destruct Hc as [-> | [-> | ->]]; reflexivity.
Qed.

(** X22: updateLikeForComment reads the status without regard to case:
    called with any spelling that equals Like, Dislike or None up to the
    case of its letters, it leaves the store that the canonical spelling
    leaves. *)
Lemma updateLikeForComment_any_case db now commentId userId userLogin s c :
  canonical c -> same_ignoring_case s c ->
  CommentRepository.updateLikeForComment db now commentId userId userLogin s
  = CommentRepository.updateLikeForComment db now commentId userId userLogin c.
Proof.
  intros Hc Hs. unfold CommentRepository.updateLikeForComment.
  rewrite (normalizedStatus_canonical s c Hc Hs).
  rewrite (normalizedStatus_canonical c c Hc eq_refl). reflexivity.
Qed.

(** C4: the post path does not canonicalize the spelling of the status.
    normalizeLikeStatus compares with the exact strings, so 'like' is read
    as None: the call stores nothing and counts nothing where 'Like'
    stores the row and counts it, and 'DISLIKE' sent after a Like removes
    the reaction where 'Dislike' turns it into a dislike. *)
Theorem updateLikeForPost_lowercase_status_read_as_none :
  PostsRepository.normalizeLikeStatus "like" = LikeStatus.None
  /\ PostsRepository.updateLikeForPost Sample.db 10 "P1" "U" "user" "like" = Sample.db
  /\ likes (PostsRepository.updateLikeForPost Sample.db 10 "P1" "U" "user" "Like")
     = [Likes.mk "U" "user" "P1" "Post" "Like" 10]
  /\ counters (PostsRepository.updateLikeForPost Sample.db 10 "P1" "U" "user" "Like") "P1"
     = Some (1, 0)
  /\ (let liked := PostsRepository.updateLikeForPost Sample.db 10 "P1" "U" "user" "Like" in
      likes (PostsRepository.updateLikeForPost liked 20 "P1" "U" "user" "DISLIKE") = []
      /\ counters (PostsRepository.updateLikeForPost liked 20 "P1" "U" "user" "DISLIKE") "P1"
         = Some (0, 0)
      /\ counters (PostsRepository.updateLikeForPost liked 20 "P1" "U" "user" "Dislike") "P1"
         = Some (0, 1)).
Proof. repeat split. Qed.

(* --------------------------------------------------------------------- *)
(* Newest likes of a listing                                             *)
(* --------------------------------------------------------------------- *)

(** C5: in a listing of two posts, the first with three likes (at times
    2, 3, 4) and the second with one like (at time 1), getNewestLikes
    keeps the three most recent likes of the page as a whole: the second
    post is returned with an empty newestLikes although it has a liker,
    and findPostById returns that liker for the same post. *)
Theorem getPostsByBlogId_newestLikes_limit_is_per_page :
  List.map (fun v => (pv_id v, el_likesCount (extendedLikesInfo v),
                      List.map nl_userId (newestLikes (extendedLikesInfo v))))
    (items_of (PostsRepository.getPostsByBlogId Sample.liked "B" Sample.all None))
  = [("P2"%string, 1, []); ("P1"%string, 3, ["d"; "c"; "b"]%string)]
  /\ option_map (fun v => List.map nl_userId (newestLikes (extendedLikesInfo v)))
       (PostsRepository.findPostById Sample.liked "P2" None)
     = Some ["a"%string].
Proof. split; vm_compute; reflexivity. Qed.

(* --------------------------------------------------------------------- *)
(* Sort direction                                                        *)
(* --------------------------------------------------------------------- *)

Lemma toUpperCase_ASC d : Js.toUpperCase d = "ASC"%string <-> same_ignoring_case d "asc".
Proof.
  unfold same_ignoring_case. split; intros H.
  - rewrite <- toLowerCase_toUpperCase, H. reflexivity.
  - rewrite <- toUpperCase_toLowerCase, H. reflexivity.
Qed.


(* In the model the comment listing sorts ascending exactly for a
   direction that is 'asc' up to the case of its ASCII letters, and
   descending for anything else or nothing. *)
Lemma comments_direction q :
  (CommentRepository.sql_direction (CommentRepository.sortDirection q) = Sql.ASC <->
   exists d, q_sortDirection q = Some d /\ same_ignoring_case d "asc")
  /\ (CommentRepository.sql_direction (CommentRepository.sortDirection q) = Sql.DESC <->
      ~ exists d, q_sortDirection q = Some d /\ same_ignoring_case d "asc").
Proof.
  unfold CommentRepository.sortDirection.
  destruct (q_sortDirection q) as [d|].
  - destruct (String.eqb_spec (Js.toUpperCase d) "ASC") as [E | E]; simpl.
    + apply toUpperCase_ASC in E. split; split; intros H; try discriminate; eauto.
      exfalso. apply H. eauto.
    + split; split; intros H; try discriminate; try reflexivity.
      * destruct H as (d' & [= <-] & H). apply toUpperCase_ASC in H. contradiction.
      * intros (d' & [= <-] & H'). apply toUpperCase_ASC in H'. contradiction.
  - simpl. split; split; intros H; try discriminate; try reflexivity.
    + destruct H as (d & H & _). discriminate.
    + intros (d & H' & _). discriminate.
Qed.


(** C7: the post listing does not fall back to descending order for a
    malformed direction.  With sortDirection 'foo' the order handed to
    the query builder is 'FOO', which the builder refuses, so the listing
    fails; the comment listing sorts descending on the same query. *)
Theorem getPostsByBlogId_malformed_direction_not_descending :
  let q := mkQuery None None None (Some "foo"%string) in
  Js.toUpperCase (default "desc"%string (q_sortDirection q)) = "FOO"%string
  /\ PostsRepository.getPostsByBlogId Sample.db "B" q None = inl TypeORMError
  /\ PostsRepository.getAllPostsWithPagination Sample.db q None = inl TypeORMError
  /\ CommentRepository.sortDirection q = "DESC"%string.
Proof. repeat split. Qed.

(* --------------------------------------------------------------------- *)
(* The guard of updateComment and deleteComment                          *)
(* --------------------------------------------------------------------- *)

Lemma findById_live db commentId currentUserId :
  match live_comment db commentId with
  | None => CommentRepository.findById db commentId currentUserId = None
  | Some c =>
      exists v, CommentRepository.findById db commentId currentUserId = Some v
                /\ ci_userId (commentatorInfo v) = Comment.user_id c
  end.
Proof.
  unfold live_comment, CommentRepository.findById.
  destruct (Sql.select _ (comments db)) as [|c rest]; simpl; eauto.
Qed.

Lemma live_comment_none db commentId :
  live_comment db commentId = None <->
  forall c, In c (comments db) -> Comment.id c = commentId ->
            Comment.deletion_status c <> "active"%string.
Proof.
  unfold live_comment, Sql.select. split.
  - intros H c Hin Hid Hact.
    assert (Hsel : In c (List.filter (CommentRepository.active_with_id commentId) (comments db))).
    { apply List.filter_In. split; [exact Hin|].
      unfold CommentRepository.active_with_id.
      rewrite Hid, Hact, !String.eqb_refl. reflexivity. }
    destruct (List.filter _ _); [destruct Hsel|discriminate].
  - intros H.
    destruct (List.filter _ _) as [|c rest] eqn:Hsel; [reflexivity|exfalso].
    assert (Hin : In c (List.filter (CommentRepository.active_with_id commentId) (comments db)))
      by (rewrite Hsel; left; reflexivity).
    apply List.filter_In in Hin as [Hin Hc].
    unfold CommentRepository.active_with_id in Hc.
    apply andb_true_iff in Hc as [Hid Hact].
    apply String.eqb_eq in Hid, Hact. exact (H c Hin Hid Hact).
Qed.

(** C8: updateComment and deleteComment look the comment up first.  When
    no row with the id is active (the comment is missing or soft-deleted)
    both throw NotFoundException and leave the store as it was, whoever
    asks; when an active row is found and the asking user is not its
    author both throw ForbiddenException and leave the store as it was;
    only the author of an active comment reaches the write. *)
Theorem comment_guard_existence_before_ownership
    (db : Db) (commentId content userId : string) :
  (live_comment db commentId = None <->
   forall c, In c (comments db) -> Comment.id c = commentId ->
             Comment.deletion_status c <> "active"%string)
  /\ match live_comment db commentId with
     | None =>
         CommentService.updateComment db commentId content userId
         = (db, inl NotFoundException)
         /\ CommentService.deleteComment db commentId userId = (db, inl NotFoundException)
     | Some c =>
         if String.eqb (Comment.user_id c) userId then
           CommentService.updateComment db commentId content userId
           = (CommentRepository.updateContent db commentId content, inr tt)
           /\ CommentService.deleteComment db commentId userId
              = (CommentRepository.delete db commentId, inr tt)
         else
           CommentService.updateComment db commentId content userId
           = (db, inl ForbiddenException)
           /\ CommentService.deleteComment db commentId userId
              = (db, inl ForbiddenException)
     end.
Proof.
  split; [apply live_comment_none|].
  pose proof (findById_live db commentId None) as H.
  unfold CommentService.updateComment, CommentService.deleteComment.
  destruct (live_comment db commentId) as [c|].
  - destruct H as (v & -> & ->).
    destruct (String.eqb (Comment.user_id c) userId); simpl; split; reflexivity.
  - rewrite H. split; reflexivity.
Qed.

(* --------------------------------------------------------------------- *)
(* createdAt of a comment view                                           *)
(* --------------------------------------------------------------------- *)

Lemma findById_createdAt_iso db commentId currentUserId v :
  CommentRepository.findById db commentId currentUserId = Some v ->
  is_iso_string (cv_createdAt v).
Proof.
  unfold CommentRepository.findById.
  destruct (Sql.select _ (comments db)) as [|c rest]; [discriminate|].
  intros [= <-]. simpl. eexists. reflexivity.
Qed.

Lemma getCommentsForPost_createdAt_raw db postId q currentUserId v :
  In v (items (CommentRepository.getCommentsForPost db postId q currentUserId)) ->
  exists t, cv_createdAt v = JsDate t.
Proof.
  unfold CommentRepository.getCommentsForPost. simpl.
  intros H. apply List.in_map_iff in H as (c & <- & _). simpl. eauto.
Qed.

(** C9: the listing of the comments of a post returns createdAt as the
    Date value read from the row, not as its ISO-8601 string: for the
    comment created at 1700000000000 the item holds the raw timestamp,
    where findById returns '2023-11-14T22:13:20.000Z'. *)
Theorem getCommentsForPost_createdAt_not_iso :
  List.map cv_createdAt
    (items (CommentRepository.getCommentsForPost Sample.db "P1" Sample.all None))
  = [JsDate 1700000000000]
  /\ ~ is_iso_string (JsDate 1700000000000)
  /\ option_map cv_createdAt (CommentRepository.findById Sample.db "C1" None)
     = Some (JsString "2023-11-14T22:13:20.000Z").
Proof.
  split; [vm_compute; reflexivity|].
  split; [intros [t H]; discriminate H|].
  vm_compute. reflexivity.
Qed.

(* --------------------------------------------------------------------- *)
(* Soft delete                                                           *)
(* --------------------------------------------------------------------- *)

Lemma Forall2_update {A : Type} (R : A -> A -> Prop) (p : A -> bool) (f : A -> A) (t : list A) :
  (forall r, R r (if p r then f r else r)) -> Forall2 R t (Sql.update p f t).
Proof.
  intros H. unfold Sql.update.
  induction t as [|r t IH]; simpl; constructor; auto.
Qed.

(** C10: a soft delete of a comment or of a post writes the deletion
    status of the rows it aims at and nothing else: every row of the
    table keeps its place and all its other fields (for a post also
    likesCount and dislikesCount), the other tables are the same, and
    the likes table is left as it was, the reactions of the deleted
    entity included. *)
Theorem soft_delete_frame (db : Db) (commentId postId blogId : string) :
  (likes (CommentRepository.delete db commentId) = likes db
   /\ posts (CommentRepository.delete db commentId) = posts db
   /\ Forall2 (comment_soft_deleted (fun c => String.eqb (Comment.id c) commentId))
        (comments db) (comments (CommentRepository.delete db commentId)))
  /\ (likes (fst (PostsRepository.deletePost db postId blogId)) = likes db
      /\ comments (fst (PostsRepository.deletePost db postId blogId)) = comments db
      /\ Forall2 (post_soft_deleted (PostsRepository.post_of_blog postId blogId))
           (posts db) (posts (fst (PostsRepository.deletePost db postId blogId)))).
Proof.
  split; (split; [reflexivity|split; [reflexivity|]]); simpl.
  - apply Forall2_update. intros c. unfold comment_soft_deleted.
    destruct (String.eqb (Comment.id c) commentId); simpl; repeat split.
  - apply Forall2_update. intros p. unfold post_soft_deleted.
    destruct (PostsRepository.post_of_blog postId blogId p); simpl; repeat split.
Qed.

(* --------------------------------------------------------------------- *)
(* Pagination                                                            *)
(* --------------------------------------------------------------------- *)

Section Pages.
Context {A : Type}.

Lemma place_perm (key : A -> Sql.Key) dir r (t : list A) :
  Permutation (Sql.place key dir r t) (r :: t).
Proof.
  induction t as [|x t IH]; simpl; [reflexivity|].
  destruct (Sql.before key dir r x); [reflexivity|].
  rewrite IH. apply perm_swap.
Qed.

Lemma order_by_perm (key : A -> Sql.Key) dir (t : list A) :
  Permutation (Sql.order_by key dir t) t.
Proof.
  unfold Sql.order_by.
  induction t as [|r t IH]; simpl; [reflexivity|].
  rewrite place_perm. constructor. exact IH.
Qed.

Lemma order_by_length (key : A -> Sql.Key) dir (t : list A) :
  length (Sql.order_by key dir t) = length t.
Proof. apply Permutation_length, order_by_perm. Qed.

(* slices of ps rows, taken at offsets 0, ps, 2 ps, ... cover the list *)
Lemma slices_cover (ps : nat) (n : nat) (l : list A) :
  (0 < ps)%nat -> (length l <= n * ps)%nat ->
  List.concat (List.map (fun k => firstn ps (skipn (k * ps) l)) (seq 0 n)) = l.
Proof.
  intros Hps. revert l.
  induction n as [|n IH]; intros l Hlen; simpl.
  - destruct l; [reflexivity|simpl in Hlen; lia].
  - rewrite <- List.seq_shift, List.map_map.
    rewrite (List.map_ext _ (fun k => firstn ps (skipn (k * ps) (skipn ps l)))).
    + rewrite IH; [apply List.firstn_skipn|].
      rewrite List.length_skipn. simpl in Hlen. lia.
    + intros k. rewrite List.skipn_skipn. do 2 f_equal. simpl. lia.
Qed.

Lemma limit_length (n : Z) (t : list A) : 0 <= n -> Z.of_nat (length (Sql.limit n t)) <= n.
Proof.
  intros Hn. unfold Sql.limit. rewrite List.length_firstn. lia.
Qed.

End Pages.

Lemma ceil_div_bounds (a b : Z) :
  0 < b -> (Js.ceil_div a b - 1) * b < a <= Js.ceil_div a b * b.
Proof.
  intros Hb. unfold Js.ceil_div.
  pose proof (Z.div_mod (- a) b ltac:(lia)) as Hdm.
  pose proof (Z.mod_pos_bound (- a) b Hb) as Hm.
  nia.
Qed.

Lemma page_slices {A : Type} (ps : Z) (l : list A) :
  0 < ps ->
  List.concat
    (List.map (fun k => Sql.limit ps (Sql.offset ((k - 1) * ps) l))
       (page_numbers (Js.ceil_div (Z.of_nat (length l)) ps)))
  = l.
Proof.
  intros Hps. unfold page_numbers.
  pose proof (ceil_div_bounds (Z.of_nat (length l)) ps Hps) as Hb.
  set (pc := Js.ceil_div (Z.of_nat (length l)) ps) in *.
  assert (Hpc : 0 <= pc) by nia.
  rewrite <- List.seq_shift, !List.map_map.
  rewrite (List.map_ext _ (fun k => firstn (Z.to_nat ps) (skipn (k * Z.to_nat ps) l))).
  - apply slices_cover; [lia|].
    apply Nat2Z.inj_le. rewrite Nat2Z.inj_mul, !Z2Nat.id by lia. lia.
  - intros k. unfold Sql.limit, Sql.offset. do 2 f_equal.
    replace (Z.of_nat (S k) - 1) with (Z.of_nat k) by lia.
    rewrite Z2Nat.inj_mul, Nat2Z.id by lia. reflexivity.
Qed.

Lemma view_fields_item userId statuses newest p :
  view_fields (PostsRepository.post_item userId statuses newest p) = row_fields p.
Proof. reflexivity. Qed.


(* ===================================================================== *)
(* Further properties of the repositories and of the service             *)
(* ===================================================================== *)

(* --------------------------------------------------------------------- *)
(* Counters agree with the stored reactions                              *)
(* --------------------------------------------------------------------- *)

Section Counting.
Context {A : Type}.
Implicit Types (p q : A -> bool) (t : list A).

Lemma count_delete p q t :
  Sql.count p (Sql.delete q t) = Sql.count p t - Sql.count p (Sql.select q t).
Proof.
  unfold Sql.count, Sql.delete, Sql.select.
  induction t as [|r t IH]; simpl; [reflexivity|].
  destruct (q r) eqn:Hq, (p r) eqn:Hp; simpl; rewrite ?Hp; simpl length; lia.
Qed.

Lemma count_insert p r t :
  Sql.count p (Sql.insert r t) = Sql.count p t + (if p r then 1 else 0).
Proof.
  unfold Sql.count. rewrite select_insert, List.length_app.
  destruct (p r); simpl; lia.
Qed.

Lemma in_update_inv q (f : A -> A) t r :
  In r (Sql.update q f t) -> exists r0, In r0 t /\ r = if q r0 then f r0 else r0.
Proof.
  unfold Sql.update. intros H. apply List.in_map_iff in H as (r0 & <- & Hin). eauto.
Qed.

Lemma select_update_apart p q (f : A -> A) t :
  (forall r, q r = true -> p r = false /\ p (f r) = false) ->
  Sql.select p (Sql.update q f t) = Sql.select p t.
Proof.
  intros H. unfold Sql.select, Sql.update.
  induction t as [|r t IH]; simpl; [reflexivity|].
  destruct (q r) eqn:Hq.
  - destruct (H r Hq) as [-> ->]. exact IH.
  - rewrite IH. reflexivity.
Qed.

End Counting.

Lemma count_single {A : Type} (p : A -> bool) (r : A) :
  Sql.count p [r] = if p r then 1 else 0.
Proof. unfold Sql.count, Sql.select. simpl. destruct (p r); reflexivity. Qed.

Lemma post_reaction_with_row u ul e st now e' st' :
  post_reaction_with e' st' (Likes.mk u ul e "Post" st now)
  = String.eqb e e' && String.eqb st st'.
Proof. unfold post_reaction_with. simpl. rewrite andb_true_r. reflexivity. Qed.

Lemma select_single_in {A : Type} (p : A -> bool) (t : list A) r rest :
  Sql.select p t = r :: rest -> In r t /\ p r = true.
Proof.
  intros H. apply (List.filter_In p r t). unfold Sql.select in H. rewrite H. left. reflexivity.
Qed.

Lemma bump_fields c d p :
  Post.id (PostsRepository.bump c d p) = Post.id p
  /\ Post.likesCount (PostsRepository.bump c d p)
     = Post.likesCount p + (if String.eqb c "likesCount" then d else 0)
  /\ Post.dislikesCount (PostsRepository.bump c d p)
     = Post.dislikesCount p + (if String.eqb c "likesCount" then 0 else d).
Proof.
  unfold PostsRepository.bump. destruct (String.eqb c "likesCount"); simpl; repeat split; lia.
Qed.

(* one counter of the posts with the id moves by delta, one reaction with
   that status comes or goes: the counters still agree *)
Lemma bump_consistent (db : Db) (likes' : list Likes.row) postId st delta :
  st = LikeStatus.Like \/ st = LikeStatus.Dislike ->
  (forall e st', Sql.count (post_reaction_with e st') likes'
                 = likes_of db e st'
                   + (if String.eqb postId e && String.eqb st st' then delta else 0)) ->
  counters_consistent db ->
  counters_consistent
    (set_posts (Sql.update (PostsRepository.has_id postId)
                  (PostsRepository.bump (PostsRepository.counter_of st) delta) (posts db))
       (set_likes likes' db)).
Proof.
  intros Hst Hcount Hc p' Hp'. cbn [posts set_posts set_likes likes comments] in Hp'.
  apply in_update_inv in Hp' as (p & Hp & ->).
  destruct (Hc p Hp) as [HL HD].
  unfold likes_of at 1 2. cbn [posts set_posts set_likes likes comments].
  unfold PostsRepository.has_id.
  destruct (String.eqb_spec (Post.id p) postId) as [E | E].
  - destruct (bump_fields (PostsRepository.counter_of st) delta p) as (-> & -> & ->).
    rewrite !Hcount, <- HL, <- HD, E, String.eqb_refl.
    destruct Hst as [-> | ->]; simpl; lia.
  - rewrite !Hcount, <- HL, <- HD.
    assert (String.eqb postId (Post.id p) = false) as -> by (apply String.eqb_neq; congruence).
    simpl. lia.
Qed.

Lemma old_removed_consistent db postId userId :
  post_statuses_valid db -> one_row_each db -> counters_consistent db ->
  counters_consistent (old_removed db postId userId).
Proof.
  intros Hv H1 Hc. unfold old_removed.
  pose proof (H1 postId "Post"%string userId) as Hlen. unfold reaction_rows in Hlen.
  destruct (Sql.select (reaction_of userId postId "Post") (likes db)) as [|r0 rest] eqn:Hsel.
  - exact Hc.
  - assert (rest = []) by (destruct rest; [reflexivity|simpl in Hlen; lia]). subst rest.
    destruct (select_single_in _ _ _ _ Hsel) as [Hin0 Hk].
    apply reaction_of_true in Hk as (Hu & He & Ht).
    pose proof (Hv r0 Hin0 Ht) as Hs.
    assert (Htruthy : Js.truthy (first_status [r0]) = true)
      by (simpl; destruct Hs as [-> | ->]; reflexivity).
    rewrite Htruthy.
    change (default EmptyString (first_status [r0])) with (Likes.status r0).
    cbn [posts set_likes].
    apply (bump_consistent db _ postId (Likes.status r0) (-1)); [exact Hs| |exact Hc].
    intros e st'. rewrite count_delete. fold (likes_of db e st').
    rewrite Hsel, count_single.
    destruct r0 as [u ul e0 t0 s0 c0]. simpl in *. subst.
    rewrite post_reaction_with_row.
    destruct (String.eqb postId e && String.eqb s0 st'); lia.
Qed.

Lemma new_added_consistent db now postId userId userLogin st :
  canonical st -> counters_consistent db ->
  counters_consistent (new_added db now postId userId userLogin st).
Proof.
  intros Hst Hc. unfold new_added.
  destruct (String.eqb st "None") eqn:Hn; [exact Hc|]. cbn [negb posts set_likes].
  apply (bump_consistent db _ postId st 1); [| |exact Hc].
  - destruct Hst as [-> | [-> | ->]]; auto. discriminate.
  - intros e st'. rewrite count_insert. fold (likes_of db e st').
    rewrite post_reaction_with_row. reflexivity.
Qed.

Lemma comment_reaction_apart userId commentId e st r :
  reaction_of userId commentId "Comment" r = true -> post_reaction_with e st r = false.
Proof.
  intros H. apply reaction_of_true in H as (_ & _ & Ht).
  unfold post_reaction_with. rewrite Ht. simpl. rewrite andb_false_r. reflexivity.
Qed.

Lemma updateLikeForComment_post_rows db now commentId userId userLogin status e st :
  Sql.select (post_reaction_with e st)
    (likes (CommentRepository.updateLikeForComment db now commentId userId userLogin status))
  = Sql.select (post_reaction_with e st) (likes db).
Proof.
  unfold CommentRepository.updateLikeForComment.
  destruct (String.eqb _ "None"); cbn [likes set_likes].
  - apply select_delete_other. intros r Hr.
    destruct (reaction_of userId commentId "Comment" r) eqn:Hk; [|reflexivity].
    rewrite (comment_reaction_apart _ _ e st r Hk) in Hr. discriminate.
  - destruct (0 <? length _)%nat; cbn [likes set_likes].
    + apply select_update_apart. intros r Hr. split.
      * exact (comment_reaction_apart _ _ e st r Hr).
      * apply (comment_reaction_apart userId commentId). exact Hr.
    + rewrite select_insert. unfold post_reaction_with at 2. simpl.
      rewrite andb_false_r. simpl. apply List.app_nil_r.
Qed.

Lemma call_consistent db c :
  post_statuses_valid db -> one_row_each db -> counters_consistent db ->
  counters_consistent (call db c).
Proof.
  intros Hv H1 Hc.
  destruct c as [now commentId userId userLogin status | now postId userId userLogin status];
    simpl.
  - intros p Hp.
    assert (Hposts : posts (CommentRepository.updateLikeForComment db now commentId userId
                              userLogin status) = posts db).
    { unfold CommentRepository.updateLikeForComment.
      destruct (String.eqb _ "None"); [reflexivity|].
      destruct (0 <? length _)%nat; reflexivity. }
    rewrite Hposts in Hp. unfold likes_of, Sql.count.
    rewrite !updateLikeForComment_post_rows. exact (Hc p Hp).
  - rewrite updateLikeForPost_halves.
    apply new_added_consistent; [apply normalizeLikeStatus_values|].
    apply old_removed_consistent; assumption.
Qed.

Lemma call_post_statuses_valid db c : post_statuses_valid db -> post_statuses_valid (call db c).
Proof.
  intros Hv r Hin Ht.
  destruct c as [now commentId userId userLogin status | now postId userId userLogin status];
    simpl in Hin.
  - unfold CommentRepository.updateLikeForComment in Hin.
    destruct (String.eqb _ "None"); cbn [likes set_likes] in Hin.
    + apply in_delete in Hin. auto.
    + destruct (0 <? length _)%nat; cbn [likes set_likes] in Hin.
      * apply in_update in Hin as [Hin | (r0 & Hin & Hk & ->)]; [auto|].
        apply reaction_of_true in Hk as (_ & _ & Hk). simpl in Ht. congruence.
      * apply in_insert in Hin as [Hin | ->]; [auto|discriminate Ht].
  - rewrite updateLikeForPost_halves, likes_new_added in Hin.
    assert (Hold : forall r, In r (likes (old_removed db postId userId)) -> In r (likes db)).
    { intros r0. destruct (likes_old_removed db postId userId) as [-> | ->];
        [auto|apply in_delete]. }
    pose proof (normalizeLikeStatus_values status) as Hc.
    destruct (String.eqb (PostsRepository.normalizeLikeStatus status) "None") eqn:Hn.
    + auto.
    + apply in_insert in Hin as [Hin | ->]; [auto|]. simpl.
      destruct Hc as [Hc | [Hc | Hc]]; auto.
      rewrite Hc in Hn. discriminate.
Qed.

Lemma post_statuses_valid_set db : post_statuses_valid db -> post_statuses_set db.
Proof.
  intros Hv r Hin Ht. destruct (Hv r Hin Ht) as [-> | ->]; discriminate.
Qed.

Lemma call_one_row_each db c :
  post_statuses_valid db -> one_row_each db -> one_row_each (call db c).
Proof.
  intros Hv H1 e t u. apply call_one_row; [apply post_statuses_valid_set; exact Hv|apply H1].
Qed.

Lemma likes_of_nonneg db e st : 0 <= likes_of db e st.
Proof. unfold likes_of, Sql.count. lia. Qed.

(** X1: when every post row counts the reactions stored for it, the
    stored post reactions are likes or dislikes and no (user, entity,
    type) has two rows, then after any sequence of updateLikeForPost and
    updateLikeForComment calls, with any arguments, every post row still
    has likesCount equal to the number of its stored Like rows and
    dislikesCount equal to the number of its stored Dislike rows; no
    counter is negative. *)
Theorem counters_follow_reactions (cs : list ReactionCall) (db : Db) :
  post_statuses_valid db -> one_row_each db -> counters_consistent db ->
  counters_consistent (calls cs db)
  /\ forall p, In p (posts (calls cs db)) ->
               0 <= Post.likesCount p /\ 0 <= Post.dislikesCount p.
Proof.
  intros Hv H1 Hc.
  assert (H : counters_consistent (calls cs db)).
  { unfold calls. revert db Hv H1 Hc.
    induction cs as [|c cs IH]; intros db Hv H1 Hc; simpl; [exact Hc|].
    apply IH.
    - apply call_post_statuses_valid. exact Hv.
    - apply call_one_row_each; assumption.
    - apply call_consistent; assumption. }
  split; [exact H|].
  intros p Hp. destruct (H p Hp) as [-> ->]. split; apply likes_of_nonneg.
Qed.

Lemma counters_follow_reactions_witness :
  let cs := [ForPost 1 "P1" "a" "ann" "Like"; ForPost 2 "P1" "b" "bob" "Dislike";
             ForComment 3 "C1" "a" "ann" "like"; ForPost 4 "P1" "a" "ann" "Dislike";
             ForPost 5 "P2" "b" "bob" "Like"; ForPost 6 "P1" "b" "bob" "None"] in
  counters_consistent (calls cs Sample.db)
  /\ forall p, In p (posts (calls cs Sample.db)) ->
               0 <= Post.likesCount p /\ 0 <= Post.dislikesCount p.
Proof.
  intros cs. apply counters_follow_reactions.
  - intros r [].
  - intros e t u. simpl. lia.
  - intros p [<- | [<- | []]]; split; reflexivity.
Defined.

(* --------------------------------------------------------------------- *)
(* A reaction update, then a lookup                                      *)
(* --------------------------------------------------------------------- *)

Lemma select_update_other {A : Type} (p q : A -> bool) (f : A -> A) (t : list A) :
  (forall r, p (f r) = p r) ->
  (forall r, p r = true -> q r = false) ->
  Sql.select p (Sql.update q f t) = Sql.select p t.
Proof.
  intros Hf Hpq. rewrite select_update by exact Hf.
  apply select_nil_update. apply select_disjoint. exact Hpq.
Qed.

Lemma updateLikeForComment_first_status db now commentId userId userLogin status :
  first_status
    (Sql.select (reaction_of userId commentId "Comment")
       (likes (CommentRepository.updateLikeForComment db now commentId userId userLogin status)))
  = if String.eqb (CommentRepository.normalizedStatus status) "None" then None
    else Some (CommentRepository.normalizedStatus status).
Proof.
  unfold CommentRepository.updateLikeForComment.
  destruct (String.eqb (CommentRepository.normalizedStatus status) "None");
    cbn [likes set_likes].
  - rewrite select_delete_same. reflexivity.
  - destruct (Sql.select (reaction_of userId commentId "Comment") (likes db))
      as [|r0 rest] eqn:Hsel; cbn [length Nat.ltb Nat.leb likes set_likes].
    + rewrite select_insert, Hsel, reaction_of_own. reflexivity.
    + rewrite select_update by (intros; apply reaction_of_set_status).
      rewrite Hsel. destruct (select_single_in _ _ _ _ Hsel) as [_ Hk].
      simpl. rewrite Hk. reflexivity.
Qed.

Lemma updateLikeForComment_other_rows db now commentId userId userLogin status e t u :
  (u, e, t) <> (userId, commentId, "Comment"%string) ->
  reaction_rows (CommentRepository.updateLikeForComment db now commentId userId userLogin status)
    e t u
  = reaction_rows db e t u.
Proof.
  intros Hne. pose proof (reaction_of_apart _ _ _ _ _ _ Hne) as Hap.
  unfold reaction_rows, CommentRepository.updateLikeForComment.
  destruct (String.eqb _ "None"); cbn [likes set_likes].
  - apply select_delete_other. exact Hap.
  - destruct (0 <? length _)%nat; cbn [likes set_likes].
    + apply select_update_other; [intros; apply reaction_of_set_status|exact Hap].
    + rewrite select_insert.
      destruct (reaction_of u e t _) eqn:Hown.
      * apply Hap in Hown. rewrite reaction_of_own in Hown. discriminate.
      * apply List.app_nil_r.
Qed.

Lemma updateLikeForComment_tables db now commentId userId userLogin status :
  comments (CommentRepository.updateLikeForComment db now commentId userId userLogin status)
  = comments db
  /\ posts (CommentRepository.updateLikeForComment db now commentId userId userLogin status)
     = posts db.
Proof.
  unfold CommentRepository.updateLikeForComment.
  destruct (String.eqb _ "None"); [split; reflexivity|].
  destruct (0 <? length _)%nat; split; reflexivity.
Qed.

(** X2: after updateLikeForComment, in any store and with any status
    text, the reaction of that user on that comment reads back as the
    normalized status, or as no reaction when it normalizes to None; the
    rows of every other (user, entity, type), the comments and the posts
    are as before. *)
Theorem updateLikeForComment_then_lookup
    (db : Db) (now : Js.Date) (commentId userId userLogin status : string) :
  let db' := CommentRepository.updateLikeForComment db now commentId userId userLogin status in
  CommentRepository.findUserReaction db' commentId userId "Comment"
  = (if String.eqb (CommentRepository.normalizedStatus status) "None" then None
     else Some (CommentRepository.normalizedStatus status))
  /\ (forall e t u, (u, e, t) <> (userId, commentId, "Comment"%string) ->
                    reaction_rows db' e t u = reaction_rows db e t u)
  /\ comments db' = comments db
  /\ posts db' = posts db.
Proof.
  split; [apply updateLikeForComment_first_status|].
  split; [intros e t u; apply updateLikeForComment_other_rows|].
  apply updateLikeForComment_tables.
Qed.

Lemma updateLikeForPost_other_rows db now postId userId userLogin status e t u :
  (u, e, t) <> (userId, postId, "Post"%string) ->
  reaction_rows (PostsRepository.updateLikeForPost db now postId userId userLogin status) e t u
  = reaction_rows db e t u.
Proof.
  intros Hne. pose proof (reaction_of_apart _ _ _ _ _ _ Hne) as Hap.
  unfold reaction_rows. rewrite updateLikeForPost_halves, likes_new_added.
  assert (Hold : Sql.select (reaction_of u e t) (likes (old_removed db postId userId))
                 = Sql.select (reaction_of u e t) (likes db)).
  { destruct (likes_old_removed db postId userId) as [-> | ->]; [reflexivity|].
    apply select_delete_other. exact Hap. }
  destruct (String.eqb _ "None"); [exact Hold|].
  rewrite select_insert, Hold.
  destruct (reaction_of u e t _) eqn:Hown.
  - apply Hap in Hown. rewrite reaction_of_own in Hown. discriminate.
  - apply List.app_nil_r.
Qed.

Lemma updateLikeForPost_other_posts db now postId userId userLogin status other :
  other <> postId ->
  Sql.select (PostsRepository.has_id other)
    (posts (PostsRepository.updateLikeForPost db now postId userId userLogin status))
  = Sql.select (PostsRepository.has_id other) (posts db).
Proof.
  intros Hne.
  assert (Hb : forall c d (ps : list Post.row),
             Sql.select (PostsRepository.has_id other)
               (Sql.update (PostsRepository.has_id postId) (PostsRepository.bump c d) ps)
             = Sql.select (PostsRepository.has_id other) ps).
  { intros c d ps. apply select_update_other; [intros; apply has_id_bump|].
    intros r. apply has_id_disjoint. exact Hne. }
  rewrite updateLikeForPost_halves. unfold new_added, old_removed.
  destruct (negb _); cbn [posts set_posts set_likes].
  - rewrite Hb. destruct (Js.truthy _); cbn [posts set_posts set_likes]; [apply Hb|reflexivity].
  - destruct (Js.truthy _); cbn [posts set_posts set_likes]; [apply Hb|reflexivity].
Qed.

(** X3: after updateLikeForPost on a store in which no post reaction has
    an empty status, the reaction of that user on that post reads back as
    Like or Dislike when the status is exactly one of these, and as no
    reaction for any other text; the rows of every other (user, entity,
    type), the comments and the post rows with another id are as
    before. *)
Theorem updateLikeForPost_then_lookup
    (db : Db) (now : Js.Date) (postId userId userLogin status : string) :
  post_statuses_set db ->
  let db' := PostsRepository.updateLikeForPost db now postId userId userLogin status in
  CommentRepository.findUserReaction db' postId userId "Post"
  = (if String.eqb status "Like" then Some "Like"%string
     else if String.eqb status "Dislike" then Some "Dislike"%string
     else None)
  /\ (forall e t u, (u, e, t) <> (userId, postId, "Post"%string) ->
                    reaction_rows db' e t u = reaction_rows db e t u)
  /\ comments db' = comments db
  /\ (forall other, other <> postId ->
        Sql.select (PostsRepository.has_id other) (posts db')
        = Sql.select (PostsRepository.has_id other) (posts db)).
Proof.
  intros Hset db'. split.
  - unfold CommentRepository.findUserReaction, db'.
    pose proof (updateLikeForPost_rows db now postId userId userLogin status
                  (post_rows_deletable db postId userId Hset)) as H.
    unfold reaction_rows in H. rewrite H.
    unfold PostsRepository.normalizeLikeStatus, LikeStatus.Like, LikeStatus.Dislike.
    destruct (String.eqb status "Like"); [reflexivity|].
    destruct (String.eqb status "Dislike"); reflexivity.
  - split; [intros e t u; apply updateLikeForPost_other_rows|].
    split; [|intros other; apply updateLikeForPost_other_posts].
    unfold db'. rewrite updateLikeForPost_halves. unfold new_added, old_removed.
    destruct (negb _), (Js.truthy _); reflexivity.
Qed.

Lemma updateLikeForPost_then_lookup_witness :
  let db := set_likes [Likes.mk "U" "user" "P1" "Post" "Like" 5] Sample.db in
  let db' := PostsRepository.updateLikeForPost db 10 "P1" "U" "user" "Dislike" in
  CommentRepository.findUserReaction db' "P1" "U" "Post" = Some "Dislike"%string
  /\ comments db' = comments db.
Proof.
  intros db db'.
  assert (Hset : post_statuses_set db) by (intros r [<- | []] _; discriminate).
  destruct (updateLikeForPost_then_lookup db 10 "P1" "U" "user" "Dislike" Hset)
    as (H1 & _ & H3 & _).
  split; [exact H1|exact H3].
Defined.

(* --------------------------------------------------------------------- *)
(* The service: a write, then a read                                     *)
(* --------------------------------------------------------------------- *)

Lemma delete_no_active db commentId :
  Sql.select (CommentRepository.active_with_id commentId)
    (comments (CommentRepository.delete db commentId)) = [].
Proof.
  unfold CommentRepository.delete, Sql.select, Sql.update. cbn [comments set_comments].
  induction (comments db) as [|c cs IH]; simpl; [reflexivity|].
  unfold CommentRepository.active_with_id at 1.
  destruct (String.eqb (Comment.id c) commentId) eqn:E; simpl.
  - rewrite E. simpl. exact IH.
  - rewrite E. simpl. exact IH.
Qed.

Lemma findById_none db commentId viewer :
  Sql.select (CommentRepository.active_with_id commentId) (comments db) = [] ->
  CommentRepository.findById db commentId viewer = None.
Proof. unfold CommentRepository.findById. intros ->. reflexivity. Qed.

Lemma in_slice {A : Type} (n k : Z) (t : list A) (x : A) :
  In x (Sql.limit n (Sql.offset k t)) -> In x t.
Proof.
  unfold Sql.limit, Sql.offset. intros H.
  rewrite <- (List.firstn_skipn (Z.to_nat k) t). apply List.in_or_app. right.
  rewrite <- (List.firstn_skipn (Z.to_nat n) (skipn (Z.to_nat k) t)).
  apply List.in_or_app. left. exact H.
Qed.

(** X4: once deleteComment has succeeded, the comment is gone for every
    later call of the service: getCommentById, updateComment, a second
    deleteComment and likeComment all throw NotFoundException and leave
    the store as it is, and no listing of comments returns an item with
    its id. *)
Theorem deleteComment_then_not_found
    (db : Db) (commentId userId : string) :
  snd (CommentService.deleteComment db commentId userId) = inr tt ->
  let db' := fst (CommentService.deleteComment db commentId userId) in
  (forall viewer, CommentService.getCommentById db' commentId viewer
                  = (db', inl NotFoundException))
  /\ (forall content who, CommentService.updateComment db' commentId content who
                          = (db', inl NotFoundException))
  /\ (forall who, CommentService.deleteComment db' commentId who
                  = (db', inl NotFoundException))
  /\ (forall now who login status,
        CommentService.likeComment db' now commentId who login status
        = (db', inl NotFoundException))
  /\ (forall postId q viewer v,
        In v (items (CommentRepository.getCommentsForPost db' postId q viewer)) ->
        cv_id v <> commentId).
Proof.
  unfold CommentService.deleteComment.
  destruct (CommentRepository.findById db commentId None) as [v0|]; [|discriminate].
  destruct (negb _); [discriminate|]. intros _. cbn [fst].
  pose proof (delete_no_active db commentId) as Hnone.
  assert (Hfind : forall viewer,
             CommentRepository.findById (CommentRepository.delete db commentId) commentId viewer
             = None) by (intros; apply findById_none; exact Hnone).
  repeat split.
  - intros viewer. unfold CommentService.getCommentById. rewrite Hfind. reflexivity.
  - intros content who. unfold CommentService.updateComment. rewrite Hfind. reflexivity.
  - intros who. rewrite Hfind. reflexivity.
  - intros now who login status. unfold CommentService.likeComment. rewrite Hfind. reflexivity.
  - intros postId q viewer v Hv Hid.
    unfold CommentRepository.getCommentsForPost in Hv. cbn [items] in Hv.
    apply List.in_map_iff in Hv as (c & <- & Hc).
    apply in_slice in Hc. unfold CommentRepository.sorted_comments in Hc.
    apply (Permutation_in _ (order_by_perm _ _ _)) in Hc.
    apply List.filter_In in Hc as [Hin Hact].
    assert (Hsel : In c (Sql.select (CommentRepository.active_with_id commentId)
                           (comments (CommentRepository.delete db commentId)))).
    { apply List.filter_In. split; [exact Hin|].
      unfold CommentRepository.active_of_post in Hact.
      apply andb_true_iff in Hact as [_ Hact].
      unfold CommentRepository.active_with_id. simpl in Hid.
      rewrite Hid, String.eqb_refl, Hact. reflexivity. }
    rewrite Hnone in Hsel. destruct Hsel.
Qed.

Lemma deleteComment_then_not_found_witness :
  let db' := fst (CommentService.deleteComment Sample.db "C1" "U") in
  CommentService.getCommentById db' "C1" None = (db', inl NotFoundException)
  /\ CommentService.deleteComment db' "C1" "U" = (db', inl NotFoundException).
Proof.
  intros db'.
  destruct (deleteComment_then_not_found Sample.db "C1" "U" eq_refl) as (H1 & _ & H3 & _).
  split; [apply H1|apply H3].
Defined.

Lemma active_with_id_set_content commentId content c :
  CommentRepository.active_with_id commentId (Comment.set_content content c)
  = CommentRepository.active_with_id commentId c.
Proof. reflexivity. Qed.

Lemma findById_found db commentId viewer c rest :
  Sql.select (CommentRepository.active_with_id commentId) (comments db) = c :: rest ->
  exists status,
    CommentRepository.findById db commentId viewer
    = Some (mkCommentView (Comment.id c) (Comment.content c)
              (mkCommentatorInfo (Comment.user_id c) (Comment.user_login c))
              (JsString (Js.toISOString (Comment.created_at c)))
              (mkLikesInfo
                 (Sql.count (CommentRepository.comment_reaction_with commentId "Like") (likes db))
                 (Sql.count (CommentRepository.comment_reaction_with commentId "Dislike") (likes db))
                 status))
    /\ forall db2, likes db2 = likes db ->
                   forall c2 rest2,
                     Sql.select (CommentRepository.active_with_id commentId) (comments db2)
                     = c2 :: rest2 ->
                     CommentRepository.findById db2 commentId viewer
                     = Some (mkCommentView (Comment.id c2) (Comment.content c2)
                               (mkCommentatorInfo (Comment.user_id c2) (Comment.user_login c2))
                               (JsString (Js.toISOString (Comment.created_at c2)))
                               (mkLikesInfo
                                  (Sql.count (CommentRepository.comment_reaction_with commentId "Like") (likes db))
                                  (Sql.count (CommentRepository.comment_reaction_with commentId "Dislike") (likes db))
                                  status)).
Proof.
  intros Hsel. unfold CommentRepository.findById. rewrite Hsel.
  eexists. split; [reflexivity|].
  intros db2 Hl c2 rest2 Hsel2. rewrite Hsel2, Hl. reflexivity.
Qed.

(** X5: once updateComment has succeeded, getCommentById returns the
    comment with the new content and with the id, author, createdAt and
    likesInfo it had before, for any viewer; the likes and posts tables
    are not written. *)
Theorem updateComment_then_get
    (db : Db) (commentId content userId : string) (viewer : option string) :
  snd (CommentService.updateComment db commentId content userId) = inr tt ->
  let db' := fst (CommentService.updateComment db commentId content userId) in
  exists v v',
    CommentRepository.findById db commentId viewer = Some v
    /\ CommentService.getCommentById db' commentId viewer = (db', inr v')
    /\ cv_content v' = content
    /\ cv_id v' = cv_id v
    /\ commentatorInfo v' = commentatorInfo v
    /\ ci_userId (commentatorInfo v') = userId
    /\ cv_createdAt v' = cv_createdAt v
    /\ likesInfo v' = likesInfo v
    /\ likes db' = likes db /\ posts db' = posts db.
Proof.
  intros Hok.
  destruct (Sql.select (CommentRepository.active_with_id commentId) (comments db))
    as [|c rest] eqn:Hsel.
  { unfold CommentService.updateComment in Hok.
    rewrite (findById_none _ _ _ Hsel) in Hok. discriminate. }
  destruct (findById_found db commentId None c rest Hsel) as (st0 & Hf0 & _).
  assert (Hdb : CommentService.updateComment db commentId content userId
                = (CommentRepository.updateContent db commentId content, inr tt)
                /\ Comment.user_id c = userId).
  { unfold CommentService.updateComment in *. rewrite Hf0 in *.
    cbn [commentatorInfo ci_userId] in *.
    destruct (String.eqb_spec (Comment.user_id c) userId) as [Hu | Hu];
      cbn [negb snd] in *; [split; [reflexivity|exact Hu]|discriminate]. }
  destruct Hdb as [Hdb Hu]. rewrite Hdb. cbn [fst].
  destruct (select_single_in _ _ _ _ Hsel) as [_ Hact].
  assert (Hid : String.eqb (Comment.id c) commentId = true).
  { unfold CommentRepository.active_with_id in Hact. apply andb_true_iff in Hact. tauto. }
  assert (Hsel' : Sql.select (CommentRepository.active_with_id commentId)
                    (comments (CommentRepository.updateContent db commentId content))
                  = Comment.set_content content c
                    :: Sql.update (fun c => String.eqb (Comment.id c) commentId)
                         (Comment.set_content content) rest).
  { unfold CommentRepository.updateContent. cbn [comments set_comments].
    rewrite select_update by (intros; apply active_with_id_set_content).
    rewrite Hsel. cbn [Sql.update List.map]. rewrite Hid. reflexivity. }
  destruct (findById_found db commentId viewer c rest Hsel) as (st & Hf & Hf2).
  do 2 eexists. split; [exact Hf|].
  split.
  { unfold CommentService.getCommentById.
    rewrite (Hf2 (CommentRepository.updateContent db commentId content) eq_refl _ _ Hsel').
    reflexivity. }
  cbn. repeat split. exact Hu.
Qed.

Lemma updateComment_then_get_witness :
  let db' := fst (CommentService.updateComment Sample.db "C1" "an edited comment text" "U") in
  exists v v',
    CommentRepository.findById Sample.db "C1" None = Some v
    /\ CommentService.getCommentById db' "C1" None = (db', inr v')
    /\ cv_content v' = "an edited comment text"%string
    /\ cv_createdAt v' = cv_createdAt v.
Proof.
  intros db'.
  destruct (updateComment_then_get Sample.db "C1" "an edited comment text" "U" None eq_refl)
    as (v & v' & H1 & H2 & H3 & _ & _ & _ & H7 & _).
  exists v, v'. repeat split; assumption.
Defined.

(** X6: when likeComment is called by a user with a non-empty id on a
    comment that is found, getCommentById for that user then returns the
    comment with myStatus equal to the normalized status (None when the
    reaction was removed); the comments and posts tables are not
    written. *)
Theorem likeComment_then_get
    (db : Db) (now : Js.Date) (commentId userId userLogin status : string) :
  live_comment db commentId <> None ->
  userId <> EmptyString ->
  let db' := fst (CommentService.likeComment db now commentId userId userLogin status) in
  snd (CommentService.likeComment db now commentId userId userLogin status) = inr tt
  /\ comments db' = comments db /\ posts db' = posts db
  /\ exists v,
       CommentService.getCommentById db' commentId (Some userId) = (db', inr v)
       /\ li_myStatus (likesInfo v) = CommentRepository.normalizedStatus status.
Proof.
  intros Hlive Hu.
  pose proof (findById_live db commentId None) as Hf.
  destruct (live_comment db commentId) as [c|] eqn:Hl; [|contradiction].
  destruct Hf as (v0 & Hf & _).
  unfold CommentService.likeComment. rewrite Hf. cbn [fst snd].
  destruct (updateLikeForComment_tables db now commentId userId userLogin status)
    as (Hc & Hp).
  split; [reflexivity|]. split; [exact Hc|]. split; [exact Hp|].
  pose proof (updateLikeForComment_first_status db now commentId userId userLogin status)
    as Hst.
  unfold CommentService.getCommentById, CommentRepository.findById.
  rewrite Hc. unfold live_comment in Hl.
  destruct (Sql.select (CommentRepository.active_with_id commentId) (comments db))
    as [|c0 rest]; [discriminate|].
  eexists. split; [reflexivity|]. cbn [likesInfo li_myStatus].
  assert (Ht : Js.truthy (Some userId) = true).
  { simpl. apply negb_true_iff, String.eqb_neq. exact Hu. }
  rewrite Ht.
  destruct (Sql.select (reaction_of userId commentId "Comment") _) as [|r rows];
    simpl in Hst;
    destruct (String.eqb_spec (CommentRepository.normalizedStatus status) "None") as [E | E];
    try discriminate.
  - rewrite E. reflexivity.
  - congruence.
Qed.

Lemma likeComment_then_get_witness :
  let db' := fst (CommentService.likeComment Sample.db 10 "C1" "V" "viewer" "dISLIKE") in
  exists v,
    CommentService.getCommentById db' "C1" (Some "V"%string) = (db', inr v)
    /\ li_myStatus (likesInfo v) = "Dislike"%string.
Proof.
  intros db'.
  assert (H1 : live_comment Sample.db "C1" <> None) by discriminate.
  assert (H2 : "V"%string <> EmptyString) by discriminate.
  destruct (likeComment_then_get Sample.db 10 "C1" "V" "viewer" "dISLIKE" H1 H2)
    as (_ & _ & _ & v & Hv & Hs).
  exists v. split; [exact Hv|exact Hs].
Defined.

(* --------------------------------------------------------------------- *)
(* What the listings return                                              *)
(* --------------------------------------------------------------------- *)

Lemma in_page_of_sorted {A : Type} (key : A -> Sql.Key) dir (n k : Z) (p : A -> bool)
    (t : list A) (x : A) :
  In x (Sql.limit n (Sql.offset k (Sql.order_by key dir (Sql.select p t)))) ->
  In x t /\ p x = true.
Proof.
  intros H. apply in_slice in H.
  apply (Permutation_in _ (order_by_perm _ _ _)) in H.
  apply List.filter_In in H. exact H.
Qed.

Lemma is_active_ACTIVE p : PostsRepository.is_active p = true -> Post.deletionStatus p = ACTIVE.
Proof. unfold PostsRepository.is_active. destruct (Post.deletionStatus p); [reflexivity|discriminate]. Qed.

Lemma getPostsByBlogId_items_live db blogId q viewer v :
  In v (items_of (PostsRepository.getPostsByBlogId db blogId q viewer)) ->
  exists p, In p (posts db) /\ Blog.id (Post.blog p) = blogId
            /\ Post.deletionStatus p = ACTIVE /\ view_fields v = row_fields p.
Proof.
  intros Hv. unfold PostsRepository.getPostsByBlogId in Hv.
  destruct (TypeOrm.orderBy _) as [e|dir]; [destruct Hv|].
  unfold items_of, PostsRepository.assemble in Hv. cbn [items] in Hv.
  apply List.in_map_iff in Hv as (p & <- & Hp).
  apply in_page_of_sorted in Hp as [Hin Hact].
  unfold PostsRepository.active_of_blog in Hact.
  apply andb_true_iff in Hact as [H1 H2]. apply String.eqb_eq in H1.
  exists p. repeat split; [assumption|assumption|apply is_active_ACTIVE; exact H2].
Qed.

(** X7: a listing returns only what is live: every item of
    getCommentsForPost is the view of a stored comment of that post whose
    deletion_status is 'active', every item of getPostsByBlogId is the
    view of a stored post of that blog whose deletionStatus is ACTIVE,
    and every item of getAllPostsWithPagination is the view of a stored
    ACTIVE post; a soft-deleted row is never listed. *)
Theorem listings_return_only_live_rows
    (db : Db) (postId blogId : string) (q : Query) (viewer : option string) :
  (forall v, In v (items (CommentRepository.getCommentsForPost db postId q viewer)) ->
     exists c, In c (comments db) /\ Comment.post_id c = postId
               /\ Comment.deletion_status c = "active"%string
               /\ v = CommentRepository.comment_item db viewer c)
  /\ (forall v, In v (items_of (PostsRepository.getPostsByBlogId db blogId q viewer)) ->
        exists p, In p (posts db) /\ Blog.id (Post.blog p) = blogId
                  /\ Post.deletionStatus p = ACTIVE /\ view_fields v = row_fields p)
  /\ (forall v, In v (items_of (PostsRepository.getAllPostsWithPagination db q viewer)) ->
        exists p, In p (posts db) /\ Post.deletionStatus p = ACTIVE
                  /\ view_fields v = row_fields p).
Proof.
  split; [|split].
  - intros v Hv. unfold CommentRepository.getCommentsForPost in Hv. cbn [items] in Hv.
    apply List.in_map_iff in Hv as (c & <- & Hc).
    apply in_page_of_sorted in Hc as [Hin Hact].
    unfold CommentRepository.active_of_post in Hact.
    apply andb_true_iff in Hact as [H1 H2]. apply String.eqb_eq in H1, H2.
    exists c. repeat split; assumption.
  - intros v. apply getPostsByBlogId_items_live.
  - intros v Hv. unfold PostsRepository.getAllPostsWithPagination in Hv.
    destruct (TypeOrm.orderBy _) as [e|dir]; [destruct Hv|].
    unfold items_of, PostsRepository.assemble in Hv. cbn [items] in Hv.
    apply List.in_map_iff in Hv as (p & <- & Hp).
    apply in_page_of_sorted in Hp as [Hin Hact].
    exists p. repeat split; [assumption|apply is_active_ACTIVE; exact Hact].
Qed.

Lemma listings_return_only_live_rows_witness :
  match items_of (PostsRepository.getPostsByBlogId Sample.liked "B" Sample.all None) with
  | v :: _ =>
      exists p, In p (posts Sample.liked) /\ Blog.id (Post.blog p) = "B"%string
                /\ Post.deletionStatus p = ACTIVE /\ view_fields v = row_fields p
  | [] => False
  end.
Proof.
  destruct (items_of (PostsRepository.getPostsByBlogId Sample.liked "B" Sample.all None))
    as [|v rest] eqn:E; [vm_compute in E; discriminate E|].
  apply (proj1 (proj2 (listings_return_only_live_rows Sample.liked "P1" "B" Sample.all None))).
  rewrite E. left. reflexivity.
Defined.

(** X8: a page after the last one is empty: when page and pageSize are
    positive and page is greater than the pagesCount the listing returns,
    the listing has no items (totalCount and pagesCount are those of any
    other page).  This holds for the comments of a post and for the posts
    of a blog. *)
Theorem page_after_last_is_empty
    (db : Db) (postId blogId : string) (q : Query) (viewer : option string) (p ps : Z) :
  q_pageNumber q = Some p -> q_pageSize q = Some ps -> 0 < ps ->
  (pagesCount (CommentRepository.getCommentsForPost db postId q viewer) < p ->
   items (CommentRepository.getCommentsForPost db postId q viewer) = [])
  /\ (forall r, PostsRepository.getPostsByBlogId db blogId q viewer = inr r ->
                pagesCount r < p -> items r = []).
Proof.
  intros Hp Hs Hs0.
  assert (Hempty : forall (A : Type) (l : list A),
             Js.ceil_div (Z.of_nat (length l)) ps < p ->
             Sql.limit ps (Sql.offset ((p - 1) * ps) l) = []).
  { intros A l Hlt. unfold Sql.limit, Sql.offset.
    pose proof (ceil_div_bounds (Z.of_nat (length l)) ps Hs0) as Hb.
    rewrite List.skipn_all2; [apply List.firstn_nil|]. nia. }
  split.
  - unfold CommentRepository.getCommentsForPost. rewrite Hp, Hs.
    cbn [items pagesCount]. intros Hlt.
    assert (E2 : CommentRepository.num_or (Some ps) 10 = ps).
    { unfold CommentRepository.num_or. destruct (Z.eqb_spec ps 0); [lia|reflexivity]. }
    rewrite E2 in *.
    unfold Sql.count, Sql.select in Hlt.
    rewrite <- (order_by_length
                  (CommentRepository.column_key
                     (or_else (CommentRepository.sortableFieldsMap
                                 !! or_else (q_sortBy q) "createdAt") "created_at"))
                  (CommentRepository.sql_direction (CommentRepository.sortDirection q)))
      in Hlt.
    assert (E1 : CommentRepository.num_or (Some p) 1 = p).
    { unfold CommentRepository.num_or. destruct (Z.eqb_spec p 0) as [E|]; [|reflexivity].
      pose proof (ceil_div_bounds
                    (Z.of_nat (length (Sql.order_by
                       (CommentRepository.column_key
                          (or_else (CommentRepository.sortableFieldsMap
                                      !! or_else (q_sortBy q) "createdAt") "created_at"))
                       (CommentRepository.sql_direction (CommentRepository.sortDirection q))
                       (List.filter (CommentRepository.active_of_post postId) (comments db)))))
                    ps Hs0). nia. }
    rewrite E1. unfold CommentRepository.sorted_comments, Sql.select.
    rewrite Hempty; [reflexivity|exact Hlt].
  - intros r. unfold PostsRepository.getPostsByBlogId.
    destruct (TypeOrm.orderBy _) as [e|dir]; [discriminate|].
    rewrite Hp, Hs. intros [= <-]. unfold PostsRepository.assemble. cbn [items pagesCount default].
    intros Hlt. rewrite Hempty; [reflexivity|].
    rewrite order_by_length. exact Hlt.
Qed.

Lemma page_after_last_is_empty_witness :
  items (CommentRepository.getCommentsForPost Sample.db "P1"
           (mkQuery (Some 5) (Some 2) None None) None) = [].
Proof.
  apply (proj1 (page_after_last_is_empty Sample.db "P1" "B"
                  (mkQuery (Some 5) (Some 2) None None) None 5 2 eq_refl eq_refl eq_refl)).
  reflexivity.
Defined.

(* --------------------------------------------------------------------- *)
(* The sort field                                                        *)
(* --------------------------------------------------------------------- *)

Lemma sortableFieldsMap_other sb :
  sb <> "content"%string -> sb <> "createdAt"%string ->
  CommentRepository.sortableFieldsMap !! sb = None.
Proof.
  intros H1 H2. unfold CommentRepository.sortableFieldsMap.
  rewrite lookup_insert_ne by congruence.
  rewrite lookup_insert_ne by congruence.
  apply lookup_empty.
Qed.

Lemma sortableFieldsMap_createdAt :
  CommentRepository.sortableFieldsMap !! "createdAt"%string = Some "created_at"%string.
Proof.
  unfold CommentRepository.sortableFieldsMap.
  rewrite lookup_insert_ne by discriminate. apply lookup_insert_eq.
Qed.

Lemma includes_false xs x : ~ In x xs -> PostsRepository.includes xs x = false.
Proof.
  intros H. unfold PostsRepository.includes.
  destruct (List.existsb (String.eqb x) xs) eqn:E; [|reflexivity].
  apply List.existsb_exists in E as (y & Hy & Hxy).
  apply String.eqb_eq in Hxy. subst y. contradiction.
Qed.

(** X9: a sortBy outside the allow-list is read as createdAt.  For the
    comments of a post any sortBy other than 'content' and 'createdAt'
    that is not a property name objects inherit (for those the lookup in
    sortableFieldsMap finds a value and the query fails), and for the
    post listings any sortBy outside their list of fields, gives the
    result of the same query without sortBy, which sorts by the creation
    time. *)
Theorem sort_field_outside_allow_list
    (db : Db) (postId blogId : string) (q : Query) (viewer : option string) (sb : string) :
  q_sortBy q = Some sb ->
  (sb <> "content"%string -> sb <> "createdAt"%string ->
   ~ In sb Js.object_prototype_names ->
   CommentRepository.getCommentsForPost db postId q viewer
   = CommentRepository.getCommentsForPost db postId (with_sortBy q None) viewer)
  /\ (~ In sb ["createdAt"; "title"; "shortDescription"; "content"]%string ->
      PostsRepository.getPostsByBlogId db blogId q viewer
      = PostsRepository.getPostsByBlogId db blogId (with_sortBy q None) viewer)
  /\ (~ In sb ["createdAt"; "title"; "shortDescription"; "content"; "blogName"]%string ->
      PostsRepository.getAllPostsWithPagination db q viewer
      = PostsRepository.getAllPostsWithPagination db (with_sortBy q None) viewer).
Proof.
  intros Hsb. split; [|split].
  - intros H1 H2 _.
    unfold CommentRepository.getCommentsForPost, CommentRepository.sorted_comments.
    cbn [with_sortBy q_pageNumber q_pageSize q_sortBy q_sortDirection].
    rewrite Hsb.
    assert (E : or_else (CommentRepository.sortableFieldsMap !! or_else (Some sb) "createdAt")
                  "created_at"
                = or_else (CommentRepository.sortableFieldsMap !! or_else None "createdAt")
                    "created_at").
    { cbn [or_else]. rewrite sortableFieldsMap_createdAt.
      destruct (String.eqb sb ""); [rewrite sortableFieldsMap_createdAt; reflexivity|].
      rewrite sortableFieldsMap_other by assumption. reflexivity. }
    unfold CommentRepository.sortDirection.
    cbn [with_sortBy q_pageNumber q_pageSize q_sortBy q_sortDirection].
    rewrite E. reflexivity.
  - intros Hout. unfold PostsRepository.getPostsByBlogId.
    cbn [with_sortBy q_pageNumber q_pageSize q_sortBy q_sortDirection].
    rewrite Hsb. cbn [default from_option id].
    rewrite (includes_false _ sb Hout). reflexivity.
  - intros Hout. unfold PostsRepository.getAllPostsWithPagination.
    cbn [with_sortBy q_pageNumber q_pageSize q_sortBy q_sortDirection].
    rewrite Hsb. cbn [default from_option id].
    rewrite (includes_false _ sb Hout). reflexivity.
Qed.

Lemma sort_field_outside_allow_list_witness :
  let q := mkQuery None None (Some "dropTable"%string) None in
  CommentRepository.getCommentsForPost Sample.liked "P1" q None
  = CommentRepository.getCommentsForPost Sample.liked "P1" Sample.all None
  /\ PostsRepository.getPostsByBlogId Sample.liked "B" q None
     = PostsRepository.getPostsByBlogId Sample.liked "B" Sample.all None.
Proof.
  intros q.
  destruct (sort_field_outside_allow_list Sample.liked "P1" "B" q None "dropTable" eq_refl)
    as (H1 & H2 & _).
  split.
  - apply H1; [discriminate|discriminate|].
    unfold Js.object_prototype_names. intros H.
    repeat (destruct H as [H | H]; [discriminate H|]). destruct H.
  - apply H2. intros [H | [H | [H | [H | []]]]]; discriminate H.
Defined.

(* --------------------------------------------------------------------- *)
(* updatePost and deletePost                                             *)
(* --------------------------------------------------------------------- *)

Lemma affected_positive {A : Type} (p : A -> bool) (t : list A) :
  (0 <? Sql.affected p t) = true <-> exists r, In r t /\ p r = true.
Proof.
  unfold Sql.affected, Sql.count, Sql.select. rewrite Z.ltb_lt. split.
  - destruct (List.filter p t) as [|r rest] eqn:E; [simpl; lia|]. intros _.
    exists r. apply List.filter_In. rewrite E. left. reflexivity.
  - intros (r & Hr). apply List.filter_In in Hr.
    destruct (List.filter p t); [destruct Hr|simpl; lia].
Qed.

Lemma affected_none {A : Type} (p : A -> bool) (f : A -> A) (t : list A) :
  (0 <? Sql.affected p t) = false -> Sql.update p f t = t.
Proof.
  unfold Sql.affected, Sql.count. intros H. apply select_nil_update.
  destruct (Sql.select p t); [reflexivity|]. simpl in H. apply Z.ltb_ge in H. lia.
Qed.

Lemma post_of_blog_true postId blogId p :
  PostsRepository.post_of_blog postId blogId p = true <->
  Post.id p = postId /\ Blog.id (Post.blog p) = blogId.
Proof.
  unfold PostsRepository.post_of_blog. rewrite andb_true_iff, !String.eqb_eq. tauto.
Qed.

(** X10: updatePost and deletePost act on the rows whose id and blog id
    both match, whatever their deletion status.  Both return true exactly
    when such a row exists; when they return false the store is
    unchanged.  updatePost writes title, shortDescription and content of
    the matching rows and nothing else: ids, blogs, counters, creation
    times and deletion statuses of all posts, and the other tables, are
    as before. *)
Theorem post_writes_match_id_and_blog
    (db : Db) (postId blogId : string) (dto : UpdatePostDto) :
  (snd (PostsRepository.updatePost db postId blogId dto) = true <->
   exists p, In p (posts db) /\ Post.id p = postId /\ Blog.id (Post.blog p) = blogId)
  /\ snd (PostsRepository.deletePost db postId blogId)
     = snd (PostsRepository.updatePost db postId blogId dto)
  /\ (snd (PostsRepository.updatePost db postId blogId dto) = false ->
      fst (PostsRepository.updatePost db postId blogId dto) = db
      /\ fst (PostsRepository.deletePost db postId blogId) = db)
  /\ likes (fst (PostsRepository.updatePost db postId blogId dto)) = likes db
  /\ comments (fst (PostsRepository.updatePost db postId blogId dto)) = comments db
  /\ Forall2 (post_texts_updated (PostsRepository.post_of_blog postId blogId) dto)
       (posts db) (posts (fst (PostsRepository.updatePost db postId blogId dto))).
Proof.
  unfold PostsRepository.updatePost, PostsRepository.deletePost. cbn [fst snd].
  split.
  { rewrite affected_positive. split; intros (p & Hin & H); exists p.
    - apply post_of_blog_true in H. tauto.
    - split; [exact Hin|]. apply post_of_blog_true. exact H. }
  split; [reflexivity|].
  split.
  { intros H. rewrite !(affected_none _ _ _ H). destruct db. split; reflexivity. }
  split; [reflexivity|]. split; [reflexivity|].
  cbn [posts set_posts]. apply Forall2_update. intros p. unfold post_texts_updated.
  destruct (PostsRepository.post_of_blog postId blogId p); simpl; repeat split.
Qed.

Lemma post_writes_match_id_and_blog_witness :
  fst (PostsRepository.updatePost Sample.db "P1" "other-blog"
         (mkUpdatePostDto "t" "s" "c")) = Sample.db
  /\ fst (PostsRepository.deletePost Sample.db "P1" "other-blog") = Sample.db.
Proof.
  apply (post_writes_match_id_and_blog Sample.db "P1" "other-blog" (mkUpdatePostDto "t" "s" "c")).
  reflexivity.
Defined.

(* --------------------------------------------------------------------- *)
(* Order of the rows                                                     *)
(* --------------------------------------------------------------------- *)

Lemma key_leb_total a b : Sql.key_leb a b = true \/ Sql.key_leb b a = true.
Proof.
  destruct a as [x|x], b as [y|y]; simpl; auto.
  - destruct (Z.leb_spec x y); [auto|right; apply Z.leb_le; lia].
  - apply String.leb_total.
Qed.

Section Sorting.
Context {A : Type} (key : A -> Sql.Key) (dir : Sql.Direction).

Let ordered (a b : A) : Prop := in_order dir (key a) (key b).

Lemma before_ordered a b : Sql.before key dir a b = true <-> ordered a b.
Proof. unfold ordered, in_order, Sql.before. destruct dir; reflexivity. Qed.

Lemma ordered_total a b : ordered a b \/ ordered b a.
Proof.
  unfold ordered, in_order. destruct dir.
  - apply key_leb_total.
  - destruct (key_leb_total (key a) (key b)); auto.
Qed.

Lemma place_sorted r t : Sorted ordered t -> Sorted ordered (Sql.place key dir r t).
Proof.
  induction t as [|x rest IH]; intros Hs; simpl.
  - repeat constructor.
  - destruct (Sql.before key dir r x) eqn:Hb.
    + constructor; [exact Hs|]. constructor. apply before_ordered. exact Hb.
    + assert (Hxr : ordered x r).
      { destruct (ordered_total x r) as [H | H]; [exact H|].
        apply before_ordered in H. congruence. }
      inversion Hs as [|? ? Hrest Hhd]; subst.
      constructor; [apply IH; exact Hrest|].
      destruct rest as [|y rest']; simpl.
      * constructor. exact Hxr.
      * destruct (Sql.before key dir r y); constructor; [exact Hxr|].
        inversion Hhd; assumption.
Qed.

Lemma order_by_sorted t : Sorted ordered (Sql.order_by key dir t).
Proof.
  unfold Sql.order_by.
  induction t as [|r t IH]; simpl; [constructor|]. apply place_sorted. exact IH.
Qed.

End Sorting.

Lemma Sorted_skipn {A : Type} (R : A -> A -> Prop) n (l : list A) :
  Sorted R l -> Sorted R (skipn n l).
Proof.
  revert l. induction n as [|n IH]; intros l Hs; [exact Hs|].
  destruct l as [|a l]; [constructor|]. simpl. apply IH.
  inversion Hs; assumption.
Qed.

Lemma Sorted_firstn {A : Type} (R : A -> A -> Prop) n (l : list A) :
  Sorted R l -> Sorted R (firstn n l).
Proof.
  revert n. induction l as [|a l IH]; intros n Hs.
  - rewrite List.firstn_nil. constructor.
  - destruct n as [|n]; [constructor|]. simpl.
    inversion Hs as [|? ? Hl Hhd]; subst.
    constructor; [apply IH; exact Hl|].
    destruct l as [|b l]; [rewrite List.firstn_nil; constructor|].
    destruct n; [constructor|]. simpl. constructor. inversion Hhd; assumption.
Qed.

Lemma Sorted_weaken {A : Type} (R R' : A -> A -> Prop) (l : list A) :
  (forall a b, R a b -> R' a b) -> Sorted R l -> Sorted R' l.
Proof.
  intros HR H. induction H as [|a l Hl IH Hhd]; constructor; [exact IH|].
  destruct Hhd; constructor. apply HR. assumption.
Qed.

Lemma Sorted_slice {A : Type} (R : A -> A -> Prop) n k (l : list A) :
  Sorted R l -> Sorted R (Sql.limit n (Sql.offset k l)).
Proof. intros H. apply Sorted_firstn, Sorted_skipn. exact H. Qed.

Lemma column_key_comment_sort_key q c :
  CommentRepository.column_key
    (or_else (CommentRepository.sortableFieldsMap !! or_else (q_sortBy q) "createdAt")
       "created_at") c
  = comment_sort_key q c.
Proof.
  unfold comment_sort_key. destruct (q_sortBy q) as [sb|]; cbn [or_else].
  - destruct (String.eqb_spec sb "") as [-> | Hne].
    + rewrite sortableFieldsMap_createdAt. reflexivity.
    + destruct (String.eqb_spec sb "content") as [-> | Hc].
      * unfold CommentRepository.sortableFieldsMap. rewrite lookup_insert_eq. reflexivity.
      * destruct (String.eqb_spec sb "createdAt") as [-> | Hd].
        -- rewrite sortableFieldsMap_createdAt. reflexivity.
        -- rewrite sortableFieldsMap_other by assumption. reflexivity.
  - rewrite sortableFieldsMap_createdAt. reflexivity.
Qed.

(** X11: the items of a listing come in the order asked for.  The rows
    behind the items of getCommentsForPost are sorted by content when
    sortBy is 'content' and by creation time otherwise, ascending for a
    direction that is 'asc' up to case and descending otherwise; the rows
    behind the items of getPostsByBlogId are sorted by the allowed sort
    field in the direction the query builder took. *)
Theorem listings_are_sorted
    (db : Db) (postId blogId : string) (q : Query) (viewer : option string) :
  (exists rows,
     items (CommentRepository.getCommentsForPost db postId q viewer)
     = List.map (CommentRepository.comment_item db viewer) rows
     /\ Sorted (fun a b => in_order
                             (CommentRepository.sql_direction (CommentRepository.sortDirection q))
                             (comment_sort_key q a) (comment_sort_key q b)) rows)
  /\ (forall dir r,
        TypeOrm.orderBy (Js.toUpperCase (default "desc"%string (q_sortDirection q))) = inr dir ->
        PostsRepository.getPostsByBlogId db blogId q viewer = inr r ->
        exists rows,
          List.map view_fields (items r) = List.map row_fields rows
          /\ Sorted (fun a b => in_order dir
                                  (PostsRepository.post_key (safe_sort_by q) a)
                                  (PostsRepository.post_key (safe_sort_by q) b)) rows).
Proof.
  split.
  - unfold CommentRepository.getCommentsForPost. cbn [items].
    eexists. split; [reflexivity|].
    apply Sorted_slice. unfold CommentRepository.sorted_comments.
    pose proof (order_by_sorted
                  (CommentRepository.column_key
                     (or_else (CommentRepository.sortableFieldsMap
                                 !! or_else (q_sortBy q) "createdAt") "created_at"))
                  (CommentRepository.sql_direction (CommentRepository.sortDirection q))
                  (Sql.select (CommentRepository.active_of_post postId) (comments db))) as H.
    eapply Sorted_weaken; [|exact H].
    intros a b Hab. cbv beta. rewrite <- !column_key_comment_sort_key. exact Hab.
  - intros dir r Hdir. unfold PostsRepository.getPostsByBlogId. rewrite Hdir.
    intros [= <-]. unfold PostsRepository.assemble. cbn [items].
    eexists. split.
    + rewrite List.map_map. apply List.map_ext. intros p. apply view_fields_item.
    + apply Sorted_slice. fold (safe_sort_by q).
      apply (order_by_sorted (PostsRepository.post_key (safe_sort_by q)) dir).
Qed.

Lemma listings_are_sorted_witness :
  exists rows,
    List.map view_fields
      (items_of (PostsRepository.getPostsByBlogId Sample.liked "B" Sample.all None))
    = List.map row_fields rows
    /\ Sorted (fun a b => Post.createdAt b <= Post.createdAt a) rows.
Proof.
  destruct (proj2 (listings_are_sorted Sample.liked "P1" "B" Sample.all None)
              Sql.DESC _ eq_refl eq_refl) as (rows & H1 & H2).
  exists rows. split; [exact H1|].
  apply (Sorted_weaken _ _ _ (fun a b Hab => proj1 (Z.leb_le _ _) Hab) H2).
Defined.

(* --------------------------------------------------------------------- *)
(* findPostById                                                          *)
(* --------------------------------------------------------------------- *)

Lemma StronglySorted_app_inv {A : Type} (R : A -> A -> Prop) (l1 l2 : list A) :
  StronglySorted R (l1 ++ l2) -> forall a b, In a l1 -> In b l2 -> R a b.
Proof.
  induction l1 as [|x l1 IH]; simpl; intros Hs a b Ha Hb; [destruct Ha|].
  apply StronglySorted_inv in Hs as [Hs Hall].
  destruct Ha as [<- | Ha].
  - rewrite List.Forall_forall in Hall. apply Hall. apply List.in_or_app. right. exact Hb.
  - apply (IH Hs a b Ha Hb).
Qed.

Lemma like_of_post_in_single postId l :
  PostsRepository.like_of_post_in [postId] l = post_reaction_with postId "Like" l.
Proof.
  unfold PostsRepository.like_of_post_in, PostsRepository.includes, post_reaction_with.
  simpl. rewrite orb_false_r. reflexivity.
Qed.

Lemma post_reaction_with_true postId st l :
  post_reaction_with postId st l = true <->
  Likes.entity_id l = postId /\ Likes.entity_type l = "Post"%string /\ Likes.status l = st.
Proof.
  unfold post_reaction_with. rewrite !andb_true_iff, !String.eqb_eq. tauto.
Qed.

(** X12: the newestLikes of findPostById are the views of at most three
    stored reactions, each a Like of that post, the most recent first;
    they are all its likes when it has at most three, and every Like of
    the post left out is no more recent than each one returned. *)
Theorem findPostById_newestLikes
    (db : Db) (postId : string) (viewer : option string) (v : PostView) :
  PostsRepository.findPostById db postId viewer = Some v ->
  exists rows,
    newestLikes (extendedLikesInfo v) = List.map PostsRepository.newest_like rows
    /\ length rows = Nat.min 3 (Z.to_nat (likes_of db postId "Like"))
    /\ (forall l, In l rows ->
          In l (likes db) /\ Likes.entity_id l = postId
          /\ Likes.entity_type l = "Post"%string /\ Likes.status l = "Like"%string)
    /\ Sorted (fun a b => Likes.created_at b <= Likes.created_at a) rows
    /\ (forall l, In l (likes db) -> post_reaction_with postId "Like" l = true ->
          In l rows \/ forall n, In n rows -> Likes.created_at l <= Likes.created_at n).
Proof.
  unfold PostsRepository.findPostById.
  destruct (Sql.select _ (posts db)) as [|post rest]; [discriminate|].
  intros [= <-]. cbn [extendedLikesInfo newestLikes].
  set (found := Sql.select (PostsRepository.like_of_post_in [postId]) (likes db)).
  set (sorted := Sql.order_by (fun l => Sql.KTime (Likes.created_at l)) Sql.DESC found).
  assert (Hfound : found = Sql.select (post_reaction_with postId "Like") (likes db)).
  { unfold found, Sql.select. apply List.filter_ext. intros l. apply like_of_post_in_single. }
  assert (Hsorted : Sorted (fun a b => Likes.created_at b <= Likes.created_at a) sorted).
  { eapply Sorted_weaken;
      [|exact (order_by_sorted (fun l => Sql.KTime (Likes.created_at l)) Sql.DESC found)].
    intros a b Hab. apply Z.leb_le. exact Hab. }
  exists (Sql.limit 3 sorted). split; [reflexivity|].
  split.
  { unfold Sql.limit. rewrite List.length_firstn. unfold sorted.
    rewrite order_by_length, Hfound. unfold likes_of, Sql.count.
    rewrite Nat2Z.id. reflexivity. }
  split.
  { intros l Hl. unfold Sql.limit in Hl.
    assert (Hin : In l sorted).
    { rewrite <- (List.firstn_skipn (Z.to_nat 3) sorted). apply List.in_or_app. auto. }
    apply (Permutation_in _ (order_by_perm _ _ _)) in Hin.
    rewrite Hfound in Hin. apply List.filter_In in Hin as [Hin Hp].
    apply post_reaction_with_true in Hp. tauto. }
  split.
  { unfold Sql.limit. apply Sorted_firstn. exact Hsorted. }
  intros l Hin Hp.
  assert (Hl : In l sorted).
  { apply (Permutation_in _ (Permutation_sym (order_by_perm _ _ _))).
    rewrite Hfound. apply List.filter_In. auto. }
  assert (Hss : StronglySorted (fun a b => Likes.created_at b <= Likes.created_at a)
                  (firstn (Z.to_nat 3) sorted ++ skipn (Z.to_nat 3) sorted)).
  { rewrite List.firstn_skipn. apply Sorted_StronglySorted; [|exact Hsorted].
    intros x y z Hxy Hyz. lia. }
  rewrite <- (List.firstn_skipn (Z.to_nat 3) sorted) in Hl.
  apply List.in_app_or in Hl as [Hl | Hl]; [left; exact Hl|right].
  intros n Hn. apply (StronglySorted_app_inv _ _ _ Hss n l Hn Hl).
Qed.

Lemma findPostById_newestLikes_witness :
  exists v rows,
    PostsRepository.findPostById Sample.liked "P1" None = Some v
    /\ newestLikes (extendedLikesInfo v) = List.map PostsRepository.newest_like rows
    /\ length rows = 3%nat.
Proof.
  destruct (PostsRepository.findPostById Sample.liked "P1" None) as [v|] eqn:E;
    [|discriminate E].
  destruct (findPostById_newestLikes Sample.liked "P1" None v E) as (rows & H1 & H2 & _).
  exists v, rows. split; [reflexivity|]. split; [exact H1|exact H2].
Defined.

Lemma has_id_active_bump postId c d p :
  (String.eqb (Post.id (PostsRepository.bump c d p)) postId
   && PostsRepository.is_active (PostsRepository.bump c d p))
  = (String.eqb (Post.id p) postId && PostsRepository.is_active p).
Proof.
  unfold PostsRepository.bump. destruct (String.eqb c "likesCount"); reflexivity.
Qed.

Lemma updateLikeForPost_still_found db now postId userId userLogin status :
  Sql.select (fun p => String.eqb (Post.id p) postId && PostsRepository.is_active p)
    (posts db) <> [] ->
  Sql.select (fun p => String.eqb (Post.id p) postId && PostsRepository.is_active p)
    (posts (PostsRepository.updateLikeForPost db now postId userId userLogin status)) <> [].
Proof.
  intros H.
  assert (Hb : forall c d (ps : list Post.row),
             Sql.select (fun p => String.eqb (Post.id p) postId && PostsRepository.is_active p) ps
             <> [] ->
             Sql.select (fun p => String.eqb (Post.id p) postId && PostsRepository.is_active p)
               (Sql.update (PostsRepository.has_id postId) (PostsRepository.bump c d) ps)
             <> []).
  { intros c d ps Hps.
    rewrite (select_update (fun p => String.eqb (Post.id p) postId && PostsRepository.is_active p))
      by (intros; apply has_id_active_bump).
    intros Hnil. apply Hps.
    apply (f_equal (@length Post.row)) in Hnil. rewrite update_length in Hnil.
    destruct (Sql.select _ ps); [reflexivity|discriminate]. }
  rewrite updateLikeForPost_halves. unfold new_added, old_removed.
  destruct (negb _); cbn [posts set_posts set_likes].
  - apply Hb. destruct (Js.truthy _); cbn [posts set_posts set_likes]; [apply Hb|]; exact H.
  - destruct (Js.truthy _); cbn [posts set_posts set_likes]; [apply Hb|]; exact H.
Qed.

(** X13: when a user with a non-empty id reacts to a post that
    findPostById finds, in a store where no post reaction has an empty
    status, findPostById for that user then returns the post with
    myStatus Like or Dislike when the status sent is exactly one of
    these, and None for any other text. *)
Theorem updateLikeForPost_then_findPostById
    (db : Db) (now : Js.Date) (postId userId userLogin status : string) :
  post_statuses_set db ->
  userId <> EmptyString ->
  PostsRepository.findPostById db postId None <> None ->
  exists v,
    PostsRepository.findPostById
      (PostsRepository.updateLikeForPost db now postId userId userLogin status)
      postId (Some userId) = Some v
    /\ pv_id v = postId
    /\ el_myStatus (extendedLikesInfo v) = PostsRepository.normalizeLikeStatus status.
Proof.
  intros Hset Hu Hfound.
  assert (Hsel : Sql.select (fun p => String.eqb (Post.id p) postId && PostsRepository.is_active p)
                   (posts db) <> []).
  { intros Hnil. apply Hfound. unfold PostsRepository.findPostById. rewrite Hnil. reflexivity. }
  pose proof (updateLikeForPost_still_found db now postId userId userLogin status Hsel) as Hsel'.
  pose proof (updateLikeForPost_rows db now postId userId userLogin status
                (post_rows_deletable db postId userId Hset)) as Hrows.
  unfold PostsRepository.findPostById.
  destruct (Sql.select _ (posts (PostsRepository.updateLikeForPost _ _ _ _ _ _)))
    as [|post rest] eqn:E; [contradiction|].
  destruct (select_single_in _ _ _ _ E) as [_ Hp].
  apply andb_true_iff in Hp as [Hid _]. apply String.eqb_eq in Hid.
  eexists. split; [reflexivity|]. cbn [pv_id extendedLikesInfo el_myStatus].
  split; [exact Hid|].
  assert (Ht : Js.truthy (Some userId) = true).
  { simpl. apply negb_true_iff, String.eqb_neq. exact Hu. }
  rewrite Ht. cbn [default from_option id].
  assert (Hq : Sql.select (fun l => String.eqb (Likes.entity_id l) postId
                                    && String.eqb (Likes.user_id l) userId
                                    && String.eqb (Likes.entity_type l) "Post")
                 (likes (PostsRepository.updateLikeForPost db now postId userId userLogin status))
               = reaction_rows (PostsRepository.updateLikeForPost db now postId userId
                                  userLogin status) postId "Post" userId).
  { unfold reaction_rows, Sql.select. apply List.filter_ext. intros l.
    unfold reaction_of. destruct (String.eqb (Likes.entity_id l) postId),
      (String.eqb (Likes.user_id l) userId); reflexivity. }
  rewrite Hq, Hrows.
  pose proof (normalizeLikeStatus_values status) as Hc.
  destruct Hc as [-> | [-> | ->]]; reflexivity.
Qed.

Lemma updateLikeForPost_then_findPostById_witness :
  exists v,
    PostsRepository.findPostById
      (PostsRepository.updateLikeForPost Sample.liked 9 "P1" "a" "ann" "Dislike")
      "P1" (Some "a"%string) = Some v
    /\ el_myStatus (extendedLikesInfo v) = "Dislike"%string.
Proof.
  assert (H1 : post_statuses_set Sample.liked).
  { intros r Hr _. simpl in Hr.
    destruct Hr as [<- | [<- | [<- | [<- | []]]]]; discriminate. }
  assert (H2 : "a"%string <> EmptyString) by discriminate.
  assert (H3 : PostsRepository.findPostById Sample.liked "P1" None <> None) by discriminate.
  destruct (updateLikeForPost_then_findPostById Sample.liked 9 "P1" "a" "ann" "Dislike" H1 H2 H3)
    as (v & Hv & _ & Hs).
  exists v. split; [exact Hv|exact Hs].
Defined.

(* --------------------------------------------------------------------- *)
(* newestLikes and myStatus of a listing                                 *)
(* --------------------------------------------------------------------- *)

Lemma push_like_lookup acc curr k :
  PostsRepository.push_like acc curr !! k
  = if String.eqb (Likes.entity_id curr) k
    then Some (default [] (acc !! k) ++ [PostsRepository.newest_like curr])
    else acc !! k.
Proof.
  unfold PostsRepository.push_like.
  destruct (String.eqb_spec (Likes.entity_id curr) k) as [<- | Hne].
  - rewrite lookup_insert_eq.
    destruct (acc !! Likes.entity_id curr) eqn:E; [rewrite E; reflexivity|].
    rewrite lookup_insert_eq. reflexivity.
  - rewrite lookup_insert_ne by exact Hne.
    destruct (acc !! Likes.entity_id curr); [reflexivity|].
    apply lookup_insert_ne. exact Hne.
Qed.

Lemma reduce_push_like rows acc k :
  List.fold_left PostsRepository.push_like rows acc !! k
  = match List.filter (fun l => String.eqb (Likes.entity_id l) k) rows with
    | [] => acc !! k
    | sel => Some (default [] (acc !! k) ++ List.map PostsRepository.newest_like sel)
    end.
Proof.
  revert acc. induction rows as [|r rows IH]; intros acc; simpl; [reflexivity|].
  rewrite IH, push_like_lookup.
  destruct (String.eqb (Likes.entity_id r) k); simpl.
  - destruct (List.filter _ rows); simpl; [reflexivity|].
    rewrite <- List.app_assoc. reflexivity.
  - reflexivity.
Qed.

Lemma getNewestLikes_lookup db postIds k :
  default [] (PostsRepository.getNewestLikes db postIds !! k)
  = List.map PostsRepository.newest_like
      (List.filter (fun l => String.eqb (Likes.entity_id l) k)
         (Sql.limit 3
            (Sql.order_by (fun l => Sql.KTime (Likes.created_at l)) Sql.DESC
               (Sql.select (PostsRepository.like_of_post_in postIds) (likes db))))).
Proof.
  unfold PostsRepository.getNewestLikes. rewrite reduce_push_like, lookup_empty.
  destruct (List.filter _ _); reflexivity.
Qed.

Lemma StronglySorted_filter {A : Type} (R : A -> A -> Prop) (p : A -> bool) (l : list A) :
  StronglySorted R l -> StronglySorted R (List.filter p l).
Proof.
  induction 1 as [|a l Hl IH Hall]; simpl; [constructor|].
  destruct (p a); [|exact IH]. constructor; [exact IH|].
  rewrite List.Forall_forall in *. intros x Hx. apply Hall.
  apply List.filter_In in Hx. tauto.
Qed.

Lemma newest_first_sorted (found : list Likes.row) :
  StronglySorted (fun a b => Likes.created_at b <= Likes.created_at a)
    (Sql.limit 3 (Sql.order_by (fun l => Sql.KTime (Likes.created_at l)) Sql.DESC found)).
Proof.
  apply Sorted_StronglySorted; [intros x y z Hxy Hyz; lia|].
  unfold Sql.limit. apply Sorted_firstn.
  eapply Sorted_weaken;
    [|exact (order_by_sorted (fun l => Sql.KTime (Likes.created_at l)) Sql.DESC found)].
  intros a b Hab. apply Z.leb_le. exact Hab.
Qed.

Lemma assemble_items db pageNumber pageSize userId found totalCount v :
  In v (items (PostsRepository.assemble db pageNumber pageSize userId found totalCount)) ->
  exists p, In p found
            /\ v = PostsRepository.post_item userId
                     (if Js.truthy userId
                      then PostsRepository.getUserLikeStatuses db (List.map Post.id found)
                             (default EmptyString userId)
                      else ∅)
                     (PostsRepository.getNewestLikes db (List.map Post.id found)) p.
Proof.
  unfold PostsRepository.assemble. cbn [items]. intros H.
  apply List.in_map_iff in H as (p & <- & Hp). eauto.
Qed.

(** X14: the newestLikes a post listing shows under a post are the views
    of at most three stored reactions, each a Like of that very post, the
    most recent first: a listing never shows under a post a like given
    to another post.  This holds for getPostsByBlogId and for
    getAllPostsWithPagination. *)
Theorem listing_newestLikes_belong_to_the_post
    (db : Db) (blogId : string) (q : Query) (viewer : option string) (v : PostView) :
  In v (items_of (PostsRepository.getPostsByBlogId db blogId q viewer))
  \/ In v (items_of (PostsRepository.getAllPostsWithPagination db q viewer)) ->
  exists rows,
    newestLikes (extendedLikesInfo v) = List.map PostsRepository.newest_like rows
    /\ (length rows <= 3)%nat
    /\ (forall l, In l rows ->
          In l (likes db) /\ Likes.entity_id l = pv_id v
          /\ Likes.entity_type l = "Post"%string /\ Likes.status l = "Like"%string)
    /\ Sorted (fun a b => Likes.created_at b <= Likes.created_at a) rows.
Proof.
  intros Hv.
  assert (H : exists pn ps found total,
             In v (items (PostsRepository.assemble db pn ps viewer found total))).
  { destruct Hv as [Hv | Hv].
    - unfold PostsRepository.getPostsByBlogId in Hv.
      destruct (TypeOrm.orderBy _); [destruct Hv|]. cbn [items_of] in Hv. eauto.
    - unfold PostsRepository.getAllPostsWithPagination in Hv.
      destruct (TypeOrm.orderBy _); [destruct Hv|]. cbn [items_of] in Hv. eauto. }
  destruct H as (pn & ps & found & total & H).
  apply assemble_items in H as (p & _ & ->).
  unfold PostsRepository.post_item. cbn [extendedLikesInfo newestLikes pv_id].
  rewrite getNewestLikes_lookup.
  set (top := Sql.limit 3 _).
  exists (List.filter (fun l => String.eqb (Likes.entity_id l) (Post.id p)) top).
  split; [reflexivity|]. split; [|split].
  - etransitivity; [apply List.filter_length_le|].
    unfold top, Sql.limit. rewrite List.length_firstn.
    change (Z.to_nat 3) with 3%nat. lia.
  - intros l Hl. apply List.filter_In in Hl as [Hl Hid]. apply String.eqb_eq in Hid.
    unfold top, Sql.limit in Hl.
    assert (Hin : In l (Sql.order_by (fun l => Sql.KTime (Likes.created_at l)) Sql.DESC
                          (Sql.select (PostsRepository.like_of_post_in (List.map Post.id found))
                             (likes db)))).
    { rewrite <- (List.firstn_skipn (Z.to_nat 3)). apply List.in_or_app. auto. }
    apply (Permutation_in _ (order_by_perm _ _ _)) in Hin.
    apply List.filter_In in Hin as [Hin Hp].
    unfold PostsRepository.like_of_post_in in Hp.
    apply andb_true_iff in Hp as [Hp Hs]. apply andb_true_iff in Hp as [_ Ht].
    apply String.eqb_eq in Hs, Ht. tauto.
  - apply StronglySorted_Sorted, StronglySorted_filter. apply newest_first_sorted.
Qed.

Lemma listing_newestLikes_belong_to_the_post_witness :
  match items_of (PostsRepository.getPostsByBlogId Sample.liked "B" Sample.all None) with
  | v :: _ =>
      exists rows,
        newestLikes (extendedLikesInfo v) = List.map PostsRepository.newest_like rows
        /\ (length rows <= 3)%nat
  | [] => False
  end.
Proof.
  destruct (items_of (PostsRepository.getPostsByBlogId Sample.liked "B" Sample.all None))
    as [|v rest] eqn:E; [vm_compute in E; discriminate E|].
  assert (Hv : In v (items_of (PostsRepository.getPostsByBlogId Sample.liked "B" Sample.all None)))
    by (rewrite E; left; reflexivity).
  destruct (listing_newestLikes_belong_to_the_post Sample.liked "B" Sample.all None v
              (or_introl Hv)) as (rows & H1 & H2 & _).
  exists rows. split; [exact H1|exact H2].
Defined.




Lemma reduce_statuses (f : Likes.row -> string) rows (acc : gmap string string) k :
  (length (List.filter (fun l => String.eqb (Likes.entity_id l) k) rows) <= 1)%nat ->
  List.fold_left (fun acc curr => <[Likes.entity_id curr := f curr]> acc) rows acc !! k
  = match List.filter (fun l => String.eqb (Likes.entity_id l) k) rows with
    | [] => acc !! k
    | r :: _ => Some (f r)
    end.
Proof.
  revert acc. induction rows as [|r rows IH]; intros acc Hlen; simpl; [reflexivity|].
  simpl in Hlen.
  destruct (String.eqb_spec (Likes.entity_id r) k) as [E | E].
  - simpl in Hlen.
    assert (Hf : List.filter (fun l => String.eqb (Likes.entity_id l) k) rows = []).
    { destruct (List.filter _ rows); [reflexivity|simpl in Hlen; lia]. }
    rewrite IH by (rewrite Hf; simpl; lia). rewrite Hf, E. apply lookup_insert_eq.
  - rewrite IH by exact Hlen.
    destruct (List.filter _ rows); [|reflexivity].
    apply lookup_insert_ne. exact E.
Qed.

Lemma includes_true xs x : In x xs -> PostsRepository.includes xs x = true.
Proof.
  intros H. unfold PostsRepository.includes. apply List.existsb_exists.
  exists x. split; [exact H|apply String.eqb_refl].
Qed.

Lemma filter_filter {A : Type} (p q : A -> bool) (l : list A) :
  List.filter p (List.filter q l) = List.filter (fun x => q x && p x) l.
Proof.
  induction l as [|a l IH]; simpl; [reflexivity|].
  destruct (q a); simpl; [destruct (p a)|]; rewrite IH; reflexivity.
Qed.

Lemma getUserLikeStatuses_rows db postIds userId k :
  In k postIds ->
  List.filter (fun l => String.eqb (Likes.entity_id l) k)
    (Sql.select (fun l => PostsRepository.includes postIds (Likes.entity_id l)
                          && String.eqb (Likes.user_id l) userId
                          && String.eqb (Likes.entity_type l) "Post") (likes db))
  = reaction_rows db k "Post" userId.
Proof.
  intros Hk. unfold reaction_rows, Sql.select. rewrite filter_filter.
  apply List.filter_ext. intros l. unfold reaction_of.
  destruct (String.eqb_spec (Likes.entity_id l) k) as [-> | Hne].
  - rewrite (includes_true _ _ Hk), andb_true_r. simpl.
    destruct (String.eqb (Likes.user_id l) userId); reflexivity.
  - rewrite andb_false_r.
    destruct (String.eqb (Likes.user_id l) userId); reflexivity.
Qed.

Lemma normalize_or_else rows :
  or_else (PostsRepository.normalizeLikeStatus <$> first_status rows) LikeStatus.None
  = PostsRepository.normalizeLikeStatus (or_else (first_status rows) LikeStatus.None).
Proof.
  destruct rows as [|r rows]; [reflexivity|]. simpl.
  destruct (String.eqb_spec (Likes.status r) "") as [-> | Hne]; [reflexivity|].
  pose proof (normalizeLikeStatus_values (Likes.status r)) as Hc.
  destruct Hc as [-> | [-> | ->]]; reflexivity.
Qed.

(** X16: the post views report the viewer's reaction the same way.  For
    a viewer with a non-empty id, findPostById reports as myStatus the
    stored status of the viewer's first reaction row for the post, passed
    through normalizeLikeStatus (None when there is no row); each item of
    getPostsByBlogId and getAllPostsWithPagination reports the same value
    for its post when the viewer has at most one reaction row for it.
    Without a viewer every view reports None. *)
Theorem post_views_myStatus
    (db : Db) (blogId : string) (q : Query) (userId : string) (v : PostView) :
  userId <> EmptyString ->
  let expected :=
    PostsRepository.normalizeLikeStatus
      (or_else (CommentRepository.findUserReaction db (pv_id v) userId "Post")
         LikeStatus.None) in
  (forall postId, PostsRepository.findPostById db postId (Some userId) = Some v ->
                  el_myStatus (extendedLikesInfo v) = expected)
  /\ (In v (items_of (PostsRepository.getPostsByBlogId db blogId q (Some userId)))
      \/ In v (items_of (PostsRepository.getAllPostsWithPagination db q (Some userId))) ->
      (length (reaction_rows db (pv_id v) "Post" userId) <= 1)%nat ->
      el_myStatus (extendedLikesInfo v) = expected)
  /\ (In v (items_of (PostsRepository.getPostsByBlogId db blogId q None))
      \/ In v (items_of (PostsRepository.getAllPostsWithPagination db q None))
      \/ (exists postId, PostsRepository.findPostById db postId None = Some v) ->
      el_myStatus (extendedLikesInfo v) = LikeStatus.None).
Proof.
  intros Hu expected.
  assert (Ht : Js.truthy (Some userId) = true).
  { simpl. apply negb_true_iff, String.eqb_neq. exact Hu. }
  split; [|split].
  - intros postId. unfold PostsRepository.findPostById.
    destruct (Sql.select _ (posts db)) as [|post rest] eqn:E; [discriminate|].
    intros [= <-]. cbn [extendedLikesInfo el_myStatus].
    change (negb (String.eqb userId "")) with (Js.truthy (Some userId)). rewrite Ht.
    unfold expected. cbn [pv_id default from_option id].
    destruct (select_single_in _ _ _ _ E) as [_ Hp].
    apply andb_true_iff in Hp as [Hid _]. apply String.eqb_eq in Hid. rewrite Hid.
    unfold CommentRepository.findUserReaction. do 3 f_equal.
    unfold Sql.select. apply List.filter_ext. intros l. unfold reaction_of.
    destruct (String.eqb (Likes.entity_id l) postId),
      (String.eqb (Likes.user_id l) userId); reflexivity.
  - intros Hv Hlen.
    assert (H : exists pn ps found total,
               In v (items (PostsRepository.assemble db pn ps (Some userId) found total))).
    { destruct Hv as [Hv | Hv].
      - unfold PostsRepository.getPostsByBlogId in Hv.
        destruct (TypeOrm.orderBy _); [destruct Hv|]. cbn [items_of] in Hv. eauto.
      - unfold PostsRepository.getAllPostsWithPagination in Hv.
        destruct (TypeOrm.orderBy _); [destruct Hv|]. cbn [items_of] in Hv. eauto. }
    destruct H as (pn & ps & found & total & H).
    apply assemble_items in H as (p & Hp & Hv'). subst v expected.
    unfold PostsRepository.post_item in *.
    cbn [extendedLikesInfo el_myStatus pv_id] in *. rewrite Ht.
    cbn [default from_option id].
    assert (Hk : In (Post.id p) (List.map Post.id found)) by (apply List.in_map; exact Hp).
    unfold PostsRepository.getUserLikeStatuses.
    rewrite (reduce_statuses (fun l => PostsRepository.normalizeLikeStatus (Likes.status l)))
      by (rewrite getUserLikeStatuses_rows by exact Hk; exact Hlen).
    rewrite getUserLikeStatuses_rows by exact Hk.
    rewrite lookup_empty. unfold CommentRepository.findUserReaction, reaction_rows.
    rewrite <- normalize_or_else.
    destruct (Sql.select (reaction_of userId (Post.id p) "Post") (likes db)); reflexivity.
  - intros [Hv | [Hv | (postId & Hv)]].
    + unfold PostsRepository.getPostsByBlogId in Hv.
      destruct (TypeOrm.orderBy _); [destruct Hv|]. cbn [items_of] in Hv.
      apply assemble_items in Hv as (p & _ & ->). reflexivity.
    + unfold PostsRepository.getAllPostsWithPagination in Hv.
      destruct (TypeOrm.orderBy _); [destruct Hv|]. cbn [items_of] in Hv.
      apply assemble_items in Hv as (p & _ & ->). reflexivity.
    + unfold PostsRepository.findPostById in Hv.
      destruct (Sql.select _ (posts db)); [discriminate|].
      injection Hv as <-. reflexivity.
Qed.

Lemma post_views_myStatus_witness :
  exists v, PostsRepository.findPostById Sample.liked "P1" (Some "b"%string) = Some v
            /\ el_myStatus (extendedLikesInfo v) = "Like"%string.
Proof.
  destruct (PostsRepository.findPostById Sample.liked "P1" (Some "b"%string)) as [v|] eqn:E;
    [|vm_compute in E; discriminate E].
  exists v. split; [reflexivity|].
  assert (Hu : "b"%string <> EmptyString) by discriminate.
  rewrite (proj1 (post_views_myStatus Sample.liked "B" Sample.all "b" v Hu) "P1" E).
  vm_compute in E. injection E as <-. reflexivity.
Defined.

(* --------------------------------------------------------------------- *)
(* Counts of a comment, computed on read                                 *)
(* --------------------------------------------------------------------- *)

Lemma count_update {A : Type} (p q : A -> bool) (f : A -> A) (t : list A) :
  Sql.count p (Sql.update q f t)
  = Sql.count p t - Sql.count p (Sql.select q t) + Sql.count p (List.map f (Sql.select q t)).
Proof.
  unfold Sql.count, Sql.update, Sql.select.
  induction t as [|r t IH]; simpl; [reflexivity|].
  destruct (q r); simpl; destruct (p r); try destruct (p (f r)); simpl length; lia.
Qed.

Lemma comment_reaction_with_on_key userId commentId st r :
  reaction_of userId commentId "Comment" r = true ->
  CommentRepository.comment_reaction_with commentId st r = String.eqb (Likes.status r) st.
Proof.
  intros H. apply reaction_of_true in H as (_ & He & Ht).
  unfold CommentRepository.comment_reaction_with. rewrite He, Ht, String.eqb_refl. reflexivity.
Qed.

Lemma adjust_pair st d a b :
  adjust st d (a, b)
  = (a + (if String.eqb st "Like" then d else 0),
     b + (if String.eqb st "Dislike" then d else 0)).
Proof.
  unfold adjust. cbn [fst snd].
  destruct (String.eqb_spec st "Like") as [-> | H1]; [simpl; f_equal; lia|].
  destruct (String.eqb st "Dislike"); f_equal; lia.
Qed.

Lemma updateLikeForComment_count db now commentId userId userLogin status st :
  (length (reaction_rows db commentId "Comment" userId) <= 1)%nat ->
  st <> "None"%string ->
  Sql.count (CommentRepository.comment_reaction_with commentId st)
    (likes (CommentRepository.updateLikeForComment db now commentId userId userLogin status))
  = Sql.count (CommentRepository.comment_reaction_with commentId st) (likes db)
    - (if String.eqb (status_of db commentId userId "Comment") st then 1 else 0)
    + (if String.eqb (CommentRepository.normalizedStatus status) st then 1 else 0).
Proof.
  intros Hlen Hst. unfold reaction_rows in Hlen.
  unfold status_of, CommentRepository.findUserReaction,
    CommentRepository.updateLikeForComment.
  assert (Hnone : String.eqb "None" st = false) by (apply String.eqb_neq; congruence).
  destruct (Sql.select (reaction_of userId commentId "Comment") (likes db))
    as [|r0 rest] eqn:Hsel.
  - cbn [first_status default from_option id length Nat.ltb Nat.leb].
    unfold LikeStatus.None. rewrite Hnone.
    destruct (String.eqb_spec (CommentRepository.normalizedStatus status) "None") as [E | E];
      cbn [likes set_likes].
    + rewrite count_delete, Hsel, E, Hnone. unfold Sql.count at 2. simpl. lia.
    + rewrite count_insert.
      rewrite (comment_reaction_with_on_key userId commentId st _ (reaction_of_own _ _ _ _ _ _)).
      simpl. lia.
  - assert (rest = []) by (destruct rest; [reflexivity|simpl in Hlen; lia]). subst rest.
    destruct (select_single_in _ _ _ _ Hsel) as [_ Hk].
    cbn [first_status default from_option id length Nat.ltb Nat.leb].
    destruct (String.eqb_spec (CommentRepository.normalizedStatus status) "None") as [E | E];
      cbn [likes set_likes].
    + rewrite count_delete, Hsel, count_single, E, Hnone.
      rewrite (comment_reaction_with_on_key userId commentId st r0 Hk). lia.
    + rewrite count_update, Hsel. cbn [List.map]. rewrite !count_single.
      rewrite (comment_reaction_with_on_key userId commentId st r0 Hk).
      rewrite (comment_reaction_with_on_key userId commentId st (Likes.set_status _ r0))
        by (rewrite reaction_of_set_status; exact Hk).
      simpl. lia.
Qed.

(** X17: the counts of a comment are computed from the reaction rows on
    every read, so they follow a reaction update: when the user has at
    most one reaction row for the comment and findById finds it, findById
    after updateLikeForComment returns likesCount and dislikesCount moved
    by the transition from the stored status to the normalized new
    status (the count matching the old status one down, the count
    matching the new status one up). *)
Theorem updateLikeForComment_then_counts
    (db : Db) (now : Js.Date) (commentId userId userLogin status : string)
    (viewer : option string) (v : CommentView) :
  (length (reaction_rows db commentId "Comment" userId) <= 1)%nat ->
  CommentRepository.findById db commentId viewer = Some v ->
  exists v',
    CommentRepository.findById
      (CommentRepository.updateLikeForComment db now commentId userId userLogin status)
      commentId viewer = Some v'
    /\ (li_likesCount (likesInfo v'), li_dislikesCount (likesInfo v'))
       = adjust (CommentRepository.normalizedStatus status) 1
           (adjust (status_of db commentId userId "Comment") (-1)
              (li_likesCount (likesInfo v), li_dislikesCount (likesInfo v))).
Proof.
  intros Hlen Hv.
  destruct (updateLikeForComment_tables db now commentId userId userLogin status)
    as (Hc & _).
  unfold CommentRepository.findById in *. rewrite Hc.
  destruct (Sql.select (CommentRepository.active_with_id commentId) (comments db))
    as [|c rest]; [discriminate|].
  injection Hv as <-. eexists. split; [reflexivity|].
  cbn [likesInfo li_likesCount li_dislikesCount].
  rewrite !adjust_pair.
  rewrite !(updateLikeForComment_count db now commentId userId userLogin status)
    by (assumption || discriminate).
  f_equal; destruct (String.eqb _ _), (String.eqb _ _); lia.
Qed.

Lemma updateLikeForComment_then_counts_witness :
  exists v v',
    CommentRepository.findById Sample.db "C1" None = Some v
    /\ CommentRepository.findById
         (CommentRepository.updateLikeForComment Sample.db 10 "C1" "V" "viewer" "like")
         "C1" None = Some v'
    /\ (li_likesCount (likesInfo v'), li_dislikesCount (likesInfo v'))
       = (li_likesCount (likesInfo v) + 1, li_dislikesCount (likesInfo v)).
Proof.
  destruct (CommentRepository.findById Sample.db "C1" None) as [v|] eqn:E;
    [|vm_compute in E; discriminate E].
  assert (Hlen : (length (reaction_rows Sample.db "C1" "Comment" "V") <= 1)%nat)
    by (simpl; lia).
  destruct (updateLikeForComment_then_counts Sample.db 10 "C1" "V" "viewer" "like" None v
              Hlen E) as (v' & Hv' & Hc).
  exists v, v'. split; [reflexivity|]. split; [exact Hv'|].
  rewrite Hc. vm_compute in E. injection E as <-. reflexivity.
Defined.

(* --------------------------------------------------------------------- *)
(* A post after deletePost and after updatePost                          *)
(* --------------------------------------------------------------------- *)

Lemma NoDup_map_same {A B : Type} (f : A -> B) (l : list A) a b :
  List.NoDup (List.map f l) -> In a l -> In b l -> f a = f b -> a = b.
Proof.
  induction l as [|x l IH]; simpl; intros Hnd Ha Hb Hf; [destruct Ha|].
  inversion Hnd as [|? ? Hnotin Hnd']; subst.
  destruct Ha as [-> | Ha], Hb as [-> | Hb]; [reflexivity| | |auto].
  - exfalso. apply Hnotin. rewrite Hf. apply List.in_map. exact Hb.
  - exfalso. apply Hnotin. rewrite <- Hf. apply List.in_map. exact Ha.
Qed.

Lemma deletePost_rows db postId blogId p :
  In p (posts (fst (PostsRepository.deletePost db postId blogId))) ->
  Post.deletionStatus p = ACTIVE ->
  In p (posts db) /\ PostsRepository.post_of_blog postId blogId p = false.
Proof.
  unfold PostsRepository.deletePost. cbn [fst posts set_posts]. intros Hin Hact.
  apply in_update_inv in Hin as (p0 & Hin & ->).
  destruct (PostsRepository.post_of_blog postId blogId p0) eqn:Hhit; [discriminate Hact|].
  split; [exact Hin|exact Hhit].
Qed.

Lemma deletePost_true_row db postId blogId :
  snd (PostsRepository.deletePost db postId blogId) = true ->
  exists p, In p (posts db) /\ Post.id p = postId /\ Blog.id (Post.blog p) = blogId.
Proof.
  unfold PostsRepository.deletePost. cbn [snd].
  rewrite affected_positive. intros (p & Hin & H). exists p.
  apply post_of_blog_true in H. tauto.
Qed.

(** X18: a post removed with deletePost is no longer shown: no item of
    getPostsByBlogId for that blog has its id, whatever the query and the
    viewer; and when the ids of the posts are distinct and deletePost
    returned true, findPostById returns null for it. *)
Theorem deletePost_then_not_shown
    (db : Db) (postId blog : string) (q : Query) (viewer : option string) :
  let db' := fst (PostsRepository.deletePost db postId blog) in
  (forall v, In v (items_of (PostsRepository.getPostsByBlogId db' blog q viewer)) ->
             pv_id v <> postId)
  /\ (List.NoDup (List.map Post.id (posts db)) ->
      snd (PostsRepository.deletePost db postId blog) = true ->
      PostsRepository.findPostById db' postId viewer = None).
Proof.
  intros db'. split.
  - intros v Hv Hid.
    destruct (getPostsByBlogId_items_live db' blog q viewer v Hv)
      as (p & Hin & Hb & Hact & Hf).
    destruct (deletePost_rows db postId blog p Hin Hact) as [_ Hhit].
    assert (Hp : Post.id p = postId).
    { unfold view_fields, row_fields in Hf. injection Hf as Hf _. congruence. }
    assert (PostsRepository.post_of_blog postId blog p = true)
      by (apply post_of_blog_true; auto).
    congruence.
  - intros Hnd Hret.
    apply deletePost_true_row in Hret
      as (p1 & Hin1 & Hid1 & Hb1).
    unfold PostsRepository.findPostById.
    destruct (Sql.select _ (posts db')) as [|p rest] eqn:E; [reflexivity|exfalso].
    destruct (select_single_in _ _ _ _ E) as [Hin Hp].
    apply andb_true_iff in Hp as [Hid Hact]. apply String.eqb_eq in Hid.
    apply is_active_ACTIVE in Hact.
    destruct (deletePost_rows db postId blog p Hin Hact) as [Hin0 Hhit].
    assert (p = p1) by (apply (NoDup_map_same Post.id (posts db)); congruence).
    subst p1.
    assert (PostsRepository.post_of_blog postId blog p = true)
      by (apply post_of_blog_true; auto).
    congruence.
Qed.

Lemma deletePost_then_not_shown_witness :
  PostsRepository.findPostById (fst (PostsRepository.deletePost Sample.liked "P1" "B"))
    "P1" None = None.
Proof.
  apply (proj2 (deletePost_then_not_shown Sample.liked "P1" "B" Sample.all None)).
  - simpl. repeat constructor; simpl; intuition discriminate.
  - reflexivity.
Defined.

(** X19: after updatePost on a post that findPostById finds under the
    given blog, updatePost returns true and findPostById returns the post
    with the title, shortDescription and content of the DTO and with the
    id, blog, createdAt and extendedLikesInfo (counters, myStatus,
    newestLikes) it had before. *)
Theorem updatePost_then_findPostById
    (db : Db) (postId blog : string) (dto : UpdatePostDto)
    (viewer : option string) (v : PostView) :
  PostsRepository.findPostById db postId viewer = Some v ->
  blogId v = blog ->
  snd (PostsRepository.updatePost db postId blog dto) = true
  /\ PostsRepository.findPostById (fst (PostsRepository.updatePost db postId blog dto))
       postId viewer
     = Some (mkPostView (pv_id v) (dto_title dto) (dto_shortDescription dto) (dto_content dto)
               (blogId v) (blogName v) (pv_createdAt v) (extendedLikesInfo v)).
Proof.
  unfold PostsRepository.findPostById at 1.
  destruct (Sql.select _ (posts db)) as [|post rest] eqn:E; [discriminate|].
  intros [= <-]. cbn [blogId]. intros Hb.
  destruct (select_single_in _ _ _ _ E) as [Hin Hp].
  apply andb_true_iff in Hp as [Hid _].
  assert (Hhit : PostsRepository.post_of_blog postId blog post = true).
  { unfold PostsRepository.post_of_blog. rewrite Hid, Hb, String.eqb_refl. reflexivity. }
  unfold PostsRepository.updatePost. cbn [fst snd]. split.
  - apply affected_positive. eauto.
  - unfold PostsRepository.findPostById. cbn [posts set_posts likes].
    rewrite (select_update (fun p => String.eqb (Post.id p) postId && PostsRepository.is_active p))
      by reflexivity.
    rewrite E. cbn [Sql.update List.map]. rewrite Hhit. reflexivity.
Qed.

Lemma updatePost_then_findPostById_witness :
  exists v,
    PostsRepository.findPostById Sample.liked "P1" None = Some v
    /\ option_map (fun v' => (pv_title v', el_likesCount (extendedLikesInfo v')))
         (PostsRepository.findPostById
            (fst (PostsRepository.updatePost Sample.liked "P1" "B"
                    (mkUpdatePostDto "new title" "s" "c")))
            "P1" None)
       = Some ("new title"%string, el_likesCount (extendedLikesInfo v)).
Proof.
  destruct (PostsRepository.findPostById Sample.liked "P1" None) as [v|] eqn:E;
    [|vm_compute in E; discriminate E].
  exists v. split; [reflexivity|].
  assert (Hb : blogId v = "B"%string) by (vm_compute in E; injection E as <-; reflexivity).
  rewrite (proj2 (updatePost_then_findPostById Sample.liked "P1" "B"
                    (mkUpdatePostDto "new title" "s" "c") None v E Hb)).
  reflexivity.
Defined.

(* --------------------------------------------------------------------- *)
(* Instances of the statements above                                     *)
(* --------------------------------------------------------------------- *)

Lemma updateLikeForPost_again_witness :
  PostsRepository.updateLikeForPost
    (PostsRepository.updateLikeForPost Sample.liked 10 "P1" "b" "bob" "Dislike")
    20 "P1" "b" "bob" "Dislike"
  = PostsRepository.updateLikeForPost Sample.liked 20 "P1" "b" "bob" "Dislike".
Proof.
  apply updateLikeForPost_again.
  intros r Hr _. simpl in Hr.
  destruct Hr as [<- | [<- | [<- | [<- | []]]]]; discriminate.
Defined.

Lemma updateLikeForComment_any_case_witness :
  CommentRepository.updateLikeForComment Sample.db 10 "C1" "V" "viewer" "dISLIKE"
  = CommentRepository.updateLikeForComment Sample.db 10 "C1" "V" "viewer" "Dislike".
Proof.
  apply updateLikeForComment_any_case.
  - right. left. reflexivity.
  - reflexivity.
Defined.


(* --------------------------------------------------------------------- *)
(* The answers the store may give to ORDER BY                            *)
(* --------------------------------------------------------------------- *)

Lemma string_leb_trans a b c :
  String.leb a b = true -> String.leb b c = true -> String.leb a c = true.
Proof.
  unfold String.leb. revert b c.
  induction a as [|x a IH]; intros [|y b] [|z c]; simpl; try congruence.
  unfold Ascii.compare.
  destruct (N.compare_spec (N_of_ascii x) (N_of_ascii y)) as [Exy | Lxy | Gxy];
    try congruence;
    destruct (N.compare_spec (N_of_ascii y) (N_of_ascii z)) as [Eyz | Lyz | Gyz];
    try congruence;
    destruct (N.compare_spec (N_of_ascii x) (N_of_ascii z)) as [Exz | Lxz | Gxz];
    try congruence; try lia.
  apply IH.
Qed.

Lemma key_leb_trans a b c :
  Sql.key_leb a b = true -> Sql.key_leb b c = true -> Sql.key_leb a c = true.
Proof.
  destruct a as [x|x], b as [y|y], c as [z|z]; simpl; try congruence.
  - rewrite !Z.leb_le. lia.
  - apply string_leb_trans.
Qed.

Lemma key_leb_antisym a b :
  Sql.key_leb a b = true -> Sql.key_leb b a = true -> a = b.
Proof.
  destruct a as [x|x], b as [y|y]; simpl; try congruence.
  - rewrite !Z.leb_le. intros. f_equal. lia.
  - intros H1 H2. f_equal. apply String.leb_antisym; assumption.
Qed.

Lemma in_order_trans dir a b c : in_order dir a b -> in_order dir b c -> in_order dir a c.
Proof.
  destruct dir; simpl; intros H1 H2.
  - exact (key_leb_trans _ _ _ H1 H2).
  - exact (key_leb_trans _ _ _ H2 H1).
Qed.

Lemma in_order_antisym dir a b : in_order dir a b -> in_order dir b a -> a = b.
Proof.
  destruct dir; simpl; intros H1 H2.
  - exact (key_leb_antisym _ _ H1 H2).
  - exact (key_leb_antisym _ _ H2 H1).
Qed.

Lemma sorted_rearrangement_unique {A : Type} (R : A -> A -> Prop) (l1 l2 : list A) :
  StronglySorted R l1 -> StronglySorted R l2 -> Permutation l1 l2 ->
  (forall a b, In a l1 -> In b l1 -> R a b -> R b a -> a = b) ->
  l1 = l2.
Proof.
  intros H1. revert l2.
  induction H1 as [|a l1 Hs IH Hall]; intros l2 H2 Hp Hanti.
  - apply Permutation_nil in Hp. congruence.
  - destruct l2 as [|b l2];
      [apply Permutation_sym, Permutation_nil in Hp; discriminate|].
    apply StronglySorted_inv in H2 as [Hs2 Hall2].
    rewrite List.Forall_forall in Hall, Hall2.
    assert (Ha : In a (b :: l2)) by (apply (Permutation_in _ Hp); left; reflexivity).
    assert (Hb : In b (a :: l1))
      by (apply (Permutation_in _ (Permutation_sym Hp)); left; reflexivity).
    assert (Hab : a = b).
    { destruct Ha as [Ha | Ha]; [congruence|].
      destruct Hb as [Hb | Hb]; [congruence|].
      apply Hanti; [left; reflexivity|right; exact Hb|apply Hall; exact Hb|].
      apply Hall2. exact Ha. }
    subst b. f_equal. apply IH; [exact Hs2| |].
    + apply (Permutation_cons_inv Hp).
    + intros x y Hx Hy. apply Hanti; right; assumption.
Qed.

Section LegalAnswers.
Context {A : Type} (key : A -> Sql.Key) (dir : Sql.Direction).

(* the model's ORDER BY is one of the answers the store may give *)
Lemma order_by_legal (t : list A) : legal_answer key dir t (Sql.order_by key dir t).
Proof.
  split; [apply order_by_perm|].
  apply Sorted_StronglySorted; [|apply (order_by_sorted key dir)].
  intros a b c. apply in_order_trans.
Qed.

(* and the only one when no two rows have the same key *)
Lemma legal_answer_unique (t answer : list A) :
  distinct_keys key t -> legal_answer key dir t answer ->
  answer = Sql.order_by key dir t.
Proof.
  intros Hd [Hp Hs]. destruct (order_by_legal t) as [Hp' Hs'].
  apply (sorted_rearrangement_unique _ _ _ Hs Hs').
  - etransitivity; [exact Hp|symmetry; exact Hp'].
  - intros a b Ha Hb Hab Hba.
    apply (NoDup_map_same key t); [exact Hd| | |exact (in_order_antisym _ _ _ Hab Hba)].
    + apply (Permutation_in _ Hp). exact Ha.
    + apply (Permutation_in _ Hp). exact Hb.
Qed.

End LegalAnswers.

Lemma order_by_ext {A : Type} (key key' : A -> Sql.Key) dir (t : list A) :
  (forall x, key x = key' x) -> Sql.order_by key dir t = Sql.order_by key' dir t.
Proof.
  intros H. unfold Sql.order_by.
  induction t as [|r t IH]; simpl; [reflexivity|]. rewrite IH.
  generalize (List.fold_right (Sql.place key' dir) [] t). intros l.
  induction l as [|x l IHl]; simpl; [reflexivity|].
  unfold Sql.before. rewrite !H, IHl. reflexivity.
Qed.

Lemma sorted_comments_order_by db postId q :
  CommentRepository.sorted_comments db postId q
  = Sql.order_by (comment_sort_key q)
      (CommentRepository.sql_direction (CommentRepository.sortDirection q))
      (Sql.select (CommentRepository.active_of_post postId) (comments db)).
Proof.
  unfold CommentRepository.sorted_comments. apply order_by_ext.
  intros c. apply column_key_comment_sort_key.
Qed.

Lemma page_numbers_positive n k : In k (page_numbers n) -> 0 < k.
Proof.
  unfold page_numbers. intros H. apply List.in_map_iff in H as (j & <- & Hin).
  apply List.in_seq in Hin. lia.
Qed.

Lemma num_or_positive o d : 0 < CommentRepository.num_or o d -> 0 < d \/ exists n, o = Some n.
Proof. destruct o; eauto. Qed.

Lemma concat_pages {A B : Type} (f : Z -> list A) (g : A -> B) (ps : Z) (l : list A) :
  0 < ps ->
  (forall k, In k (page_numbers (Js.ceil_div (Z.of_nat (length l)) ps)) ->
             f k = Sql.limit ps (Sql.offset ((k - 1) * ps) l)) ->
  List.concat (List.map (fun k => List.map g (f k))
                 (page_numbers (Js.ceil_div (Z.of_nat (length l)) ps)))
  = List.map g l.
Proof.
  intros Hps Hf.
  rewrite <- (page_slices ps l Hps) at 2.
  rewrite List.concat_map, List.map_map. f_equal.
  apply List.map_ext_in. intros k Hk. rewrite (Hf k Hk). reflexivity.
Qed.

(* --------------------------------------------------------------------- *)
(* Pages of a listing                                                    *)
(* --------------------------------------------------------------------- *)

Lemma getCommentsForPost_envelope db postId q viewer :
  CommentRepository.getCommentsForPost db postId q viewer
  = mkPagination
      (Js.ceil_div (Sql.count (CommentRepository.active_of_post postId) (comments db))
         (comments_pageSize q))
      (comments_page q) (comments_pageSize q)
      (Sql.count (CommentRepository.active_of_post postId) (comments db))
      (List.map (CommentRepository.comment_item db viewer)
         (Sql.limit (comments_pageSize q)
            (Sql.offset ((comments_page q - 1) * comments_pageSize q)
               (Sql.order_by (comment_sort_key q)
                  (CommentRepository.sql_direction (CommentRepository.sortDirection q))
                  (Sql.select (CommentRepository.active_of_post postId) (comments db)))))).
Proof.
  unfold CommentRepository.getCommentsForPost. rewrite sorted_comments_order_by. reflexivity.
Qed.

Lemma getPostsByBlogId_envelope db blogId q viewer dir :
  TypeOrm.orderBy (Js.toUpperCase (default "desc"%string (q_sortDirection q))) = inr dir ->
  PostsRepository.getPostsByBlogId db blogId q viewer
  = inr (PostsRepository.assemble db (posts_page q) (posts_pageSize q) viewer
           (Sql.limit (posts_pageSize q)
              (Sql.offset ((posts_page q - 1) * posts_pageSize q)
                 (sorted_posts db blogId q dir)))
           (Z.of_nat (length (Sql.select (PostsRepository.active_of_blog blogId) (posts db))))).
Proof.
  intros Hdir. unfold PostsRepository.getPostsByBlogId. rewrite Hdir. reflexivity.
Qed.

Lemma page_rows_bounds {A : Type} (key : A -> Sql.Key) dir (t answer : list A) (n k : Z) :
  0 <= n -> legal_answer key dir t answer ->
  Z.of_nat (length (Sql.limit n (Sql.offset k answer))) <= n
  /\ forall x, In x (Sql.limit n (Sql.offset k answer)) -> In x t.
Proof.
  intros Hn [Hp _]. split; [apply limit_length; exact Hn|].
  intros x Hx. apply in_slice in Hx. apply (Permutation_in _ Hp). exact Hx.
Qed.

(** C6 (counterexample): two comments of one post created at the same
    time, listed with pageSize 1 and the default sort.  The store may
    answer the query of page 1 with the rows in one order and the query
    of page 2 with the rows in the other order; both pages then hold the
    same comment, so the pages put together repeat one row and miss the
    other: they are not a rearrangement of the matching rows. *)
Lemma listing_pages_with_tied_keys_repeat_a_row :
  let q := mkQuery (Some 1) (Some 1) None None in
  pagesCount (CommentRepository.getCommentsForPost Sample.tied "P1" q None) = 2
  /\ comment_page_rows Sample.tied "P1" (at_page q 1) [Sample.ca]
  /\ comment_page_rows Sample.tied "P1" (at_page q 2) [Sample.ca]
  /\ Sql.select (CommentRepository.active_of_post "P1") (comments Sample.tied)
     = [Sample.ca; Sample.cb]
  /\ ~ Permutation ([Sample.ca] ++ [Sample.ca]) [Sample.ca; Sample.cb].
Proof.
  intros q. split; [reflexivity|]. split; [|split; [|split; [reflexivity|]]].
  - exists [Sample.ca; Sample.cb]. split; [|reflexivity]. split; [reflexivity|].
    repeat constructor.
  - exists [Sample.cb; Sample.ca]. split; [|reflexivity]. split; [apply perm_swap|].
    repeat constructor.
  - intros Hp.
    assert (Hin : In Sample.cb ([Sample.ca] ++ [Sample.ca])).
    { apply (Permutation_in _ (Permutation_sym Hp)). right. left. reflexivity. }
    destruct Hin as [H | [H | []]]; discriminate H.
Qed.

(** C6: a listing that runs its query (page and pageSize, as given or by
    their defaults 1 and 10, positive; for the comments a sortBy that is
    not an inherited property name; for the posts a direction the query
    builder takes) returns page and pageSize as read, totalCount as the
    number of matching rows and pagesCount as the ceiling of totalCount /
    pageSize.  Its items are the views of the slice at offset
    (page - 1) * pageSize of an answer to its ORDER BY, and whatever
    answer the store gives, a page has at most pageSize rows, all of them
    matching rows.  When no two matching rows have the same sort key the
    answer is determined: the items are the views of that slice, and the
    pages 1 .. pagesCount, each fetched by its own query, put one after
    the other are the views of the sorted matching rows, every row
    once. *)
Theorem listing_pagination
    (db : Db) (postId blogId : string) (q : Query) (viewer : option string) :
  (0 < comments_page q -> 0 < comments_pageSize q -> own_sort_name q ->
   let r := CommentRepository.getCommentsForPost db postId q viewer in
   let matching := Sql.select (CommentRepository.active_of_post postId) (comments db) in
   let ps := comments_pageSize q in
   page r = comments_page q /\ pageSize r = ps
   /\ totalCount r = Z.of_nat (length matching)
   /\ (pagesCount r - 1) * ps < totalCount r <= pagesCount r * ps
   /\ (exists rows, comment_page_rows db postId q rows
                    /\ items r = List.map (CommentRepository.comment_item db viewer) rows)
   /\ (forall rows, comment_page_rows db postId q rows ->
         Z.of_nat (length rows) <= ps /\ forall c, In c rows -> In c matching)
   /\ (distinct_keys (comment_sort_key q) matching ->
       (forall rows, comment_page_rows db postId q rows ->
          items r = List.map (CommentRepository.comment_item db viewer) rows)
       /\ forall f : Z -> list Comment.row,
            (forall k, In k (page_numbers (pagesCount r)) ->
                       comment_page_rows db postId (at_page q k) (f k)) ->
            Permutation (CommentRepository.sorted_comments db postId q) matching
            /\ List.concat
                 (List.map (fun k => List.map (CommentRepository.comment_item db viewer) (f k))
                    (page_numbers (pagesCount r)))
               = List.map (CommentRepository.comment_item db viewer)
                   (CommentRepository.sorted_comments db postId q)))
  /\ (forall dir,
        0 < posts_page q -> 0 < posts_pageSize q ->
        TypeOrm.orderBy (Js.toUpperCase (default "desc"%string (q_sortDirection q))) = inr dir ->
        exists r,
          PostsRepository.getPostsByBlogId db blogId q viewer = inr r
          /\ let matching := Sql.select (PostsRepository.active_of_blog blogId) (posts db) in
             let ps := posts_pageSize q in
             page r = posts_page q /\ pageSize r = ps
             /\ totalCount r = Z.of_nat (length matching)
             /\ (pagesCount r - 1) * ps < totalCount r <= pagesCount r * ps
             /\ (exists rows, post_page_rows db blogId q dir rows
                              /\ List.map view_fields (items r) = List.map row_fields rows)
             /\ (forall rows, post_page_rows db blogId q dir rows ->
                   Z.of_nat (length rows) <= ps /\ forall p, In p rows -> In p matching)
             /\ (distinct_keys (PostsRepository.post_key (safe_sort_by q)) matching ->
                 (forall rows, post_page_rows db blogId q dir rows ->
                    List.map view_fields (items r) = List.map row_fields rows)
                 /\ forall f : Z -> list Post.row,
                      (forall k, In k (page_numbers (pagesCount r)) ->
                                 post_page_rows db blogId (at_page q k) dir (f k)) ->
                      Permutation (sorted_posts db blogId q dir) matching
                      /\ List.concat
                           (List.map (fun k => List.map row_fields (f k))
                              (page_numbers (pagesCount r)))
                         = List.map row_fields (sorted_posts db blogId q dir))).
Proof.
  split.
  - intros Hp0 Hs0 _ r matching ps.
    unfold r. rewrite getCommentsForPost_envelope.
    cbn [page pageSize totalCount pagesCount items].
    fold matching. fold ps.
    set (dir := CommentRepository.sql_direction (CommentRepository.sortDirection q)).
    set (sorted := Sql.order_by (comment_sort_key q) dir matching).
    assert (Hcount : Sql.count (CommentRepository.active_of_post postId) (comments db)
                     = Z.of_nat (length sorted)).
    { unfold sorted. rewrite order_by_length. reflexivity. }
    split; [reflexivity|]. split; [reflexivity|].
    split; [reflexivity|].
    split; [apply ceil_div_bounds; exact Hs0|].
    split.
    { eexists. split; [|reflexivity].
      exists sorted. split; [apply order_by_legal|reflexivity]. }
    split.
    { intros rows (answer & Hlegal & ->).
      assert (Hps : 0 <= ps) by (unfold ps; lia).
      apply (page_rows_bounds _ _ _ _ _ _ Hps Hlegal). }
    intros Hd. split.
    { intros rows (answer & Hlegal & ->).
      rewrite (legal_answer_unique _ _ _ _ Hd Hlegal). reflexivity. }
    intros f Hf. rewrite sorted_comments_order_by. fold matching dir sorted.
    split; [apply order_by_perm|].
    rewrite Hcount. apply concat_pages; [exact Hs0|].
    intros k Hk. rewrite <- Hcount in Hk.
    destruct (Hf k Hk) as (answer & Hlegal & ->).
    cbn [at_page comment_sort_key q_sortBy] in Hlegal.
    change (CommentRepository.sortDirection (at_page q k))
      with (CommentRepository.sortDirection q) in Hlegal.
    rewrite (legal_answer_unique _ _ _ _ Hd Hlegal).
    change (comments_pageSize (at_page q k)) with ps.
    assert (Ek : comments_page (at_page q k) = k).
    { unfold comments_page, CommentRepository.num_or. cbn [at_page q_pageNumber].
      pose proof (page_numbers_positive _ _ Hk).
      destruct (Z.eqb_spec k 0); [lia|reflexivity]. }
    rewrite Ek. reflexivity.
  - intros dir Hp0 Hs0 Hdir.
    eexists. split; [apply (getPostsByBlogId_envelope _ _ _ _ _ Hdir)|].
    intros matching ps. unfold PostsRepository.assemble.
    cbn [page pageSize totalCount pagesCount items].
    assert (Hlen : length matching = length (sorted_posts db blogId q dir)).
    { unfold sorted_posts. rewrite order_by_length. reflexivity. }
    fold matching. fold ps.
    split; [reflexivity|]. split; [reflexivity|].
    split; [reflexivity|].
    split; [apply ceil_div_bounds; exact Hs0|].
    split.
    { eexists. split.
      - exists (sorted_posts db blogId q dir). split; [apply order_by_legal|reflexivity].
      - rewrite List.map_map. apply List.map_ext. intros p. apply view_fields_item. }
    split.
    { intros rows (answer & Hlegal & ->).
      assert (Hps : 0 <= ps) by (unfold ps; lia).
      apply (page_rows_bounds _ _ _ _ _ _ Hps Hlegal). }
    intros Hd. split.
    { intros rows (answer & Hlegal & ->).
      rewrite (legal_answer_unique _ _ _ _ Hd Hlegal).
      rewrite List.map_map. apply List.map_ext. intros p. apply view_fields_item. }
    intros f Hf. split; [apply order_by_perm|].
    rewrite Hlen. apply concat_pages; [exact Hs0|].
    intros k Hk. rewrite <- Hlen in Hk.
    destruct (Hf k Hk) as (answer & Hlegal & ->).
    change (safe_sort_by (at_page q k)) with (safe_sort_by q) in Hlegal.
    rewrite (legal_answer_unique _ _ _ _ Hd Hlegal).
    reflexivity.
Qed.

Lemma listing_pagination_witness :
  let q := mkQuery None (Some 1) None None in
  (let r := CommentRepository.getCommentsForPost Sample.spread "P1" q None in
   page r = 1 /\ pageSize r = 1
   /\ (pagesCount r - 1) * 1 < totalCount r <= pagesCount r * 1
   /\ forall f : Z -> list Comment.row,
        (forall k, In k (page_numbers (pagesCount r)) ->
                   comment_page_rows Sample.spread "P1" (at_page q k) (f k)) ->
        List.concat
          (List.map (fun k => List.map (CommentRepository.comment_item Sample.spread None) (f k))
             (page_numbers (pagesCount r)))
        = List.map (CommentRepository.comment_item Sample.spread None)
            (CommentRepository.sorted_comments Sample.spread "P1" q))
  /\ exists r,
       PostsRepository.getPostsByBlogId Sample.liked "B" q None = inr r
       /\ page r = 1 /\ pageSize r = 1
       /\ (pagesCount r - 1) * 1 < totalCount r <= pagesCount r * 1
       /\ Z.of_nat (length (items r)) <= 1.
Proof.
  intros q.
  destruct (listing_pagination Sample.spread "P1" "B" q None) as [C _].
  destruct (listing_pagination Sample.liked "P1" "B" q None) as [_ P].
  split.
  - assert (Hown : own_sort_name q).
    { unfold own_sort_name, Js.object_prototype_names. intros H.
      repeat (destruct H as [H | H]; [discriminate H|]). destruct H. }
    destruct (C eq_refl eq_refl Hown) as (H1 & H2 & _ & H4 & _ & _ & H7).
    split; [exact H1|]. split; [exact H2|]. split; [exact H4|].
    intros f Hf.
    assert (Hd : distinct_keys (comment_sort_key q)
                   (Sql.select (CommentRepository.active_of_post "P1") (comments Sample.spread))).
    { unfold distinct_keys. simpl. constructor.
      - intros [H | []]. discriminate H.
      - constructor; [intros []|constructor]. }
    apply (proj2 (H7 Hd) f Hf).
  - destruct (P Sql.DESC eq_refl eq_refl eq_refl)
      as (r & Hr & H1 & H2 & _ & H4 & (rows & Hrows & Hitems) & H6 & _).
    exists r. split; [exact Hr|]. split; [exact H1|]. split; [exact H2|].
    split; [exact H4|].
    rewrite <- (List.length_map view_fields), Hitems, List.length_map.
    apply (H6 rows Hrows).
Defined.

(* --------------------------------------------------------------------- *)
(* Direction of the listings, for ASCII directions                       *)
(* --------------------------------------------------------------------- *)

Lemma getCommentsForPost_direction db postId q o viewer :
  CommentRepository.sortDirection (with_sortDirection q o) = CommentRepository.sortDirection q ->
  CommentRepository.getCommentsForPost db postId (with_sortDirection q o) viewer
  = CommentRepository.getCommentsForPost db postId q viewer.
Proof.
  intros H. unfold CommentRepository.getCommentsForPost, CommentRepository.sorted_comments.
  rewrite H. reflexivity.
Qed.


(** X23: the direction of the comment listing.  Without sortDirection the
    listing sorts descending.  With a sortDirection that equals 'asc' up
    to the case of its letters it sorts ascending and returns what the
    query with 'asc' returns.  With any other sortDirection made of ASCII
    characters it sorts descending and returns what the query without
    sortDirection returns. *)
Theorem comments_listing_direction
    (db : Db) (postId : string) (q : Query) (viewer : option string) :
  match q_sortDirection q with
  | None =>
      CommentRepository.sql_direction (CommentRepository.sortDirection q) = Sql.DESC
  | Some d =>
      (same_ignoring_case d "asc" ->
       CommentRepository.sql_direction (CommentRepository.sortDirection q) = Sql.ASC
       /\ CommentRepository.getCommentsForPost db postId q viewer
          = CommentRepository.getCommentsForPost db postId
              (with_sortDirection q (Some "asc"%string)) viewer)
      /\ (Js.is_ascii d -> ~ same_ignoring_case d "asc" ->
          CommentRepository.sql_direction (CommentRepository.sortDirection q) = Sql.DESC
          /\ CommentRepository.getCommentsForPost db postId q viewer
             = CommentRepository.getCommentsForPost db postId (with_sortDirection q None) viewer)
  end.
Proof.
  destruct (q_sortDirection q) as [d|] eqn:Hd.
  - split.
    + intros Hasc.
      assert (E : CommentRepository.sortDirection q = "ASC"%string).
      { unfold CommentRepository.sortDirection. rewrite Hd.
        apply toUpperCase_ASC in Hasc. rewrite Hasc. reflexivity. }
      split; [rewrite E; reflexivity|].
      symmetry. apply getCommentsForPost_direction. rewrite E. reflexivity.
    + intros _ Hnot.
      assert (E : CommentRepository.sortDirection q = "DESC"%string).
      { unfold CommentRepository.sortDirection. rewrite Hd.
        destruct (String.eqb_spec (Js.toUpperCase d) "ASC") as [H | H]; [|reflexivity].
        apply toUpperCase_ASC in H. contradiction. }
      split; [rewrite E; reflexivity|].
      symmetry. apply getCommentsForPost_direction. rewrite E. reflexivity.
  - unfold CommentRepository.sortDirection. rewrite Hd. reflexivity.
Qed.

Lemma comments_listing_direction_witness :
  let q := mkQuery None None None (Some "AsC"%string) in
  CommentRepository.sql_direction (CommentRepository.sortDirection q) = Sql.ASC
  /\ CommentRepository.sql_direction
       (CommentRepository.sortDirection (mkQuery None None None (Some "up"%string)))
     = Sql.DESC.
Proof.
  intros q. split.
  - apply (proj1 (comments_listing_direction Sample.spread "P1" q None)). reflexivity.
  - apply (proj2 (comments_listing_direction Sample.spread "P1"
                    (mkQuery None None None (Some "up"%string)) None)).
    + reflexivity.
    + discriminate.
Defined.


